(** * Churn library: a shallow embedding of [churn_library.py]

    The Python module drives pandas, scikit-learn and matplotlib.  The
    embedding keeps the data the script itself manipulates (frames, columns,
    the figure being drawn, the estimator settings) and the control flow of
    each function; the three libraries appear through the part of their
    documented behaviour the script relies on.

    Numbers are exact rationals ([Qc]); a floating-point [NaN] is the missing
    value [None] of a numeric column. *)

From Stdlib Require Import QArith Qcanon Qround ZArith Lia.
From stdpp Require Import base option list strings pretty gmap numbers.

(** * Values, columns and frames *)

(** A scalar as Python sees it when it iterates a column. *)
Inductive cell :=
| NaN
| Num (q : Qc)
| Str (s : string).

Global Instance cell_eq_dec : EqDecision cell.
Proof. solve_decision. Defined.

(** A column has one dtype: [float64]/[int64] (with [NaN] for a missing
    entry) or [object], which for a table that comes from a CSV file holds
    strings and [NaN]. *)
Inductive Column :=
| FloatColumn (vals : list (option Qc))
| ObjectColumn (vals : list (option string)).

Global Instance Column_eq_dec : EqDecision Column.
Proof. solve_decision. Defined.

Definition float_cell (v : option Qc) : cell :=
  match v with Some q => Num q | None => NaN end.

Definition object_cell (v : option string) : cell :=
  match v with Some s => Str s | None => NaN end.

(** The scalars of a column, in row order. *)
Definition cells (c : Column) : list cell :=
  match c with
  | FloatColumn vals => float_cell <$> vals
  | ObjectColumn vals => object_cell <$> vals
  end.

Definition is_numeric (c : Column) : bool :=
  match c with FloatColumn _ => true | ObjectColumn _ => false end.

(** Positional row selection ([iloc] with a list of positions). *)
Definition take_positions {A} (pos : list nat) (l : list A) : list A :=
  omap (fun i => l !! i) pos.

Definition column_take (pos : list nat) (c : Column) : Column :=
  match c with
  | FloatColumn vals => FloatColumn (take_positions pos vals)
  | ObjectColumn vals => ObjectColumn (take_positions pos vals)
  end.

(** A frame: the row labels and the named columns, in column order.  Column
    labels are unique in every frame the CSV reader produces; look-ups take
    the first column of a name. *)
Record DataFrame := mkDataFrame {
  index : list nat;
  columns : list (string * Column)
}.

Global Instance DataFrame_eq_dec : EqDecision DataFrame.
Proof. solve_decision. Defined.

(** A labelled column, what [df[name]] gives. *)
Record Series := mkSeries {
  s_index : list nat;
  s_values : Column
}.

Global Instance Series_eq_dec : EqDecision Series.
Proof. solve_decision. Defined.

Definition column_names (df : DataFrame) : list string := (columns df).*1.

Definition nrows (df : DataFrame) : nat := length (index df).

Fixpoint alist_lookup {A} (k : string) (l : list (string * A)) : option A :=
  match l with
  | [] => None
  | (k', v) :: l' => if decide (k' = k) then Some v else alist_lookup k l'
  end.

(** [df[name] = values]: an existing column keeps its place, a new one goes
    last. *)
Fixpoint alist_set {A} (k : string) (v : A) (l : list (string * A))
  : list (string * A) :=
  match l with
  | [] => [(k, v)]
  | (k', v') :: l' =>
      if decide (k' = k) then (k, v) :: l' else (k', v') :: alist_set k v l'
  end.

(** * Exceptions and the interpreter state *)

Inductive exn :=
| KeyError (missing : list cell)
| ValueError
| IndexError
| AttributeError
| DataError
| FileNotFoundError
| UnboundReference.

Global Instance exn_eq_dec : EqDecision exn.
Proof. solve_decision. Defined.

Inductive result (A : Type) :=
| Ok (a : A)
| Raise (e : exn).
Arguments Ok {A} a.
Arguments Raise {A} e.

Global Instance result_eq_dec `{EqDecision A} : EqDecision (result A).
Proof. solve_decision. Defined.

(** Frames are mutable objects: a variable holds a reference into the
    object store.  The state also carries the words of NumPy's process-wide
    generator. *)
Record world := mkWorld {
  heap : gmap nat DataFrame;
  np_random : list Z
}.

(** Computations that read and write a state and may raise. *)
Definition Py (S A : Type) : Type := S -> result A * S.

Definition ret {S A} (a : A) : Py S A := fun s => (Ok a, s).

Definition raise {S A} (e : exn) : Py S A := fun s => (Raise e, s).

Definition bind {S A B} (m : Py S A) (k : A -> Py S B) : Py S B :=
  fun s =>
    match m s with
    | (Ok a, s') => k a s'
    | (Raise e, s') => (Raise e, s')
    end.

Notation "'let*' x ':=' m 'in' k" := (bind m (fun x => k))
  (at level 10, x pattern, m at level 100, k at level 200,
   format "'[v' 'let*'  x  ':='  m  'in' '/' k ']'").

Definition lift {S A} (r : result A) : Py S A := fun s => (r, s).

(** A new object at an unused address. *)
Definition new_frame (df : DataFrame) : Py world nat :=
  fun w =>
    let r := fresh (dom (heap w)) in
    (Ok r, mkWorld (<[r := df]> (heap w)) (np_random w)).

Definition deref (r : nat) : Py world DataFrame :=
  fun w =>
    match heap w !! r with
    | Some df => (Ok df, w)
    | None => (Raise UnboundReference, w)
    end.

Definition modify (r : nat) (f : DataFrame -> DataFrame) : Py world unit :=
  fun w =>
    match heap w !! r with
    | Some df => (Ok tt, mkWorld (<[r := f df]> (heap w)) (np_random w))
    | None => (Raise UnboundReference, w)
    end.

(** * pandas operations used by the script *)

(** [df[name]] *)
Definition getitem (df : DataFrame) (name : string) : result Column :=
  match alist_lookup name (columns df) with
  | Some c => Ok c
  | None => Raise (KeyError [Str name])
  end.

(** [df[name] = values] *)
Definition setitem (name : string) (c : Column) (df : DataFrame) : DataFrame :=
  mkDataFrame (index df) (alist_set name c (columns df)).

(** [df.copy(deep=True)] *)
Definition copy_deep (r : nat) : Py world nat :=
  let* df := deref r in new_frame df.

(** * [import_data] *)

(** [lambda val: 0 if val == "Existing Customer" else 1] *)
Definition churn_of (val : cell) : Qc :=
  if decide (val = Str "Existing Customer") then 0%Qc else 1%Qc.

Section ImportData.

(** [pd.read_csv]: the file system as a function from paths to parsed
    tables. *)
Variable read_csv : string -> result DataFrame.

Definition import_data (pth : string) : Py world nat :=
  let* parsed := lift (read_csv pth) in
  let* df_data := new_frame parsed in
  let* df := deref df_data in
  let* flags := lift (getitem df "Attrition_Flag") in
  let* _ := modify df_data
              (setitem "Churn" (FloatColumn (Some ∘ churn_of <$> cells flags))) in
  ret df_data.

End ImportData.

(** * [encoder_helper] *)

(** ** [groupby(category).mean()] *)

(** The group-mean kernel walks the rows once and keeps, per key, the running
    sum and the number of observations that are not [NaN]. *)
Fixpoint observe (k : cell) (v : option Qc) (acc : list (cell * (Qc * nat)))
  : list (cell * (Qc * nat)) :=
  match acc with
  | [] => [(k, match v with Some q => (q, 1) | None => (0%Qc, 0) end)]
  | (k', (s, n)) :: acc' =>
      if decide (k' = k)
      then (k', match v with Some q => ((s + q)%Qc, S n) | None => (s, n) end) :: acc'
      else (k', (s, n)) :: observe k v acc'
  end.

(** Rows whose key is [NaN] belong to no group. *)
Definition observe_row (acc : list (cell * (Qc * nat))) (row : cell * option Qc)
  : list (cell * (Qc * nat)) :=
  if decide (row.1 = NaN) then acc else observe row.1 row.2 acc.

Definition Qc_of_nat (n : nat) : Qc := Q2Qc (inject_Z (Z.of_nat n)).

(** [sum / nobs], and [NaN] for a group without observations. *)
Definition finish_mean (sn : Qc * nat) : option Qc :=
  match sn.2 with
  | O => None
  | S _ => Some (sn.1 / Qc_of_nat sn.2)%Qc
  end.

Definition group_means (keys : list cell) (vals : list (option Qc))
  : list (cell * option Qc) :=
  prod_map id finish_mean <$> foldl observe_row [] (zip keys vals).

(** The aggregated frame: one keyed column of means per numeric column
    other than the key.  Columns of dtype [object] are left out, and pandas
    refuses to aggregate when nothing numeric is left. *)
Definition aggregate_column (by_ : string) (keys : list cell)
    (nc : string * Column) : option (string * list (cell * option Qc)) :=
  match nc.2 with
  | FloatColumn vals =>
      if decide (nc.1 = by_) then None else Some (nc.1, group_means keys vals)
  | ObjectColumn _ => None
  end.

Definition groupby_mean (df : DataFrame) (by_ : string)
  : result (list (string * list (cell * option Qc))) :=
  match alist_lookup by_ (columns df) with
  | None => Raise (KeyError [Str by_])
  | Some keycol =>
      match omap (aggregate_column by_ (cells keycol)) (columns df) with
      | [] => Raise DataError
      | agg => Ok agg
      end
  end.

(** [means[name]] on the aggregated frame. *)
Definition getitem_means (means : list (string * list (cell * option Qc)))
    (name : string) : result (list (cell * option Qc)) :=
  match alist_lookup name means with
  | Some g => Ok g
  | None => Raise (KeyError [Str name])
  end.

(** [column_groups.loc[val]] *)
Fixpoint loc (column_groups : list (cell * option Qc)) (val : cell)
  : result (option Qc) :=
  match column_groups with
  | [] => Raise (KeyError [val])
  | (k, m) :: rest => if decide (k = val) then Ok m else loc rest val
  end.

(** The inner loop: one look-up per row, in row order; the first failing
    look-up ends it. *)
Fixpoint lookup_each (column_groups : list (cell * option Qc))
    (vals : list cell) : result (list (option Qc)) :=
  match vals with
  | [] => Ok []
  | val :: vals' =>
      match loc column_groups val with
      | Raise e => Raise e
      | Ok m =>
          match lookup_each column_groups vals' with
          | Raise e => Raise e
          | Ok column_lst => Ok (m :: column_lst)
          end
      end
  end.

(** Python's truth value of a string: only the empty one is false. *)
Definition truthy (s : string) : bool := bool_decide (s ≠ "").

(** The name of the column the loop writes for [category]. *)
Definition target_name (response category : string) : string :=
  if truthy response then category +:+ "_" +:+ response else category.

(** ** The loop *)

Fixpoint for_each {S A} (l : list A) (body : A -> Py S unit) : Py S unit :=
  match l with
  | [] => ret tt
  | x :: l' => let* _ := body x in for_each l' body
  end.

(** The body of [for category in category_lst]. *)
Definition encode_category (encoder_df : nat) (response category : string)
  : Py world unit :=
  let* df := deref encoder_df in
  let* means := lift (groupby_mean df category) in
  let* column_groups := lift (getitem_means means "Churn") in
  let* keys := lift (getitem df category) in
  let* column_lst := lift (lookup_each column_groups (cells keys)) in
  if truthy response
  then modify encoder_df
         (setitem (category +:+ "_" +:+ response) (FloatColumn column_lst))
  else modify encoder_df (setitem category (FloatColumn column_lst)).

Definition encoder_helper (dataframe : nat) (category_lst : list string)
    (response : string) : Py world nat :=
  let* encoder_df := copy_deep dataframe in
  let* _ := for_each category_lst (encode_category encoder_df response) in
  ret encoder_df.

(** * [perform_feature_engineering] *)

Definition cat_columns : list string :=
  ["Gender"; "Education_Level"; "Marital_Status"; "Income_Category";
   "Card_Category"].

Definition keep_cols : list string :=
  ["Customer_Age"; "Dependent_count"; "Months_on_book";
   "Total_Relationship_Count"; "Months_Inactive_12_mon";
   "Contacts_Count_12_mon"; "Credit_Limit"; "Total_Revolving_Bal";
   "Avg_Open_To_Buy"; "Total_Amt_Chng_Q4_Q1"; "Total_Trans_Amt";
   "Total_Trans_Ct"; "Total_Ct_Chng_Q4_Q1"; "Avg_Utilization_Ratio";
   "Gender_Churn"; "Education_Level_Churn"; "Marital_Status_Churn";
   "Income_Category_Churn"; "Card_Category_Churn"].

(** [df[name]] as a labelled column. *)
Definition getitem_series (df : DataFrame) (name : string) : result Series :=
  match getitem df name with
  | Ok c => Ok (mkSeries (index df) c)
  | Raise e => Raise e
  end.

(** [df[keys]] with a list of labels: every label that is not a column is
    reported; otherwise the columns come in the order of [keys]. *)
Definition getitem_list (df : DataFrame) (keys : list string) : result DataFrame :=
  match filter (fun k => alist_lookup k (columns df) = None) keys with
  | [] =>
      Ok (mkDataFrame (index df)
            (omap (fun k => pair k <$> alist_lookup k (columns df)) keys))
  | missing => Raise (KeyError (Str <$> missing))
  end.

(** [df[keys] = value] with a frame on the right: the columns of [value] are
    assigned to the labels [keys] pairwise.  A frame without columns takes
    the row labels of what is assigned; the frames the script assigns carry
    the labels of the target otherwise, so no re-alignment takes place. *)
Definition setitem_list (keys : list string) (value : DataFrame)
    (df : DataFrame) : result DataFrame :=
  if decide (length (columns value) = length keys)
  then Ok (foldl (fun acc kc => setitem kc.1 kc.2.2 acc)
             (mkDataFrame
                (match columns df with [] => index value | _ => index df end)
                (columns df))
             (zip keys (columns value)))
  else Raise ValueError.

(** [x.iloc[positions]] *)
Definition iloc (pos : list nat) (df : DataFrame) : DataFrame :=
  mkDataFrame (take_positions pos (index df))
              (prod_map id (column_take pos) <$> columns df).

Definition iloc_series (pos : list nat) (s : Series) : Series :=
  mkSeries (take_positions pos (s_index s)) (column_take pos (s_values s)).

Section Split.

(** NumPy's generator: seeding, and drawing a permutation of [0 .. n-1]
    together with the state the generator is left in. *)
Variable RandomState : Z -> list Z.
Variable rng_permutation : list Z -> nat -> list nat * list Z.

(** [check_random_state] and the draw: an integer seed makes a generator of
    its own, [None] uses (and advances) the process-wide one. *)
Definition draw_permutation (random_state : option Z) (n : nat)
  : Py world (list nat) :=
  match random_state with
  | Some seed => ret (rng_permutation (RandomState seed) n).1
  | None =>
      fun w =>
        let pg := rng_permutation (np_random w) n in
        (Ok pg.1, mkWorld (heap w) pg.2)
  end.

(** [ceil(test_size * n_samples)].  The script passes the double nearest to
    0.3, which lies just below 3/10; the rounded product never passes an
    integer that the exact product does not pass, so the ceiling is that of
    the exact rational for every table that fits in memory. *)
Definition n_test_of (test_size : Q) (n_samples : nat) : nat :=
  Z.to_nat (Qceiling (test_size * inject_Z (Z.of_nat n_samples))).

(** [sklearn.model_selection.train_test_split] with a float [test_size], no
    [train_size], shuffling and no stratification. *)
Definition train_test_split (X : DataFrame) (y : Series) (test_size : Q)
    (random_state : option Z)
  : Py world (DataFrame * DataFrame * Series * Series) :=
  let n_samples := nrows X in
  if decide (length (s_index y) = n_samples) then
    if negb (Qle_bool test_size 0) && negb (Qle_bool 1 test_size) then
      let n_test := n_test_of test_size n_samples in
      let n_train := n_samples - n_test in
      if decide (n_train = 0) then raise ValueError
      else
        let* permutation := draw_permutation random_state n_samples in
        let ind_test := take n_test permutation in
        let ind_train := take n_train (drop n_test permutation) in
        ret (iloc ind_train X, iloc ind_test X,
             iloc_series ind_train y, iloc_series ind_test y)
    else raise ValueError
  else raise ValueError.

Definition perform_feature_engineering (dataframe : nat) (response : string)
  : Py world (DataFrame * DataFrame * Series * Series) :=
  let* encoded_df := encoder_helper dataframe cat_columns response in
  let* encoded := deref encoded_df in
  let* label := lift (getitem_series encoded "Churn") in
  let* features := new_frame (mkDataFrame [] []) in
  let* selected := lift (getitem_list encoded keep_cols) in
  let* empty := deref features in
  let* filled := lift (setitem_list keep_cols selected empty) in
  let* _ := modify features (fun _ => filled) in
  let* X := deref features in
  train_test_split X label (3 # 10) (Some 42%Z).

End Split.

(** * Estimators *)

(** The constructor arguments of the two scikit-learn classes the script
    instantiates, and for the forest the importances a fit leaves behind. *)
Record RandomForestClassifier := mkRandomForestClassifier {
  rf_n_estimators : nat;
  rf_criterion : string;
  rf_max_depth : option nat;
  rf_max_features : string;
  rf_n_jobs : option Z;
  rf_random_state : option Z;
  feature_importances_ : list Qc
}.

Record LogisticRegression := mkLogisticRegression {
  lr_solver : string;
  lr_max_iter : nat;
  lr_n_jobs : option Z;
  lr_random_state : option Z;
  coef_ : list Qc
}.

(** The library defaults of every argument the script leaves out. *)
Definition RandomForestClassifier_defaults : RandomForestClassifier :=
  mkRandomForestClassifier 100 "gini" None "auto" None None [].

Definition LogisticRegression_defaults : LogisticRegression :=
  mkLogisticRegression "lbfgs" 100 None None [].

(** [RandomForestClassifier(random_state=42, n_jobs=-1)] *)
Definition rfc : RandomForestClassifier :=
  let d := RandomForestClassifier_defaults in
  mkRandomForestClassifier (rf_n_estimators d) (rf_criterion d) (rf_max_depth d)
    (rf_max_features d) (Some (-1)%Z) (Some 42%Z) (feature_importances_ d).

(** [LogisticRegression(n_jobs=-1, max_iter=1000)] *)
Definition lrc : LogisticRegression :=
  let d := LogisticRegression_defaults in
  mkLogisticRegression (lr_solver d) 1000 (Some (-1)%Z) (lr_random_state d)
    (coef_ d).

(** The solvers of the linear model that draw random numbers, hence read
    [random_state]. *)
Definition lr_solver_uses_seed (solver : string) : bool :=
  bool_decide (solver ∈ ["sag"; "saga"; "liblinear"]).

Record param_grid_t := mkParamGrid {
  grid_n_estimators : list nat;
  grid_max_features : list string;
  grid_max_depth : list nat;
  grid_criterion : list string
}.

Definition param_grid : param_grid_t :=
  mkParamGrid [200; 500] ["auto"; "sqrt"] [4; 5; 100] ["gini"; "entropy"].

(** The search object; [best_estimator_] exists once the search has run. *)
Record GridSearchCV := mkGridSearchCV {
  gs_estimator : RandomForestClassifier;
  gs_param_grid : param_grid_t;
  gs_cv : nat;
  best_estimator_ : option RandomForestClassifier
}.

(** * Plotting *)

Record text_artist := mkText {
  text_x : Q;
  text_y : Q;
  text_s : string
}.

Record figure := mkFigure {
  fig_size : Q * Q;
  fig_title : string;
  fig_ylabel : string;
  fig_texts : list text_artist;
  fig_bars : list (nat * Qc);
  fig_xticks : list (nat * string);
  fig_curves : list string;
  fig_axis_on : bool
}.

Definition blank (size : Q * Q) : figure :=
  mkFigure size "" "" [] [] [] [] true.

Inductive artifact :=
| Image (fig : figure)
| PickledForest (model : RandomForestClassifier)
| PickledLogistic (model : LogisticRegression).

(** pyplot's hidden state (the figure-size default and the current figure)
    and the files written so far. *)
Record session := mkSession {
  rc_figsize : Q * Q;
  gcf : figure;
  disk : gmap string artifact
}.

Definition on_gcf (f : figure -> figure) : Py session unit :=
  fun s => (Ok tt, mkSession (rc_figsize s) (f (gcf s)) (disk s)).

(** [plt.figure(figsize=...)]: a new figure becomes the current one. *)
Definition plt_figure (figsize : option (Q * Q)) : Py session unit :=
  fun s =>
    (Ok tt, mkSession (rc_figsize s) (blank (default (rc_figsize s) figsize)) (disk s)).

(** [plt.figure().clear()] *)
Definition plt_figure_clear : Py session unit :=
  let* _ := plt_figure None in
  on_gcf (fun fig => blank (fig_size fig)).

(** [plt.rc('figure', figsize=...)]: only figures made later are affected. *)
Definition plt_rc_figsize (size : Q * Q) : Py session unit :=
  fun s => (Ok tt, mkSession size (gcf s) (disk s)).

Definition plt_text (x y : Q) (txt : string) : Py session unit :=
  on_gcf (fun fig =>
    mkFigure (fig_size fig) (fig_title fig) (fig_ylabel fig)
      (fig_texts fig ++ [mkText x y txt]) (fig_bars fig) (fig_xticks fig)
      (fig_curves fig) (fig_axis_on fig)).

Definition plt_axis_off : Py session unit :=
  on_gcf (fun fig =>
    mkFigure (fig_size fig) (fig_title fig) (fig_ylabel fig) (fig_texts fig)
      (fig_bars fig) (fig_xticks fig) (fig_curves fig) false).

Definition plt_title (txt : string) : Py session unit :=
  on_gcf (fun fig =>
    mkFigure (fig_size fig) txt (fig_ylabel fig) (fig_texts fig)
      (fig_bars fig) (fig_xticks fig) (fig_curves fig) (fig_axis_on fig)).

Definition plt_ylabel (txt : string) : Py session unit :=
  on_gcf (fun fig =>
    mkFigure (fig_size fig) (fig_title fig) txt (fig_texts fig)
      (fig_bars fig) (fig_xticks fig) (fig_curves fig) (fig_axis_on fig)).

(** [plt.bar(x, height)] with two sequences, which must agree in length. *)
Definition plt_bar (x : list nat) (height : list Qc) : Py session unit :=
  if decide (length x = length height)
  then on_gcf (fun fig =>
    mkFigure (fig_size fig) (fig_title fig) (fig_ylabel fig) (fig_texts fig)
      (fig_bars fig ++ zip x height) (fig_xticks fig) (fig_curves fig)
      (fig_axis_on fig))
  else raise ValueError.

(** [plt.xticks(ticks, labels)] *)
Definition plt_xticks (ticks : list nat) (labels : list string) : Py session unit :=
  if decide (length ticks = length labels)
  then on_gcf (fun fig =>
    mkFigure (fig_size fig) (fig_title fig) (fig_ylabel fig) (fig_texts fig)
      (fig_bars fig) (zip ticks labels) (fig_curves fig) (fig_axis_on fig))
  else raise ValueError.

(** [plot_roc_curve(estimator, ...)] adds one curve, recorded by its legend
    name. *)
Definition plot_roc_curve (name : string) : Py session unit :=
  on_gcf (fun fig =>
    mkFigure (fig_size fig) (fig_title fig) (fig_ylabel fig) (fig_texts fig)
      (fig_bars fig) (fig_xticks fig) (fig_curves fig ++ [name])
      (fig_axis_on fig)).

Definition plt_savefig (fname : string) : Py session unit :=
  fun s => (Ok tt, mkSession (rc_figsize s) (gcf s) (<[fname := Image (gcf s)]> (disk s))).

Definition joblib_dump (a : artifact) (fname : string) : Py session unit :=
  fun s => (Ok tt, mkSession (rc_figsize s) (gcf s) (<[fname := a]> (disk s))).

(** * [classification_report_image] *)

Section Reports.

(** [sklearn.metrics.classification_report(y_true, y_pred)] as text. *)
Variable classification_report : Series -> list Z -> string.

Definition classification_report_image (y_train y_test : Series)
    (y_train_preds_lr y_train_preds_rf y_test_preds_lr y_test_preds_rf : list Z)
  : Py session unit :=
  let* _ := plt_figure_clear in
  let* _ := plt_rc_figsize (6 # 1, 6 # 1) in
  let* _ := plt_text (1 # 100) (5 # 4) "Random Forest Train" in
  let* _ := plt_text (1 # 100) (1 # 20)
              (classification_report y_test y_test_preds_rf) in
  let* _ := plt_text (1 # 100) (3 # 5) "Random Forest Test" in
  let* _ := plt_text (1 # 100) (7 # 10)
              (classification_report y_train y_train_preds_rf) in
  let* _ := plt_axis_off in
  let* _ := plt_savefig "./images/results/rf_results.png" in
  let* _ := plt_figure_clear in
  let* _ := plt_rc_figsize (6 # 1, 6 # 1) in
  let* _ := plt_text (1 # 100) (5 # 4) "Logistic Regression Train" in
  let* _ := plt_text (1 # 100) (1 # 20)
              (classification_report y_train y_train_preds_lr) in
  let* _ := plt_text (1 # 100) (3 # 5) "Logistic Regression Test" in
  let* _ := plt_text (1 # 100) (7 # 10)
              (classification_report y_test y_test_preds_lr) in
  let* _ := plt_axis_off in
  plt_savefig "./images/results/logistic_results.png".

(** * [feature_importance_plot] *)

(** [np.argsort]: positions that put the scores in ascending order. *)
Variable argsort : list Qc -> list nat.

(** [[features.columns[i] for i in indices]] *)
Fixpoint columns_at (names : list string) (indices : list nat)
  : result (list string) :=
  match indices with
  | [] => Ok []
  | i :: rest =>
      match names !! i with
      | None => Raise IndexError
      | Some name =>
          match columns_at names rest with
          | Ok l => Ok (name :: l)
          | Raise e => Raise e
          end
      end
  end.

Definition feature_importance_plot (model : GridSearchCV)
    (features : DataFrame) (output_pth : string) : Py session unit :=
  let* best := lift (from_option Ok (Raise AttributeError) (best_estimator_ model)) in
  let importances := feature_importances_ best in
  let indices := reverse (argsort importances) in
  let* names := lift (columns_at (column_names features) indices) in
  let* _ := plt_figure_clear in
  let* _ := plt_figure (Some (25 # 1, 15 # 1)) in
  let* _ := plt_title "Feature Importance" in
  let* _ := plt_ylabel "Importance" in
  let* _ := plt_bar (seq 0 (length (columns features)))
              (take_positions indices importances) in
  let* _ := plt_xticks (seq 0 (length (columns features))) names in
  plt_savefig (output_pth +:+ "feature_importances.png").

(** * [train_models] *)

(** Fitting and predicting are the library's work: the search returns the
    refitted best forest, the linear fit returns the estimator with its
    coefficients, and either may fail. *)
Variable grid_search_fit :
  GridSearchCV -> DataFrame -> Series -> result RandomForestClassifier.
Variable lr_fit :
  LogisticRegression -> DataFrame -> Series -> result LogisticRegression.
Variable rf_predict : RandomForestClassifier -> DataFrame -> list Z.
Variable lr_predict : LogisticRegression -> DataFrame -> list Z.

Definition train_models (x_train x_test : DataFrame) (y_train y_test : Series)
  : Py session unit :=
  let cv_rfc := mkGridSearchCV rfc param_grid 5 None in
  let* best := lift (grid_search_fit cv_rfc x_train y_train) in
  let cv_rfc := mkGridSearchCV rfc param_grid 5 (Some best) in
  let* lrc := lift (lr_fit lrc x_train y_train) in
  let* _ := joblib_dump (PickledForest best) "./models/rfc_model.pkl" in
  let* _ := joblib_dump (PickledLogistic lrc) "./models/logistic_model.pkl" in
  let y_train_preds_rf := rf_predict best x_train in
  let y_test_preds_rf := rf_predict best x_test in
  let y_train_preds_lr := lr_predict lrc x_train in
  let y_test_preds_lr := lr_predict lrc x_test in
  let* _ := plt_figure_clear in
  let* _ := plt_figure (Some (15 # 1, 8 # 1)) in
  let* _ := plot_roc_curve "LogisticRegression" in
  let* _ := plot_roc_curve "RandomForestClassifier" in
  let* _ := plt_savefig "./images/results/roc_curve_result.png" in
  let* _ := classification_report_image y_train y_test
              y_train_preds_lr y_train_preds_rf
              y_test_preds_lr y_test_preds_rf in
  feature_importance_plot cv_rfc x_test "./images/results/".

End Reports.

(** * [perform_eda] *)

(** [df.name]: attribute access to a column; a name that is no column is no
    attribute either. *)
Definition getattr (df : DataFrame) (name : string) : result Column :=
  match alist_lookup name (columns df) with
  | Some c => Ok c
  | None => Raise AttributeError
  end.

(** A library call that draws into the current figure, or raises. *)
Definition draw (artist : figure -> result figure) : Py session unit :=
  fun s =>
    match artist (gcf s) with
    | Ok fig => (Ok tt, mkSession (rc_figsize s) fig (disk s))
    | Raise e => (Raise e, s)
    end.

Section Eda.

(** What pandas and seaborn draw is not modelled: [Series.hist()],
    [value_counts('normalize').plot(kind='bar')], [sns.histplot(..., kde=True)]
    and [sns.heatmap(df.corr(), ...)] are functions from the data and the
    figure they draw into to the figure they leave. *)
Variable series_hist : Column -> figure -> result figure.
Variable value_counts_bar : Column -> figure -> result figure.
Variable sns_histplot : Column -> figure -> result figure.
Variable sns_heatmap : DataFrame -> figure -> result figure.

Definition perform_eda (eda_df : DataFrame) : Py session unit :=
  let* _ := plt_figure_clear in
  let* _ := plt_figure (Some (20 # 1, 10 # 1)) in
  let* churn := lift (getitem eda_df "Churn") in
  let* _ := draw (series_hist churn) in
  let* _ := plt_savefig "./images/eda/churn_distribution.png" in
  let* _ := plt_figure (Some (20 # 1, 10 # 1)) in
  let* age := lift (getitem eda_df "Customer_Age") in
  let* _ := draw (series_hist age) in
  let* _ := plt_savefig "./images/eda/customer_age_distribution.png" in
  let* _ := plt_figure (Some (20 # 1, 10 # 1)) in
  let* marital := lift (getattr eda_df "Marital_Status") in
  let* _ := draw (value_counts_bar marital) in
  let* _ := plt_savefig "./images/eda/marital_status_distribution.png" in
  let* _ := plt_figure (Some (20 # 1, 10 # 1)) in
  let* trans := lift (getitem eda_df "Total_Trans_Ct") in
  let* _ := draw (sns_histplot trans) in
  let* _ := plt_savefig "./images/eda/total_transaction_distribution.png" in
  let* _ := plt_figure (Some (20 # 1, 10 # 1)) in
  let* _ := draw (sns_heatmap eda_df) in
  plt_savefig "./images/eda/heatmap.png".

End Eda.

(** * The script *)

(** The whole interpreter: the objects and pyplot with the files. *)
Record process := mkProcess {
  objects : world;
  pyplot : session
}.

Definition in_world {A} (m : Py world A) : Py process A :=
  fun p =>
    let out := m (objects p) in
    (out.1, mkProcess out.2 (pyplot p)).

Definition in_session {A} (m : Py session A) : Py process A :=
  fun p =>
    let out := m (pyplot p) in
    (out.1, mkProcess (objects p) out.2).

Section Main.

Variable read_csv : string -> result DataFrame.
Variable RandomState : Z -> list Z.
Variable rng_permutation : list Z -> nat -> list nat * list Z.
Variable series_hist : Column -> figure -> result figure.
Variable value_counts_bar : Column -> figure -> result figure.
Variable sns_histplot : Column -> figure -> result figure.
Variable sns_heatmap : DataFrame -> figure -> result figure.
Variable classification_report : Series -> list Z -> string.
Variable argsort : list Qc -> list nat.
Variable grid_search_fit :
  GridSearchCV -> DataFrame -> Series -> result RandomForestClassifier.
Variable lr_fit :
  LogisticRegression -> DataFrame -> Series -> result LogisticRegression.
Variable rf_predict : RandomForestClassifier -> DataFrame -> list Z.
Variable lr_predict : LogisticRegression -> DataFrame -> list Z.

(** The block under [if __name__ == '__main__']. *)
Definition main : Py process unit :=
  let* df_dataset := in_world (import_data read_csv "./data/bank_data.csv") in
  let* eda_df := in_world (deref df_dataset) in
  let* _ := in_session (perform_eda series_hist value_counts_bar sns_histplot
                          sns_heatmap eda_df) in
  let* splits := in_world (perform_feature_engineering RandomState
                             rng_permutation df_dataset "Churn") in
  in_session (train_models classification_report argsort grid_search_fit
                lr_fit rf_predict lr_predict
                splits.1.1.1 splits.1.1.2 splits.1.2 splits.2).

End Main.


(** * Loop summaries and reference notions

    What one iteration of the encoder does to the frame it works on, and
    the notions in which the properties are stated. *)

(** One iteration of [for category in category_lst], on the frame itself. *)
Definition encode_frame (response category : string) (df : DataFrame)
  : result DataFrame :=
  match groupby_mean df category with
  | Raise e => Raise e
  | Ok means =>
      match getitem_means means "Churn" with
      | Raise e => Raise e
      | Ok column_groups =>
          match getitem df category with
          | Raise e => Raise e
          | Ok keys =>
              match lookup_each column_groups (cells keys) with
              | Raise e => Raise e
              | Ok column_lst =>
                  Ok (setitem (target_name response category)
                        (FloatColumn column_lst) df)
              end
          end
      end
  end.

(** The whole loop: the outcome and the frame as the loop leaves it. *)
Fixpoint encode_frames (response : string) (category_lst : list string)
    (df : DataFrame) : result unit * DataFrame :=
  match category_lst with
  | [] => (Ok tt, df)
  | category :: rest =>
      match encode_frame response category df with
      | Ok df' => encode_frames response rest df'
      | Raise e => (Raise e, df)
      end
  end.

(** The observations (values that are not [NaN]) of the rows whose key is
    [k]. *)
Definition observations (k : cell) (rows : list (cell * option Qc)) : list Qc :=
  omap (fun row : cell * option Qc =>
          if decide (row.1 = k) then row.2 else None) rows.

(** The [Churn] observations of the rows that share the category value
    [k]. *)
Definition churn_of_group (keys : list cell) (churn : list (option Qc))
    (k : cell) : list Qc :=
  observations k (zip keys churn).

Definition Qc_sum (xs : list Qc) : Qc := foldr Qcplus 0%Qc xs.

(** The arithmetic mean; [None] stands for the [NaN] of an empty sample. *)
Definition mean (xs : list Qc) : option Qc :=
  match xs with
  | [] => None
  | _ => Some (Qc_sum xs / Qc_of_nat (length xs))%Qc
  end.


(** The entry of a key in the kernel's table. *)
Fixpoint acc_get (k : cell) (acc : list (cell * (Qc * nat)))
  : option (Qc * nat) :=
  match acc with
  | [] => None
  | (k', sn) :: acc' => if decide (k' = k) then Some sn else acc_get k acc'
  end.

Definition add_obs (sn : Qc * nat) (v : option Qc) : Qc * nat :=
  match v with
  | Some q => ((sn.1 + q)%Qc, S sn.2)
  | None => sn
  end.

(** What a row does to the entry of the key [k]. *)
Definition tally (k : cell) (o : option (Qc * nat)) (row : cell * option Qc)
  : option (Qc * nat) :=
  if decide (row.1 = k) then Some (add_obs (default (0%Qc, 0) o) row.2) else o.

(** No iteration writes a column that a later iteration reads as its
    category. *)
Fixpoint no_alias (response : string) (category_lst : list string) : Prop :=
  match category_lst with
  | [] => True
  | category :: rest =>
      Forall (fun later => target_name response category ≠ later) rest /\
      no_alias response rest
  end.

Section SplitSummary.

Variable RandomState : Z -> list Z.
Variable rng_permutation : list Z -> nat -> list nat * list Z.

(** The split when the caller passes an integer seed: the outcome, which
    does not involve the state. *)
Definition split_seeded (X : DataFrame) (y : Series) (test_size : Q) (seed : Z)
  : result (DataFrame * DataFrame * Series * Series) :=
  let n_samples := nrows X in
  if decide (length (s_index y) = n_samples) then
    if negb (Qle_bool test_size 0) && negb (Qle_bool 1 test_size) then
      let n_test := n_test_of test_size n_samples in
      let n_train := n_samples - n_test in
      if decide (n_train = 0) then Raise ValueError
      else
        let permutation := (rng_permutation (RandomState seed) n_samples).1 in
        let ind_test := take n_test permutation in
        let ind_train := take n_train (drop n_test permutation) in
        Ok (iloc ind_train X, iloc ind_test X,
            iloc_series ind_train y, iloc_series ind_test y)
    else Raise ValueError
  else Raise ValueError.

(** The outcome of [perform_feature_engineering] on the table [df]. *)
Definition engineered (df : DataFrame) (response : string)
  : result (DataFrame * DataFrame * Series * Series) :=
  match encode_frames response cat_columns df with
  | (Raise e, _) => Raise e
  | (Ok _, encoded) =>
      match getitem_series encoded "Churn" with
      | Raise e => Raise e
      | Ok label =>
          match getitem_list encoded keep_cols with
          | Raise e => Raise e
          | Ok selected =>
              match setitem_list keep_cols selected (mkDataFrame [] []) with
              | Raise e => Raise e
              | Ok X => split_seeded X label (3 # 10) 42
              end
          end
      end
  end.

End SplitSummary.


(** The fourteen raw columns of the feature list. *)
Definition raw_columns : list string :=
  ["Customer_Age"; "Dependent_count"; "Months_on_book";
   "Total_Relationship_Count"; "Months_Inactive_12_mon";
   "Contacts_Count_12_mon"; "Credit_Limit"; "Total_Revolving_Bal";
   "Avg_Open_To_Buy"; "Total_Amt_Chng_Q4_Q1"; "Total_Trans_Amt";
   "Total_Trans_Ct"; "Total_Ct_Chng_Q4_Q1"; "Avg_Utilization_Ratio"].

(** The names under which the feature list expects the encoded columns. *)
Definition encoded_columns : list string :=
  (fun category => category +:+ "_Churn") <$> cat_columns.

Definition is_KeyError (e : exn) : Prop :=
  match e with KeyError _ => True | _ => False end.


(** The text anchored at height [y] of a figure. *)
Fixpoint text_at_height (y : Q) (ts : list text_artist) : option string :=
  match ts with
  | [] => None
  | t :: ts' =>
      if Qeq_bool (text_y t) y then Some (text_s t) else text_at_height y ts'
  end.

(** The text directly below height [y]: of the texts anchored strictly
    lower, the one anchored highest (a block of text extends upwards from
    its anchor, so this is the block a heading at [y] stands over). *)
Fixpoint highest_below (y : Q) (ts : list text_artist) : option text_artist :=
  match ts with
  | [] => None
  | t :: ts' =>
      if Qle_bool y (text_y t) then highest_below y ts'
      else
        match highest_below y ts' with
        | Some t' => if Qle_bool (text_y t') (text_y t) then Some t else Some t'
        | None => Some t
        end
  end.

Definition text_at (fig : figure) (y : Q) : option string :=
  text_at_height y (fig_texts fig).

Definition text_below (fig : figure) (y : Q) : option string :=
  text_s <$> highest_below y (fig_texts fig).

Definition ascending (l : list Qc) : Prop :=
  forall i j a b, i <= j -> l !! i = Some a -> l !! j = Some b -> (a <= b)%Qc.

Definition descending (l : list Qc) : Prop :=
  forall i j a b, i <= j -> l !! i = Some a -> l !! j = Some b -> (b <= a)%Qc.


(** Every column has one entry per row label. *)
Definition well_formed (df : DataFrame) : Prop :=
  Forall (fun nc : string * Column => length (cells nc.2) = nrows df) (columns df).

(** The entries of a column that are numbers between 0 and 1. *)
Definition is_proportion (v : option Qc) : Prop :=
  match v with
  | Some q => (0 <= q)%Qc /\ (q <= 1)%Qc
  | None => False
  end.

Definition is_flag (v : option Qc) : Prop := v = Some 0%Qc \/ v = Some 1%Qc.

(** The column [name] of [df] holds one proportion per row. *)
Definition proportion_column (df : DataFrame) (name : string) : Prop :=
  exists encoded,
    getitem df name = Ok (FloatColumn encoded) /\
    length encoded = nrows df /\
    Forall is_proportion encoded.


(** ** What the library calls accept

    The estimators, the metrics and the report are modelled on the inputs
    scikit-learn accepts; on any other input it raises a value error before
    it computes anything. *)

(** A column of numbers without a missing entry, one per row of a table of
    [n] rows. *)
Definition complete (n : nat) (c : Column) : Prop :=
  match c with
  | FloatColumn vals => length vals = n /\ Forall is_Some vals
  | ObjectColumn _ => False
  end.

(** A feature matrix [fit] and [predict] accept: at least one row, and every
    column numeric and complete. *)
Definition numeric_complete (X : DataFrame) : Prop :=
  1 <= nrows X /\
  Forall (fun nc : string * Column => complete (nrows X) nc.2) (columns X).

(** Labels for the rows of [X]: one flag per row, under the label of the
    row. *)
Definition flags_for (y : Series) (X : DataFrame) : Prop :=
  s_index y = index X /\
  match s_values y with
  | FloatColumn vals => length vals = nrows X /\ Forall is_flag vals
  | ObjectColumn _ => False
  end.

(** A split the estimators accept: the test features have the columns the
    estimators are fitted on. *)
Definition valid_split (x_train x_test : DataFrame) (y_train y_test : Series)
  : Prop :=
  numeric_complete x_train /\ numeric_complete x_test /\
  column_names x_test = column_names x_train /\
  flags_for y_train x_train /\ flags_for y_test x_test.

(** What [classification_report] accepts: at least one sample, one
    prediction per label, and labels that are flags. *)
Definition report_defined (y_true : Series) (y_pred : list Z) : Prop :=
  1 <= length y_pred /\
  length (s_index y_true) = length y_pred /\
  match s_values y_true with
  | FloatColumn vals => length vals = length y_pred /\ Forall is_flag vals
  | ObjectColumn _ => False
  end.

(** The table [import_data] leaves for a parsed file whose [Attrition_Flag]
    column is [flags]. *)
Definition with_churn (parsed : DataFrame) (flags : Column) : DataFrame :=
  setitem "Churn" (FloatColumn (Some ∘ churn_of <$> cells flags)) parsed.

(** The files of the exploratory step and of the training step, and the
    empty figure each exploratory plot starts from. *)
Definition eda_images : list string :=
  ["./images/eda/churn_distribution.png";
   "./images/eda/customer_age_distribution.png";
   "./images/eda/marital_status_distribution.png";
   "./images/eda/total_transaction_distribution.png";
   "./images/eda/heatmap.png"].

Definition result_files : list string :=
  ["./models/rfc_model.pkl";
   "./models/logistic_model.pkl";
   "./images/results/roc_curve_result.png";
   "./images/results/rf_results.png";
   "./images/results/logistic_results.png";
   "./images/results/feature_importances.png"].

Definition canvas : figure := blank (20 # 1, 10 # 1).


(** * Sample data

    Small concrete tables on which the functions are run. *)

Definition num (z : Z) : option Qc := Some (Q2Qc (inject_Z z)).

Definition ratio (a : Z) (b : positive) : option Qc := Some (Q2Qc (a # b)).

Definition bank_csv : string := "./data/bank_data.csv".

(** Four customers with every column the pipeline reads. *)
Definition bank_table : DataFrame :=
  mkDataFrame [0; 1; 2; 3]
    [("CLIENTNUM", FloatColumn [num 768805383; num 818770008; num 713982108; num 769911858]);
     ("Attrition_Flag",
        ObjectColumn [Some "Existing Customer"; Some "Attrited Customer";
                      Some "Existing Customer"; Some "Attrited Customer"]);
     ("Customer_Age", FloatColumn [num 45; num 49; num 51; num 40]);
     ("Gender", ObjectColumn [Some "M"; Some "F"; Some "M"; Some "F"]);
     ("Dependent_count", FloatColumn [num 3; num 5; num 3; num 4]);
     ("Education_Level",
        ObjectColumn [Some "High School"; Some "Graduate"; Some "Graduate";
                      Some "High School"]);
     ("Marital_Status",
        ObjectColumn [Some "Married"; Some "Single"; Some "Married"; Some "Unknown"]);
     ("Income_Category",
        ObjectColumn [Some "$60K - $80K"; Some "Less than $40K";
                      Some "$80K - $120K"; Some "Less than $40K"]);
     ("Card_Category", ObjectColumn [Some "Blue"; Some "Blue"; Some "Blue"; Some "Blue"]);
     ("Months_on_book", FloatColumn [num 39; num 44; num 36; num 34]);
     ("Total_Relationship_Count", FloatColumn [num 5; num 6; num 4; num 3]);
     ("Months_Inactive_12_mon", FloatColumn [num 1; num 1; num 1; num 4]);
     ("Contacts_Count_12_mon", FloatColumn [num 3; num 2; num 0; num 1]);
     ("Credit_Limit", FloatColumn [num 12691; num 8256; num 3418; ratio 33133 10]);
     ("Total_Revolving_Bal", FloatColumn [num 777; num 864; num 0; num 2517]);
     ("Avg_Open_To_Buy", FloatColumn [num 11914; num 7392; num 3418; ratio 7963 10]);
     ("Total_Amt_Chng_Q4_Q1",
        FloatColumn [ratio 1335 1000; ratio 1541 1000; ratio 2594 1000; ratio 1405 1000]);
     ("Total_Trans_Amt", FloatColumn [num 1144; num 1291; num 1887; num 1171]);
     ("Total_Trans_Ct", FloatColumn [num 42; num 33; num 20; num 20]);
     ("Total_Ct_Chng_Q4_Q1",
        FloatColumn [ratio 1625 1000; ratio 3714 1000; ratio 2333 1000; ratio 2333 1000]);
     ("Avg_Utilization_Ratio",
        FloatColumn [ratio 61 1000; ratio 105 1000; num 0; ratio 76 100])].

(** A file system that holds this one file. *)
Definition bank_read_csv (pth : string) : result DataFrame :=
  if decide (pth = bank_csv) then Ok bank_table else Raise FileNotFoundError.

Definition empty_world : world := mkWorld ∅ [].

(** Two rows that share the category "A", one churned and one not. *)
Definition pair_table : DataFrame :=
  mkDataFrame [0; 1]
    [("Segment", ObjectColumn [Some "A"; Some "A"]);
     ("Churn", FloatColumn [num 0; num 1])].

Definition pair_world : world := mkWorld {[0 := pair_table]} [].

(** A table in which the column written for the first category of the list
    ["Card"; "Card_Category"] with response "Category" is the second
    category. *)
Definition alias_table : DataFrame :=
  mkDataFrame [0; 1]
    [("Card", ObjectColumn [Some "Visa"; Some "Master"]);
     ("Card_Category", ObjectColumn [Some "Blue"; Some "Blue"]);
     ("Churn", FloatColumn [num 0; num 1])].

Definition alias_world : world := mkWorld {[0 := alias_table]} [].

(** The sample table as [import_data] leaves it. *)
Definition churn_table : DataFrame :=
  setitem "Churn" (FloatColumn [num 0; num 1; num 0; num 1]) bank_table.

Definition churn_world : world := mkWorld {[0 := churn_table]} [].

(** The same table with the five encoded columns already in it, as a file
    written from an earlier run would have them. *)
Definition preencoded_table : DataFrame :=
  mkDataFrame (index churn_table)
    (columns churn_table ++
     [("Gender_Churn", FloatColumn [num 0; num 1; num 0; num 1]);
      ("Education_Level_Churn", FloatColumn [ratio 1 2; ratio 1 2; ratio 1 2; ratio 1 2]);
      ("Marital_Status_Churn", FloatColumn [num 0; num 1; num 0; num 1]);
      ("Income_Category_Churn", FloatColumn [num 0; num 1; num 0; num 1]);
      ("Card_Category_Churn", FloatColumn [ratio 1 2; ratio 1 2; ratio 1 2; ratio 1 2])]).

Definition preencoded_world : world := mkWorld {[0 := preencoded_table]} [].

(** A stand-in generator: the state is the seed, the permutation drawn is
    the reversal. *)
Definition toy_RandomState (seed : Z) : list Z := [seed].

Definition toy_permutation (g : list Z) (n : nat) : list nat * list Z :=
  (rev (seq 0 n), g).

(** A second store: the same table at another address, among other
    objects, with the process-wide generator in another state. *)
Definition other_world : world :=
  mkWorld {[0 := pair_table; 1 := churn_table]} [7%Z; 11%Z].

Definition result_default {A} (d : A) (r : result A) : A :=
  match r with Ok a => a | Raise _ => d end.

Definition no_split : DataFrame * DataFrame * Series * Series :=
  (mkDataFrame [] [], mkDataFrame [] [],
   mkSeries [] (FloatColumn []), mkSeries [] (FloatColumn [])).

(** pyplot as the interpreter starts it: the default figure size and no
    files. *)
Definition empty_session : session :=
  mkSession (32 # 5, 24 # 5) (blank (32 # 5, 24 # 5)) ∅.

Definition train_labels : Series :=
  mkSeries [1; 0; 2] (FloatColumn [num 1; num 0; num 0]).

Definition test_labels : Series := mkSeries [3] (FloatColumn [num 1]).

(** A stand-in report that tells the splits apart: it counts the rows. *)
Definition toy_report (y_true : Series) (y_pred : list Z) : string :=
  "support " +:+ pretty (length y_pred).

(** A stand-in [argsort]: insertion of each position into the positions
    sorted so far. *)
Fixpoint insert_position (scores : list Qc) (i : nat) (sorted : list nat)
  : list nat :=
  match sorted with
  | [] => [i]
  | j :: rest =>
      if decide (default 0%Qc (scores !! i) <= default 0%Qc (scores !! j))%Qc
      then i :: j :: rest
      else j :: insert_position scores i rest
  end.

Definition toy_argsort (scores : list Qc) : list nat :=
  foldr (insert_position scores) [] (seq 0 (length scores)).

Definition fitted_forest : RandomForestClassifier :=
  mkRandomForestClassifier 200 "gini" (Some 4) "auto" (Some (-1)%Z) (Some 42%Z)
    [Q2Qc (1 # 10); Q2Qc (6 # 10); Q2Qc (3 # 10)].

Definition fitted_search : GridSearchCV :=
  mkGridSearchCV rfc param_grid 5 (Some fitted_forest).

Definition three_features : DataFrame :=
  mkDataFrame [3; 2]
    [("Customer_Age", FloatColumn [num 40; num 51]);
     ("Credit_Limit", FloatColumn [ratio 33133 10; num 3418]);
     ("Total_Trans_Ct", FloatColumn [num 20; num 20])].

(** Stand-in learners: the search returns the estimator it was given with
    importances filled in, the linear fit returns its estimator, and both
    predict the majority class. *)
Definition toy_grid_search_fit (search : GridSearchCV) (X : DataFrame)
    (y : Series) : result RandomForestClassifier :=
  let e := gs_estimator search in
  Ok (mkRandomForestClassifier 200 (rf_criterion e) (Some 4) (rf_max_features e)
        (rf_n_jobs e) (rf_random_state e)
        ((fun _ => Q2Qc (1 # 19)) <$> columns X)).

Definition toy_lr_fit (model : LogisticRegression) (X : DataFrame) (y : Series)
  : result LogisticRegression :=
  Ok model.

Definition toy_rf_predict (model : RandomForestClassifier) (X : DataFrame)
  : list Z :=
  (fun _ => 0%Z) <$> index X.

Definition toy_lr_predict (model : LogisticRegression) (X : DataFrame)
  : list Z :=
  (fun _ => 0%Z) <$> index X.

(** Labels for the two rows of [three_features]. *)
Definition pair_labels : Series :=
  mkSeries [3; 2] (FloatColumn [num 1; num 0]).

(** A table in which the category of the second row is missing. *)
Definition gap_table : DataFrame :=
  mkDataFrame [0; 1]
    [("Segment", ObjectColumn [Some "A"; None]);
     ("Churn", FloatColumn [num 0; num 1])].

Definition gap_world : world := mkWorld {[0 := gap_table]} [].

(** The sample table before [Churn] is derived. *)
Definition raw_world : world := mkWorld {[0 := bank_table]} [].

(** The first customer alone. *)
Definition single_row_table : DataFrame := iloc [0] churn_table.

Definition single_row_world : world := mkWorld {[0 := single_row_table]} [].

Definition unfitted_search : GridSearchCV := mkGridSearchCV rfc param_grid 5 None.

(** A search in which every candidate fails to fit. *)
Definition failing_grid_search_fit (search : GridSearchCV) (X : DataFrame)
    (y : Series) : result RandomForestClassifier :=
  Raise ValueError.

(** Stand-in plotting calls: each leaves its name as a curve on the figure
    it draws into. *)
Definition toy_artist {A} (label : string) (data : A) (fig : figure)
  : result figure :=
  Ok (mkFigure (fig_size fig) (fig_title fig) (fig_ylabel fig) (fig_texts fig)
        (fig_bars fig) (fig_xticks fig) (fig_curves fig ++ [label])
        (fig_axis_on fig)).

Definition toy_hist : Column -> figure -> result figure := toy_artist "hist".

Definition toy_bar : Column -> figure -> result figure := toy_artist "bar".

Definition toy_histplot : Column -> figure -> result figure :=
  toy_artist "histplot".

Definition toy_heatmap : DataFrame -> figure -> result figure :=
  toy_artist "heatmap".

(** A table with the first two plotted columns only. *)
Definition ages_table : DataFrame :=
  mkDataFrame [0; 1]
    [("Customer_Age", FloatColumn [num 45; num 49]);
     ("Churn", FloatColumn [num 0; num 1])].

(** A file system that holds the first customer alone, and one that holds
    nothing. *)
Definition lone_read_csv (pth : string) : result DataFrame :=
  if decide (pth = bank_csv) then Ok (iloc [0] bank_table)
  else Raise FileNotFoundError.

Definition no_read_csv (pth : string) : result DataFrame :=
  Raise FileNotFoundError.

(** The interpreter as the script starts. *)
Definition start : process := mkProcess empty_world empty_session.


(** * Properties *)

(** ** Association lists and frames *)

Lemma alist_lookup_set_eq {A} k (v : A) l :
  alist_lookup k (alist_set k v l) = Some v.
Proof.
  induction l as [|[k' v'] l IH]; simpl.
  - by rewrite decide_True.
  - destruct (decide (k' = k)) as [->|Hne]; simpl.
    + by rewrite decide_True.
    + by rewrite decide_False.
Qed.

Lemma alist_lookup_set_ne {A} k k' (v : A) l :
  k ≠ k' -> alist_lookup k' (alist_set k v l) = alist_lookup k' l.
Proof.
  intros Hne. induction l as [|[k0 v0] l IH]; simpl.
  - by rewrite decide_False.
  - destruct (decide (k0 = k)) as [->|Hne0]; simpl.
    + by rewrite !decide_False.
    + by rewrite IH.
Qed.

Lemma getitem_setitem_eq name c df :
  getitem (setitem name c df) name = Ok c.
Proof. unfold getitem, setitem; simpl. by rewrite alist_lookup_set_eq. Qed.

Lemma getitem_setitem_ne name name' c df :
  name ≠ name' -> getitem (setitem name c df) name' = getitem df name'.
Proof.
  intros Hne. unfold getitem, setitem; simpl.
  by rewrite alist_lookup_set_ne.
Qed.

(** ** The object store *)

Lemma fresh_unused (h : gmap nat DataFrame) : h !! fresh (dom h) = None.
Proof. apply not_elem_of_dom, is_fresh. Qed.

(** ** [import_data] *)

Lemma churn_of_cases val :
  (val = Str "Existing Customer" /\ churn_of val = 0%Qc) \/
  (val ≠ Str "Existing Customer" /\ churn_of val = 1%Qc).
Proof. unfold churn_of. destruct (decide _); auto. Qed.

(** What a successful load leaves in the store. *)
Lemma import_data_inv read_csv pth w r w' :
  import_data read_csv pth w = (Ok r, w') ->
  exists parsed flags,
    read_csv pth = Ok parsed /\
    getitem parsed "Attrition_Flag" = Ok flags /\
    heap w' !! r =
      Some (setitem "Churn" (FloatColumn (Some ∘ churn_of <$> cells flags)) parsed).
Proof.
  unfold import_data, bind, lift, new_frame, deref, modify, ret; simpl.
  destruct (read_csv pth) as [parsed|e]; [|discriminate].
  rewrite lookup_insert_eq.
  destruct (getitem parsed "Attrition_Flag") as [flags|e] eqn:Hflags;
    [|discriminate].
  simpl. rewrite lookup_insert_eq. intros [= <- <-].
  exists parsed, flags. simpl. by rewrite lookup_insert_eq.
Qed.

(** C1.  After a successful [import_data] the frame has a [Churn] column
    that holds, row by row, 1 where [Attrition_Flag] is not the string
    "Existing Customer" and 0 where it is; and two loads whose
    [Attrition_Flag] columns agree produce the same [Churn] column. *)
Theorem import_data_churn read_csv pth w r w' :
  import_data read_csv pth w = (Ok r, w') ->
  exists df flags churn,
    heap w' !! r = Some df /\
    getitem df "Attrition_Flag" = Ok flags /\
    getitem df "Churn" = Ok (FloatColumn churn) /\
    length churn = length (cells flags) /\
    (forall i val, cells flags !! i = Some val ->
       (val = Str "Existing Customer" -> churn !! i = Some (Some 0%Qc)) /\
       (val ≠ Str "Existing Customer" -> churn !! i = Some (Some 1%Qc)) /\
       (churn !! i = Some (Some 1%Qc) <-> val ≠ Str "Existing Customer")) /\
    (forall read_csv2 pth2 w2 r2 w2' df2,
       import_data read_csv2 pth2 w2 = (Ok r2, w2') ->
       heap w2' !! r2 = Some df2 ->
       getitem df2 "Attrition_Flag" = Ok flags ->
       getitem df2 "Churn" = Ok (FloatColumn churn)).
Proof.
  intros Hrun.
  destruct (import_data_inv _ _ _ _ _ Hrun) as (parsed & flags & _ & Hflags & Hdf).
  eexists _, flags, _. split; [exact Hdf|].
  split; [by rewrite getitem_setitem_ne|].
  split; [apply getitem_setitem_eq|].
  split; [by rewrite length_fmap|].
  split.
  - intros i val Hval. rewrite list_lookup_fmap, Hval. simpl.
    destruct (churn_of_cases val) as [[Heq ->]|[Hne ->]].
    + split; [done|]. split; [done|]. split; [|done].
      intros [=].
    + split; [done|]. by split.
  - intros read_csv2 pth2 w2 r2 w2' df2 Hrun2 Hdf2 Hflags2.
    destruct (import_data_inv _ _ _ _ _ Hrun2)
      as (parsed2 & flags2 & _ & Hf2 & Hdf2').
    rewrite Hdf2 in Hdf2'. injection Hdf2' as ->.
    rewrite getitem_setitem_ne in Hflags2 by done.
    rewrite Hf2 in Hflags2. injection Hflags2 as ->.
    apply getitem_setitem_eq.
Qed.

Lemma import_data_churn_witness :
  exists r w' df,
    import_data bank_read_csv bank_csv empty_world = (Ok r, w') /\
    heap w' !! r = Some df /\
    getitem df "Churn" = Ok (FloatColumn [num 0; num 1; num 0; num 1]).
Proof.
  assert (Hrun : import_data bank_read_csv bank_csv empty_world
                 = (Ok (fresh (dom (heap empty_world))),
                    (import_data bank_read_csv bank_csv empty_world).2))
    by reflexivity.
  destruct (import_data_churn _ _ _ _ _ Hrun)
    as (df & flags & churn & Hdf & Hflags & Hchurn & _ & _ & _).
  eexists _, _, df. split; [exact Hrun|]. split; [exact Hdf|].
  vm_compute in Hdf. injection Hdf as <-.
  reflexivity.
Defined.

(** ** The encoder loop and the store *)

Lemma world_eta w : mkWorld (heap w) (np_random w) = w.
Proof. by destruct w. Qed.

Lemma encode_category_run r response category w df :
  heap w !! r = Some df ->
  encode_category r response category w =
    match encode_frame response category df with
    | Ok df' => (Ok tt, mkWorld (<[r := df']> (heap w)) (np_random w))
    | Raise e => (Raise e, w)
    end.
Proof.
  intros Hr.
  unfold encode_category, encode_frame, bind, lift, deref. rewrite Hr.
  destruct (groupby_mean df category) as [means|e]; [|done].
  destruct (getitem_means means "Churn") as [column_groups|e]; [|done].
  destruct (getitem df category) as [keys|e]; [|done].
  destruct (lookup_each column_groups (cells keys)) as [column_lst|e]; [|done].
  unfold target_name, modify.
  destruct (truthy response); by rewrite Hr.
Qed.

Lemma for_each_encode_run r response category_lst w df :
  heap w !! r = Some df ->
  for_each category_lst (encode_category r response) w =
    ((encode_frames response category_lst df).1,
     mkWorld (<[r := (encode_frames response category_lst df).2]> (heap w))
             (np_random w)).
Proof.
  revert w df. induction category_lst as [|category rest IH]; intros w df Hr.
  - simpl. unfold ret. by rewrite insert_id, world_eta.
  - simpl. unfold bind. rewrite (encode_category_run _ _ _ _ _ Hr).
    destruct (encode_frame response category df) as [df'|e]; simpl.
    + rewrite (IH _ df') by (simpl; apply lookup_insert_eq).
      simpl. by rewrite insert_insert_eq.
    + by rewrite insert_id, world_eta.
Qed.

(** The encoder works on a copy at a fresh address. *)
Lemma encoder_helper_run r category_lst response w df :
  heap w !! r = Some df ->
  encoder_helper r category_lst response w =
    (match (encode_frames response category_lst df).1 with
     | Ok _ => Ok (fresh (dom (heap w)))
     | Raise e => Raise e
     end,
     mkWorld (<[fresh (dom (heap w)) :=
                  (encode_frames response category_lst df).2]> (heap w))
             (np_random w)).
Proof.
  intros Hr. unfold encoder_helper, copy_deep, bind, deref, new_frame, ret.
  rewrite Hr.
  rewrite (for_each_encode_run _ _ _ _ df) by (simpl; apply lookup_insert_eq).
  simpl. rewrite insert_insert_eq.
  by destruct (encode_frames response category_lst df).1 as [[]|e].
Qed.

Lemma encoder_helper_unbound r category_lst response w :
  heap w !! r = None ->
  encoder_helper r category_lst response w = (Raise UnboundReference, w).
Proof.
  intros Hr. unfold encoder_helper, copy_deep, bind, deref. by rewrite Hr.
Qed.

(** ** Shape of the encoded frame *)

Lemma alist_set_names_in {A} k (v : A) l :
  k ∈ l.*1 -> (alist_set k v l).*1 = l.*1.
Proof.
  induction l as [|[k' v'] l IH]; csimpl; intros Hin.
  - by apply elem_of_nil in Hin.
  - destruct (decide (k' = k)) as [->|Hne]; csimpl; [done|].
    apply elem_of_cons in Hin as [->|Hin]; [done|]. by rewrite IH.
Qed.

Lemma alist_set_names_notin {A} k (v : A) l :
  k ∉ l.*1 -> (alist_set k v l).*1 = l.*1 ++ [k].
Proof.
  induction l as [|[k' v'] l IH]; csimpl; intros Hin; [done|].
  apply not_elem_of_cons in Hin as [Hne Hin].
  rewrite decide_False by done. csimpl. by rewrite IH.
Qed.

Lemma alist_lookup_None {A} k (l : list (string * A)) :
  alist_lookup k l = None <-> k ∉ l.*1.
Proof.
  induction l as [|[k' v'] l IH]; csimpl.
  - split; [intros _; apply not_elem_of_nil|done].
  - destruct (decide (k' = k)) as [->|Hne].
    + split; [done|]. intros Hn. exfalso. apply Hn. left.
    + rewrite IH, not_elem_of_cons.
      split; [intros; split; [congruence|done] | by intros [_ ?]].
Qed.

Lemma encode_frame_index response category df df' :
  encode_frame response category df = Ok df' -> index df' = index df.
Proof.
  unfold encode_frame. intros H.
  repeat match type of H with
         | match ?x with _ => _ end = _ => destruct x; try discriminate
         end.
  by injection H as <-.
Qed.

Lemma encode_frame_inplace_names category df df' :
  encode_frame "" category df = Ok df' -> column_names df' = column_names df.
Proof.
  unfold encode_frame. intros H.
  destruct (groupby_mean df category); [|done].
  destruct (getitem_means _ _); [|done].
  destruct (getitem df category) as [keys|] eqn:Hk; [|done].
  destruct (lookup_each _ _); [|done].
  injection H as <-. unfold column_names, setitem, target_name; simpl.
  apply alist_set_names_in.
  unfold getitem in Hk.
  destruct (alist_lookup category (columns df)) eqn:Hl; [|done].
  destruct (decide (category ∈ (columns df).*1)) as [|Hn]; [done|].
  apply alist_lookup_None in Hn. congruence.
Qed.

Lemma encode_frames_index response category_lst df :
  index (encode_frames response category_lst df).2 = index df.
Proof.
  revert df. induction category_lst as [|c rest IH]; intros df; simpl; [done|].
  destruct (encode_frame response c df) as [df'|e] eqn:E; [|done].
  rewrite IH. eauto using encode_frame_index.
Qed.

Lemma encode_frames_inplace_names category_lst df :
  column_names (encode_frames "" category_lst df).2 = column_names df.
Proof.
  revert df. induction category_lst as [|c rest IH]; intros df; simpl; [done|].
  destruct (encode_frame "" c df) as [df'|e] eqn:E; [|done].
  rewrite IH. eauto using encode_frame_inplace_names.
Qed.

Lemma encode_frame_names_incl response category df df' name :
  encode_frame response category df = Ok df' ->
  name ∈ column_names df -> name ∈ column_names df'.
Proof.
  unfold encode_frame. intros H Hin.
  repeat match type of H with
         | match ?x with _ => _ end = _ => destruct x; try discriminate
         end.
  injection H as <-. unfold column_names, setitem; simpl.
  destruct (decide (target_name response category ∈ (columns df).*1)).
  - by rewrite alist_set_names_in.
  - rewrite alist_set_names_notin by done. apply elem_of_app. by left.
Qed.

Lemma encode_frames_names_incl response category_lst df name :
  name ∈ column_names df ->
  name ∈ column_names (encode_frames response category_lst df).2.
Proof.
  revert df. induction category_lst as [|c rest IH]; intros df Hin; simpl; [done|].
  destruct (encode_frame response c df) as [df'|e] eqn:E; [|done].
  eauto using encode_frame_names_incl.
Qed.

(** C6.  Whatever the outcome, every frame that existed before the call to
    [encoder_helper], the caller's table among them, is the same afterwards;
    on success the result is a new object, distinct from the argument, with
    the row labels of the input, every column name of the input, and in
    in-place mode exactly the column names of the input. *)
Theorem encoder_helper_frame w dataframe category_lst response r0 df0 :
  heap w !! r0 = Some df0 ->
  heap (encoder_helper dataframe category_lst response w).2 !! r0 = Some df0 /\
  (forall r' w' df,
     encoder_helper dataframe category_lst response w = (Ok r', w') ->
     heap w !! dataframe = Some df ->
     heap w !! r' = None /\ r' ≠ dataframe /\
     heap w' !! dataframe = Some df /\
     exists df', heap w' !! r' = Some df' /\
       index df' = index df /\
       (forall name, name ∈ column_names df -> name ∈ column_names df') /\
       (response = "" -> column_names df' = column_names df)).
Proof.
  intros Hr0. split.
  - destruct (heap w !! dataframe) as [df|] eqn:Hdf.
    + rewrite (encoder_helper_run _ _ _ _ _ Hdf). simpl.
      rewrite lookup_insert_ne; [done|].
      intros Heq. pose proof (fresh_unused (heap w)) as Hf.
      rewrite Heq in Hf. congruence.
    + by rewrite (encoder_helper_unbound _ _ _ _ Hdf).
  - intros r' w' df Hrun Hdf.
    rewrite (encoder_helper_run _ _ _ _ _ Hdf) in Hrun.
    destruct (encode_frames response category_lst df).1 eqn:E; [|done].
    injection Hrun as <- <-. simpl.
    pose proof (fresh_unused (heap w)) as Hf.
    assert (fresh (dom (heap w)) ≠ dataframe) as Hne by congruence.
    split; [done|]. split; [done|].
    split; [by rewrite lookup_insert_ne|].
    eexists. split; [apply lookup_insert_eq|].
    split; [apply encode_frames_index|].
    split; [intros; by apply encode_frames_names_incl|].
    intros ->. apply encode_frames_inplace_names.
Qed.

Lemma encoder_helper_frame_witness :
  heap pair_world !! 0 = Some pair_table /\
  heap (encoder_helper 0 ["Segment"] "Churn" pair_world).2 !! 0 = Some pair_table.
Proof.
  split; [reflexivity|].
  apply (encoder_helper_frame pair_world 0 ["Segment"] "Churn" 0 pair_table).
  reflexivity.
Defined.

(** ** The group-mean kernel *)

Lemma acc_get_observe_eq k v acc :
  acc_get k (observe k v acc) = Some (add_obs (default (0%Qc, 0) (acc_get k acc)) v).
Proof.
  induction acc as [|[k' [s n]] acc IH]; simpl.
  - rewrite decide_True by done. destruct v; simpl; [|done].
    by rewrite Qcplus_0_l.
  - destruct (decide (k' = k)) as [->|Hne]; simpl.
    + rewrite decide_True by done. by destruct v.
    + by rewrite decide_False.
Qed.

Lemma acc_get_observe_ne k k' v acc :
  k ≠ k' -> acc_get k' (observe k v acc) = acc_get k' acc.
Proof.
  intros Hne. induction acc as [|[k0 [s n]] acc IH]; simpl.
  - by rewrite decide_False.
  - destruct (decide (k0 = k)) as [->|Hne0]; simpl.
    + by rewrite !decide_False.
    + by rewrite IH.
Qed.

Lemma acc_get_foldl k acc rows :
  k ≠ NaN ->
  acc_get k (foldl observe_row acc rows) = foldl (tally k) (acc_get k acc) rows.
Proof.
  intros Hk. revert acc. induction rows as [|[k' v] rows IH]; intros acc; [done|].
  simpl. rewrite IH. f_equal. unfold observe_row, tally; simpl.
  destruct (decide (k' = NaN)) as [->|Hn].
  - by rewrite decide_False.
  - destruct (decide (k' = k)) as [->|Hne].
    + apply acc_get_observe_eq.
    + by apply acc_get_observe_ne.
Qed.

Lemma acc_get_foldl_NaN acc rows :
  acc_get NaN (foldl observe_row acc rows) = acc_get NaN acc.
Proof.
  revert acc. induction rows as [|[k' v] rows IH]; intros acc; [done|].
  simpl. rewrite IH. unfold observe_row; simpl.
  destruct (decide (k' = NaN)) as [->|Hn]; [done|].
  by apply acc_get_observe_ne.
Qed.

Lemma Qc_of_nat_S n : Qc_of_nat (S n) = (Qc_of_nat n + 1)%Qc.
Proof.
  unfold Qc_of_nat. apply Qc_is_canon. simpl.
  rewrite !Qred_correct. unfold Qeq; simpl. lia.
Qed.

Lemma tally_Some k s n rows :
  foldl (tally k) (Some (s, n)) rows =
    Some ((s + Qc_sum (observations k rows))%Qc,
          n + length (observations k rows)).
Proof.
  revert s n. induction rows as [|[k' v] rows IH]; intros s n; simpl.
  - by rewrite Qcplus_0_r, Nat.add_0_r.
  - unfold tally at 2; simpl. destruct (decide (k' = k)) as [->|Hne].
    + destruct v as [q|]; simpl; rewrite IH.
      * f_equal. f_equal; [ring | lia].
      * done.
    + by rewrite IH.
Qed.

Lemma tally_None k rows :
  finish_mean <$> foldl (tally k) None rows =
    if decide (k ∈ rows.*1) then Some (mean (observations k rows)) else None.
Proof.
  induction rows as [|[k' v] rows IH]; csimpl.
  - done.
  - unfold tally at 2; simpl. destruct (decide (k' = k)) as [->|Hne].
    + rewrite decide_True by left. simpl.
      destruct v as [q|]; simpl; rewrite tally_Some; simpl.
      * unfold finish_mean, mean; simpl. do 3 f_equal. ring.
      * unfold finish_mean, mean; simpl.
        destruct (observations k rows) as [|x xs]; simpl; [done|].
        do 3 f_equal. ring.
    + rewrite IH. destruct (decide (k ∈ rows.*1)) as [Hin|Hn].
      * rewrite decide_True; [done | by right].
      * rewrite decide_False; [done|]. rewrite not_elem_of_cons. split; congruence.
Qed.

Lemma loc_finish acc k :
  loc (prod_map id finish_mean <$> acc) k =
    match acc_get k acc with
    | Some sn => Ok (finish_mean sn)
    | None => Raise (KeyError [k])
    end.
Proof.
  induction acc as [|[k' sn] acc IH]; csimpl; [done|].
  by destruct (decide (k' = k)).
Qed.

(** A look-up in the table of group means succeeds exactly for the keys
    that occur and are not [NaN], and gives the mean of the group. *)
Lemma loc_group_means keys vals k :
  loc (group_means keys vals) k =
    if decide (k ≠ NaN /\ k ∈ (zip keys vals).*1)
    then Ok (mean (observations k (zip keys vals)))
    else Raise (KeyError [k]).
Proof.
  unfold group_means. rewrite loc_finish.
  destruct (decide (k = NaN)) as [->|Hk].
  - by rewrite acc_get_foldl_NaN.
  - rewrite acc_get_foldl by done. simpl.
    pose proof (tally_None k (zip keys vals)) as Ht.
    destruct (foldl (tally k) None (zip keys vals)) as [sn|]; simpl in Ht.
    + destruct (decide (k ∈ (zip keys vals).*1)); [|done].
      rewrite decide_True by done. by injection Ht as ->.
    + destruct (decide (k ∈ (zip keys vals).*1)); [done|].
      rewrite decide_False; [done|]. by intros [_ ?].
Qed.

Lemma lookup_each_Ok column_groups vals column_lst :
  lookup_each column_groups vals = Ok column_lst ->
  length column_lst = length vals /\
  forall i val, vals !! i = Some val ->
    exists m, column_lst !! i = Some m /\ loc column_groups val = Ok m.
Proof.
  revert column_lst. induction vals as [|val vals IH]; intros column_lst; simpl.
  - intros [= <-]. split; [done|]. intros i val Hi. by rewrite lookup_nil in Hi.
  - destruct (loc column_groups val) as [m|e] eqn:Hloc; [|done].
    destruct (lookup_each column_groups vals) as [rest|e]; [|done].
    intros [= <-]. destruct (IH rest eq_refl) as [Hlen Hrows].
    split; [simpl; by rewrite Hlen|].
    intros [|i] val' Hi; simpl in *.
    + injection Hi as <-. eauto.
    + eauto.
Qed.

(** ** The aggregated frame *)

Lemma alist_lookup_aggregate_key by_ keys cols :
  alist_lookup by_ (omap (aggregate_column by_ keys) cols) = None.
Proof.
  induction cols as [|[name c] cols IH]; csimpl; [done|].
  unfold aggregate_column at 1; simpl.
  destruct c as [vals|vals]; [|done].
  destruct (decide (name = by_)) as [->|Hne]; [done|].
  simpl. by rewrite decide_False.
Qed.

Lemma alist_lookup_aggregate by_ keys cols name vals :
  name ≠ by_ ->
  alist_lookup name cols = Some (FloatColumn vals) ->
  alist_lookup name (omap (aggregate_column by_ keys) cols)
    = Some (group_means keys vals).
Proof.
  intros Hne. induction cols as [|[name' c] cols IH]; csimpl; [done|].
  unfold aggregate_column at 1; simpl.
  destruct (decide (name' = name)) as [->|Hne'].
  - intros [= ->]. rewrite decide_False by done. simpl. by rewrite decide_True.
  - intros Hl. destruct c as [vals'|vals']; [|by apply IH].
    destruct (decide (name' = by_)); [by apply IH|].
    simpl. rewrite decide_False by done. by apply IH.
Qed.

(** One iteration, when it succeeds: the category is not [Churn] itself, no
    row has a missing category, and the column written holds the mean of
    each row's group. *)
Lemma encode_frame_Ok response category df df' churn :
  getitem df "Churn" = Ok (FloatColumn churn) ->
  encode_frame response category df = Ok df' ->
  category ≠ "Churn" /\
  exists keys column_lst,
    getitem df category = Ok keys /\
    df' = setitem (target_name response category) (FloatColumn column_lst) df /\
    length column_lst = length (cells keys) /\
    forall i k, cells keys !! i = Some k ->
      k ≠ NaN /\
      column_lst !! i = Some (mean (churn_of_group (cells keys) churn k)).
Proof.
  intros Hchurn. unfold encode_frame, groupby_mean, getitem_means, getitem in *.
  destruct (alist_lookup category (columns df)) as [keys|] eqn:Hkeys; [|done].
  destruct (alist_lookup "Churn" (columns df)) as [c|] eqn:Hc; [|done].
  injection Hchurn as ->.
  destruct (decide (category = "Churn")) as [->|Hne].
  { pose proof (alist_lookup_aggregate_key "Churn" (cells keys) (columns df)) as Hk.
    destruct (omap _ (columns df)); [done|]. by rewrite Hk. }
  pose proof (alist_lookup_aggregate category (cells keys) _ _ _
                (not_eq_sym Hne) Hc) as Hagg.
  destruct (omap _ (columns df)) as [|a agg]; [done|]. rewrite Hagg.
  destruct (lookup_each _ _) as [column_lst|e] eqn:Heach; [|done].
  intros [= <-]. split; [done|]. exists keys, column_lst.
  destruct (lookup_each_Ok _ _ _ Heach) as [Hlen Hrows].
  split; [done|]. split; [done|]. split; [done|].
  intros i k Hi. destruct (Hrows i k Hi) as (m & Hm & Hloc).
  rewrite loc_group_means in Hloc.
  destruct (decide _) as [[Hk _]|]; [|done].
  injection Hloc as <-. by split.
Qed.

(** ** Column names *)

Lemma string_length_app s t :
  String.length (s +:+ t) = String.length s + String.length t.
Proof. induction s as [|a s IH]; simpl; [done | by rewrite IH]. Qed.

Lemma string_app_inj_r t s1 s2 : s1 +:+ t = s2 +:+ t -> s1 = s2.
Proof.
  revert s2. induction s1 as [|a s1 IH]; intros [|b s2]; simpl; intros H.
  - done.
  - apply (f_equal String.length) in H. simpl in H.
    rewrite !string_length_app in H. simpl in H. lia.
  - apply (f_equal String.length) in H. simpl in H.
    rewrite !string_length_app in H. simpl in H. lia.
  - injection H as -> H. f_equal. by apply IH.
Qed.

Lemma target_name_inj response c c' :
  target_name response c = target_name response c' -> c = c'.
Proof.
  unfold target_name. destruct (truthy response); [|done].
  apply string_app_inj_r.
Qed.

Lemma suffixed_not_Churn c response : c +:+ "_" +:+ response ≠ "Churn".
Proof.
  intros H.
  do 5 (destruct c as [|? c]; simpl in H; [discriminate H | injection H as _ H]).
  destruct c; discriminate H.
Qed.

Lemma target_name_not_Churn response c :
  c ≠ "Churn" -> target_name response c ≠ "Churn".
Proof.
  unfold target_name. destruct (truthy response); [|done].
  intros _. apply suffixed_not_Churn.
Qed.

(** ** Groups of one row *)

Lemma observations_absent rows k :
  (forall j row, rows !! j = Some row -> row.1 ≠ k) ->
  observations k rows = [].
Proof.
  induction rows as [|[k' v'] rows IH]; intros Hno; [done|].
  unfold observations in *. csimpl.
  rewrite decide_False by (apply (Hno 0 (k', v')); done). simpl.
  apply IH. intros j row Hj. by apply (Hno (S j)).
Qed.

Lemma observations_unique rows i k v :
  rows !! i = Some (k, Some v) ->
  (forall j row, rows !! j = Some row -> row.1 = k -> j = i) ->
  observations k rows = [v].
Proof.
  revert i. induction rows as [|[k' v'] rows IH]; intros i Hi Huniq.
  - by rewrite lookup_nil in Hi.
  - destruct i as [|i]; simpl in Hi.
    + injection Hi as -> ->.
      change (observations k ((k, Some v) :: rows))
        with (from_option (fun q => q :: observations k rows) (observations k rows)
                (if decide (k = k) then Some v else None)).
      rewrite decide_True by done. simpl. f_equal.
      apply observations_absent. intros j row Hj Hk.
      by specialize (Huniq (S j) row Hj Hk).
    + change (observations k ((k', v') :: rows))
        with (from_option (fun q => q :: observations k rows) (observations k rows)
                (if decide (k' = k) then v' else None)).
      rewrite decide_False.
      * simpl. apply (IH i Hi). intros j row Hj Hk.
        specialize (Huniq (S j) row Hj Hk). lia.
      * intros Hk. by specialize (Huniq 0 (k', v') eq_refl Hk).
Qed.

Lemma mean_singleton v : mean [v] = Some v.
Proof.
  unfold mean, Qc_sum; simpl. f_equal.
  rewrite Qcplus_0_r.
  replace (Qc_of_nat 1) with 1%Qc by (apply Qc_is_canon; reflexivity).
  apply (right_id _ Qcdiv).
Qed.

Lemma churn_of_group_unique keys churn i k v :
  keys !! i = Some k ->
  (forall j, keys !! j = Some k -> j = i) ->
  churn !! i = Some (Some v) ->
  mean (churn_of_group keys churn k) = Some v.
Proof.
  intros Hk Huniq Hv. unfold churn_of_group.
  rewrite (observations_unique _ i k v); [apply mean_singleton| |].
  - by rewrite lookup_zip_with, Hk, Hv.
  - intros j [k' v'] Hj Hk'. simpl in Hk'. subst k'.
    apply lookup_zip_with_Some in Hj as (x & y & [= <- <-] & Hx & _).
    by apply Huniq.
Qed.

(** ** The loop invariant *)

(** While the categories still to come have the columns of the input table
    and [Churn] is intact, a successful run of the rest of the loop leaves,
    for each of them, the means of its groups in the column written for
    it. *)
Lemma encode_frames_means response category_lst :
  forall cur df0 churn,
  getitem cur "Churn" = Ok (FloatColumn churn) ->
  (forall c, c ∈ category_lst -> getitem cur c = getitem df0 c) ->
  no_alias response category_lst ->
  (encode_frames response category_lst cur).1 = Ok tt ->
  getitem (encode_frames response category_lst cur).2 "Churn"
    = Ok (FloatColumn churn) /\
  (forall name, name ∉ target_name response <$> category_lst ->
     getitem (encode_frames response category_lst cur).2 name = getitem cur name) /\
  (forall c, c ∈ category_lst ->
     exists keys encoded,
       getitem df0 c = Ok keys /\
       getitem (encode_frames response category_lst cur).2 (target_name response c)
         = Ok (FloatColumn encoded) /\
       length encoded = length (cells keys) /\
       forall i k, cells keys !! i = Some k ->
         encoded !! i = Some (mean (churn_of_group (cells keys) churn k))).
Proof.
  induction category_lst as [|c0 rest IH]; intros cur df0 churn Hchurn Hsame Hna Hok.
  - simpl. split; [done|]. split; [done|]. intros c Hc. by apply elem_of_nil in Hc.
  - cbn [encode_frames no_alias] in *. destruct Hna as [Hfresh Hna].
    destruct (encode_frame response c0 cur) as [cur'|e] eqn:Hstep;
      [|by simpl in Hok].
    destruct (encode_frame_Ok _ _ _ _ _ Hchurn Hstep)
      as (Hc0 & keys0 & lst0 & Hkeys0 & -> & Hlen0 & Hrows0).
    rewrite Hsame in Hkeys0 by apply list_elem_of_here.
    assert (Hchurn' : getitem (setitem (target_name response c0) (FloatColumn lst0) cur)
                        "Churn" = Ok (FloatColumn churn)).
    { rewrite getitem_setitem_ne; [done|]. by apply target_name_not_Churn. }
    assert (Hsame' : forall c, c ∈ rest ->
              getitem (setitem (target_name response c0) (FloatColumn lst0) cur) c
              = getitem df0 c).
    { intros c Hc. rewrite getitem_setitem_ne.
      - by apply Hsame, list_elem_of_further.
      - rewrite list.Forall_forall in Hfresh. by apply Hfresh. }
    destruct (IH _ df0 churn Hchurn' Hsame' Hna Hok) as (IH1 & IH2 & IH3).
    split; [done|]. split.
    + intros name Hname. rewrite fmap_cons, not_elem_of_cons in Hname.
      destruct Hname as [Hne Hname]. rewrite IH2 by done.
      by rewrite getitem_setitem_ne.
    + intros c Hc.
      destruct (decide (c ∈ rest)) as [Hin|Hnin]; [by apply IH3|].
      apply elem_of_cons in Hc as [->|Hc]; [|done].
      exists keys0, lst0. split; [done|]. split; [|split; [done|]].
      * rewrite IH2; [apply getitem_setitem_eq|].
        intros Hin. apply list_elem_of_fmap in Hin as (c' & Heq & Hc').
        apply target_name_inj in Heq. congruence.
      * intros i k Hi. by apply Hrows0.
Qed.

(** C2, amended.  Let the table hold a numeric [Churn] column and let no
    column written by an iteration be the category of a later one.  When
    [encoder_helper] returns, then for every category of the list the column
    written for it holds, in each row, the arithmetic mean of [Churn] over
    all rows of the input table that share the row's category value; a
    category value that occurs in one row only is encoded by that row's own
    [Churn] value. *)
Theorem encoder_helper_group_means w dataframe category_lst response r' w' df churn :
  heap w !! dataframe = Some df ->
  getitem df "Churn" = Ok (FloatColumn churn) ->
  no_alias response category_lst ->
  encoder_helper dataframe category_lst response w = (Ok r', w') ->
  exists df', heap w' !! r' = Some df' /\
    forall category, category ∈ category_lst ->
      exists keys encoded,
        getitem df category = Ok keys /\
        getitem df' (target_name response category) = Ok (FloatColumn encoded) /\
        length encoded = length (cells keys) /\
        (forall i k, cells keys !! i = Some k ->
           encoded !! i = Some (mean (churn_of_group (cells keys) churn k))) /\
        (forall i k v, cells keys !! i = Some k ->
           (forall j, cells keys !! j = Some k -> j = i) ->
           churn !! i = Some (Some v) ->
           encoded !! i = Some (Some v)).
Proof.
  intros Hdf Hchurn Hna Hrun.
  rewrite (encoder_helper_run _ _ _ _ _ Hdf) in Hrun.
  destruct (encode_frames response category_lst df).1 as [[]|e] eqn:Hok; [|done].
  injection Hrun as <- <-. eexists. split; [simpl; apply lookup_insert_eq|].
  destruct (encode_frames_means response category_lst df df churn Hchurn
              (fun _ _ => eq_refl) Hna Hok) as (_ & _ & Hmeans).
  intros category Hin.
  destruct (Hmeans category Hin) as (keys & encoded & Hkeys & Henc & Hlen & Hrows).
  exists keys, encoded. repeat (split; [done|]).
  intros i k v Hk Huniq Hv. rewrite (Hrows i k Hk). f_equal.
  by apply (churn_of_group_unique _ _ i).
Qed.

Lemma encoder_helper_group_means_witness :
  exists r' w' df',
    encoder_helper 0 ["Segment"] "Churn" pair_world = (Ok r', w') /\
    heap w' !! r' = Some df' /\
    getitem df' "Segment_Churn" = Ok (FloatColumn [ratio 1 2; ratio 1 2]).
Proof.
  assert (Hrun : encoder_helper 0 ["Segment"] "Churn" pair_world
                 = (Ok (fresh (dom (heap pair_world))),
                    (encoder_helper 0 ["Segment"] "Churn" pair_world).2))
    by (vm_compute; reflexivity).
  assert (Hna : no_alias "Churn" ["Segment"]) by (split; [constructor|exact I]).
  destruct (encoder_helper_group_means pair_world 0 ["Segment"] "Churn" _ _
              pair_table [num 0; num 1] eq_refl eq_refl Hna Hrun)
    as (df' & Hdf' & Hcols).
  destruct (Hcols "Segment" (list_elem_of_here _ _))
    as (keys & encoded & Hkeys & Henc & Hlen & Hrows & _).
  eexists _, _, df'. split; [exact Hrun|]. split; [exact Hdf'|].
  change (target_name "Churn" "Segment") with "Segment_Churn" in Henc.
  rewrite Henc. do 2 f_equal.
  injection Hkeys as <-.
  assert (Hm : mean (churn_of_group (cells (ObjectColumn [Some "A"; Some "A"]))
                       [num 0; num 1] (Str "A")) = ratio 1 2).
  { apply (bool_decide_unpack _). by vm_compute. }
  pose proof (Hrows 0 (Str "A") eq_refl) as H0.
  pose proof (Hrows 1 (Str "A") eq_refl) as H1.
  rewrite Hm in H0, H1.
  destruct encoded as [|e0 [|e1 [|e2 rest]]]; try discriminate Hlen.
  by injection H0 as ->; injection H1 as ->.
Defined.

(** Without the proviso the property fails: when a column the loop writes
    is the category of a later iteration, that iteration groups by the
    encoded values, not by the values of the input table. *)
Lemma encoder_helper_alias_counterexample :
  exists r' w' df' keys churn encoded,
    encoder_helper 0 ["Card"; "Card_Category"] "Category" alias_world = (Ok r', w') /\
    heap w' !! r' = Some df' /\
    getitem alias_table "Card_Category" = Ok keys /\
    getitem alias_table "Churn" = Ok (FloatColumn churn) /\
    getitem df' "Card_Category_Category" = Ok (FloatColumn encoded) /\
    ~ (forall i k, cells keys !! i = Some k ->
         encoded !! i = Some (mean (churn_of_group (cells keys) churn k))).
Proof.
  pose (out := encoder_helper 0 ["Card"; "Card_Category"] "Category" alias_world).
  exists (fresh (dom (heap alias_world))), out.2,
    (default alias_table (heap out.2 !! fresh (dom (heap alias_world)))),
    (ObjectColumn [Some "Blue"; Some "Blue"]), [num 0; num 1], [num 0; num 1].
  split; [by vm_compute|]. split; [by vm_compute|].
  split; [reflexivity|]. split; [reflexivity|].
  split; [by vm_compute|].
  intros H. specialize (H 0 (Str "Blue") eq_refl).
  vm_compute in H. discriminate H.
Qed.

(** ** Well-formed frames *)

Lemma getitem_well_formed df name c :
  well_formed df -> getitem df name = Ok c -> length (cells c) = nrows df.
Proof.
  unfold well_formed, getitem. intros Hwf.
  induction Hwf as [|[name' c'] cols Hlen _ IH]; simpl; [done|].
  destruct (decide (name' = name)); [by intros [= <-] | done].
Qed.

Lemma setitem_well_formed name c df :
  well_formed df -> length (cells c) = nrows df -> well_formed (setitem name c df).
Proof.
  unfold well_formed, setitem, nrows; simpl. intros Hwf Hc.
  induction Hwf as [|[name' c'] cols Hlen Hwf IH]; simpl.
  - by repeat constructor.
  - destruct (decide (name' = name)); constructor; done.
Qed.

Lemma encode_frame_well_formed response category df df' :
  well_formed df -> encode_frame response category df = Ok df' ->
  well_formed df'.
Proof.
  intros Hwf. unfold encode_frame.
  destruct (groupby_mean df category); [|done].
  destruct (getitem_means _ _); [|done].
  destruct (getitem df category) as [keys|] eqn:Hkeys; [|done].
  destruct (lookup_each _ _) as [column_lst|] eqn:Heach; [|done].
  intros [= <-]. apply setitem_well_formed; [done|].
  destruct (lookup_each_Ok _ _ _ Heach) as [Hlen _].
  simpl. rewrite length_fmap, Hlen. by eapply getitem_well_formed.
Qed.

Lemma encode_frames_well_formed response category_lst df :
  well_formed df -> well_formed (encode_frames response category_lst df).2.
Proof.
  revert df. induction category_lst as [|c rest IH]; intros df Hwf; simpl;
    [done|].
  destruct (encode_frame response c df) as [df'|e] eqn:E; [|done].
  apply IH. by eapply encode_frame_well_formed.
Qed.

Lemma getitem_list_well_formed df keys selected :
  well_formed df -> getitem_list df keys = Ok selected -> well_formed selected.
Proof.
  intros Hwf. unfold getitem_list.
  destruct (filter _ keys); [|done]. intros [= <-].
  unfold well_formed, nrows. simpl.
  induction keys as [|k keys IH]; csimpl; [constructor|].
  destruct (alist_lookup k (columns df)) as [c|] eqn:Hk; csimpl; [|done].
  constructor; [|done]. simpl.
  apply (getitem_well_formed df k c Hwf). unfold getitem. by rewrite Hk.
Qed.

Lemma foldl_setitem_well_formed (kcs : list (string * (string * Column))) acc :
  well_formed acc ->
  Forall (fun kc => length (cells kc.2.2) = nrows acc) kcs ->
  well_formed (foldl (fun acc kc => setitem kc.1 kc.2.2 acc) acc kcs).
Proof.
  revert acc. induction kcs as [|kc kcs IH]; intros acc Hwf Hall; simpl;
    [done|].
  apply list.Forall_cons in Hall as [Hkc Hall].
  apply IH; [by apply setitem_well_formed | done].
Qed.

Lemma setitem_list_well_formed keys selected X :
  well_formed selected ->
  setitem_list keys selected (mkDataFrame [] []) = Ok X -> well_formed X.
Proof.
  intros Hwf. unfold setitem_list. destruct (decide _); [|done].
  intros [= <-]. apply foldl_setitem_well_formed; [constructor|].
  apply list.Forall_forall. intros [k [k' c]] Hin.
  apply elem_of_zip_r in Hin.
  exact (proj1 (list.Forall_forall _ _) Hwf (k', c) Hin).
Qed.

(** ** [perform_feature_engineering] and the store *)

Section FeatureEngineering.

Variable RandomState : Z -> list Z.
Variable rng_permutation : list Z -> nat -> list nat * list Z.

Lemma train_test_split_seeded X y test_size seed w :
  train_test_split RandomState rng_permutation X y test_size (Some seed) w =
    (split_seeded RandomState rng_permutation X y test_size seed, w).
Proof.
  unfold train_test_split, split_seeded, raise, bind, ret, draw_permutation.
  destruct (decide _); [|done].
  destruct (negb _ && negb _); [|done].
  by destruct (decide _).
Qed.

Lemma perform_feature_engineering_run r response w df :
  heap w !! r = Some df ->
  (perform_feature_engineering RandomState rng_permutation r response w).1
  = engineered RandomState rng_permutation df response.
Proof.
  intros Hr.
  unfold perform_feature_engineering, engineered, bind, deref, lift,
    new_frame, modify.
  rewrite (encoder_helper_run _ _ _ _ _ Hr).
  destruct (encode_frames response cat_columns df) as [[[]|e] encoded];
    cbn [heap np_random fst snd]; [|done].
  rewrite lookup_insert_eq.
  destruct (getitem_series encoded "Churn") as [label|e]; [|done].
  destruct (getitem_list encoded keep_cols) as [selected|e]; [|done].
  cbn [heap np_random fst snd]. rewrite lookup_insert_eq.
  destruct (setitem_list keep_cols selected (mkDataFrame [] [])) as [X|e];
    [|done].
  cbn [heap np_random fst snd]. rewrite lookup_insert_eq.
  cbn [heap np_random fst snd]. rewrite lookup_insert_eq.
  by rewrite train_test_split_seeded.
Qed.

Lemma perform_feature_engineering_unbound r response w :
  heap w !! r = None ->
  perform_feature_engineering RandomState rng_permutation r response w
  = (Raise UnboundReference, w).
Proof.
  intros Hr. unfold perform_feature_engineering, bind.
  by rewrite (encoder_helper_unbound _ _ _ _ Hr).
Qed.

(** C7.  Two runs of [perform_feature_engineering] on the same table give
    the same four results, whatever else the two stores hold and whatever
    state the process-wide generator is in: the split draws from a generator
    seeded with 42 and from nothing else. *)
Theorem perform_feature_engineering_deterministic w1 w2 r1 r2 df response :
  heap w1 !! r1 = Some df ->
  heap w2 !! r2 = Some df ->
  (perform_feature_engineering RandomState rng_permutation r1 response w1).1
  = (perform_feature_engineering RandomState rng_permutation r2 response w2).1.
Proof.
  intros H1 H2.
  by rewrite (perform_feature_engineering_run _ _ _ _ H1),
             (perform_feature_engineering_run _ _ _ _ H2).
Qed.

(** ** Selecting the feature columns *)

Lemma getitem_list_Ok df keys selected :
  getitem_list df keys = Ok selected ->
  index selected = index df /\ column_names selected = keys.
Proof.
  unfold getitem_list.
  destruct (filter _ keys) as [|k0 missing] eqn:Hmissing; [|done].
  intros [= <-]. split; [done|]. unfold column_names; simpl.
  induction keys as [|k keys IH]; [done|].
  rewrite filter_cons in Hmissing. csimpl.
  destruct (alist_lookup k (columns df)) as [c|] eqn:Hk.
  - rewrite decide_False in Hmissing by done. csimpl. f_equal. by apply IH.
  - by rewrite decide_True in Hmissing.
Qed.

Lemma getitem_list_Raise df keys e :
  getitem_list df keys = Raise e -> is_KeyError e.
Proof.
  unfold getitem_list. destruct (filter _ keys); [done|]. by intros [= <-].
Qed.

Lemma getitem_list_missing df keys name :
  name ∈ keys -> name ∉ column_names df ->
  exists missing, getitem_list df keys = Raise (KeyError missing).
Proof.
  intros Hin Hnot. unfold getitem_list.
  destruct (filter _ keys) as [|k0 missing] eqn:Hmissing; [|eauto].
  assert (name ∈ filter (fun k => alist_lookup k (columns df) = None) keys) as Hf.
  { apply list_elem_of_filter. split; [|done]. by apply alist_lookup_None. }
  rewrite Hmissing in Hf. by apply elem_of_nil in Hf.
Qed.

Lemma setitem_names_fresh name c df :
  name ∉ column_names df ->
  column_names (setitem name c df) = column_names df ++ [name].
Proof. apply alist_set_names_notin. Qed.

Lemma foldl_setitem_names (kcs : list (string * (string * Column))) acc :
  NoDup (column_names acc ++ kcs.*1) ->
  column_names (foldl (fun acc kc => setitem kc.1 kc.2.2 acc) acc kcs)
    = column_names acc ++ kcs.*1 /\
  index (foldl (fun acc kc => setitem kc.1 kc.2.2 acc) acc kcs) = index acc.
Proof.
  revert acc. induction kcs as [|[k [k' c]] kcs IH]; intros acc Hnd; csimpl.
  - by rewrite app_nil_r.
  - assert (k ∉ column_names acc) as Hk.
    { apply list.NoDup_app in Hnd as (_ & Hdisj & _). intros Hin.
      apply (Hdisj k Hin). left. }
    destruct (IH (setitem k c acc)) as [Hn Hi].
    + rewrite setitem_names_fresh by done. by rewrite <- app_assoc.
    + rewrite Hn, Hi, setitem_names_fresh by done.
      by rewrite <- app_assoc.
Qed.

Lemma setitem_list_empty keys selected X :
  NoDup keys ->
  column_names selected = keys ->
  setitem_list keys selected (mkDataFrame [] []) = Ok X ->
  column_names X = keys /\ index X = index selected.
Proof.
  intros Hnd Hnames. unfold setitem_list.
  destruct (decide _) as [Hlen|]; [|done]. intros [= <-].
  destruct (foldl_setitem_names (zip keys (columns selected))
              (mkDataFrame (index selected) [])) as [Hn Hi].
  - simpl. by rewrite fst_zip by lia.
  - simpl in *. rewrite Hn, Hi. by rewrite fst_zip by lia.
Qed.

Lemma iloc_names pos df : column_names (iloc pos df) = column_names df.
Proof.
  unfold column_names, iloc; simpl. rewrite <- list_fmap_compose.
  by apply list_fmap_ext; intros ? [? ?].
Qed.

Lemma NoDup_keep_cols : NoDup keep_cols.
Proof. apply (bool_decide_unpack _). by vm_compute. Qed.

Lemma keep_cols_parts : keep_cols = raw_columns ++ encoded_columns.
Proof. reflexivity. Qed.

(** ** The outcome, step by step *)

Lemma split_seeded_Ok X y seed x_train x_test y_train y_test :
  split_seeded RandomState rng_permutation X y (3 # 10) seed
    = Ok (x_train, x_test, y_train, y_test) ->
  let n := nrows X in
  let n_test := n_test_of (3 # 10) n in
  let permutation := (rng_permutation (RandomState seed) n).1 in
  length (s_index y) = n /\ n - n_test ≠ 0 /\
  x_train = iloc (take (n - n_test) (drop n_test permutation)) X /\
  x_test = iloc (take n_test permutation) X /\
  y_train = iloc_series (take (n - n_test) (drop n_test permutation)) y /\
  y_test = iloc_series (take n_test permutation) y.
Proof.
  unfold split_seeded. destruct (decide _) as [Hlen|]; [|done].
  simpl. destruct (decide _) as [|Hne]; [done|]. by intros [= <- <- <- <-].
Qed.

Lemma engineered_Ok df response x_train x_test y_train y_test :
  engineered RandomState rng_permutation df response
    = Ok (x_train, x_test, y_train, y_test) ->
  exists encoded label selected X,
    encode_frames response cat_columns df = (Ok tt, encoded) /\
    getitem_series encoded "Churn" = Ok label /\
    getitem_list encoded keep_cols = Ok selected /\
    setitem_list keep_cols selected (mkDataFrame [] []) = Ok X /\
    split_seeded RandomState rng_permutation X label (3 # 10) 42
      = Ok (x_train, x_test, y_train, y_test).
Proof.
  unfold engineered.
  destruct (encode_frames response cat_columns df) as [[[]|e] encoded] eqn:E1;
    [|done].
  destruct (getitem_series encoded "Churn") as [label|e] eqn:E2; [|done].
  destruct (getitem_list encoded keep_cols) as [selected|e] eqn:E3; [|done].
  destruct (setitem_list keep_cols selected _) as [X|e] eqn:E4; [|done].
  intros Hsplit. by exists encoded, label, selected, X.
Qed.

Lemma perform_feature_engineering_Ok r response w out w' :
  perform_feature_engineering RandomState rng_permutation r response w
    = (Ok out, w') ->
  exists df, heap w !! r = Some df /\
    engineered RandomState rng_permutation df response = Ok out.
Proof.
  intros Hrun. destruct (heap w !! r) as [df|] eqn:Hr.
  - exists df. split; [done|].
    rewrite <- (perform_feature_engineering_run _ response _ _ Hr).
    by rewrite Hrun.
  - by rewrite (perform_feature_engineering_unbound _ _ _ Hr) in Hrun.
Qed.

(** C3.  When [perform_feature_engineering] returns, the training and the
    test feature matrix both have exactly the nineteen columns of the fixed
    list, in its order: the fourteen raw columns followed by the five
    encoded ones. *)
Theorem perform_feature_engineering_columns r response w
    x_train x_test y_train y_test w' :
  perform_feature_engineering RandomState rng_permutation r response w
    = (Ok (x_train, x_test, y_train, y_test), w') ->
  column_names x_train = keep_cols /\
  column_names x_test = keep_cols /\
  keep_cols = raw_columns ++ encoded_columns /\
  length raw_columns = 14 /\ length encoded_columns = 5 /\
  length (columns x_train) = 19 /\ length (columns x_test) = 19.
Proof.
  intros Hrun.
  destruct (perform_feature_engineering_Ok _ _ _ _ _ Hrun) as (df & _ & Heng).
  destruct (engineered_Ok _ _ _ _ _ _ Heng)
    as (encoded & label & selected & X & _ & _ & Hsel & Hset & Hsplit).
  destruct (getitem_list_Ok _ _ _ Hsel) as [_ Hnames].
  destruct (setitem_list_empty _ _ _ NoDup_keep_cols Hnames Hset) as [HX _].
  destruct (split_seeded_Ok _ _ _ _ _ _ _ Hsplit) as (_ & _ & -> & -> & _ & _).
  assert (Htrain : column_names
            (iloc (take (nrows X - n_test_of (3 # 10) (nrows X))
                     (drop (n_test_of (3 # 10) (nrows X))
                        (rng_permutation (RandomState 42) (nrows X)).1)) X)
            = keep_cols) by (by rewrite iloc_names).
  assert (Htest : column_names
            (iloc (take (n_test_of (3 # 10) (nrows X))
                     (rng_permutation (RandomState 42) (nrows X)).1) X)
            = keep_cols) by (by rewrite iloc_names).
  split; [done|]. split; [done|]. split; [reflexivity|].
  split; [reflexivity|]. split; [reflexivity|].
  unfold column_names in Htrain, Htest.
  split.
  - rewrite <- (length_fmap fst), Htrain. reflexivity.
  - rewrite <- (length_fmap fst), Htest. reflexivity.
Qed.

(** ** The split *)

Lemma n_test_of_bounds n :
  3 * n <= 10 * n_test_of (3 # 10) n < 3 * n + 10.
Proof.
  unfold n_test_of, Qceiling, Qfloor, Qopp, Qmult, inject_Z. cbn [Qnum Qden].
  replace (10 * 1)%positive with 10%positive by reflexivity.
  Z.div_mod_to_equations. lia.
Qed.

Lemma length_take_positions {A} (pos : list nat) (l : list A) :
  (forall i, i ∈ pos -> i < length l) ->
  length (take_positions pos l) = length pos.
Proof.
  unfold take_positions. induction pos as [|i pos IH]; intros Hpos; [done|].
  csimpl. destruct (lookup_lt_is_Some_2 l i) as [x Hx].
  { apply Hpos. left. }
  rewrite Hx. simpl. f_equal. apply IH. intros j Hj. apply Hpos. by right.
Qed.

Lemma take_positions_seq_app {A} (pre l : list A) :
  take_positions (seq (length pre) (length l)) (pre ++ l) = l.
Proof.
  unfold take_positions. revert pre. induction l as [|x l IH]; intros pre; [done|].
  csimpl. rewrite list_lookup_middle by done. simpl. f_equal.
  specialize (IH (pre ++ [x])).
  rewrite length_app, <- app_assoc in IH. simpl in IH.
  by rewrite Nat.add_1_r in IH.
Qed.

Lemma take_positions_seq {A} (l : list A) :
  take_positions (seq 0 (length l)) l = l.
Proof. apply (take_positions_seq_app [] l). Qed.

Lemma take_positions_app {A} (p q : list nat) (l : list A) :
  take_positions (p ++ q) l = take_positions p l ++ take_positions q l.
Proof. apply omap_app. Qed.

(** Selecting by two halves of a permutation of the positions gives back
    every element once. *)
Lemma take_positions_split {A} (permutation : list nat) (l : list A) n_test :
  permutation ≡ₚ seq 0 (length l) ->
  take_positions (take (length l - n_test) (drop n_test permutation)) l
    ++ take_positions (take n_test permutation) l ≡ₚ l.
Proof.
  intros Hperm. rewrite <- take_positions_app.
  rewrite <- (take_positions_seq l) at 3.
  unfold take_positions. apply omap_Permutation.
  rewrite <- Hperm.
  rewrite take_ge.
  - rewrite (Permutation_app_comm _ _). by rewrite take_drop.
  - rewrite length_drop. apply Permutation_length in Hperm.
    rewrite length_seq in Hperm. lia.
Qed.

Lemma iloc_nrows permutation n_take X :
  permutation ≡ₚ seq 0 (nrows X) ->
  nrows (iloc (take n_take permutation) X) = n_take `min` nrows X /\
  forall n_drop,
    nrows (iloc (take n_take (drop n_drop permutation)) X)
      = n_take `min` (nrows X - n_drop).
Proof.
  intros Hperm. unfold nrows, iloc in *; simpl.
  assert (Hlen : length permutation = length (index X)).
  { apply Permutation_length in Hperm. by rewrite length_seq in Hperm. }
  assert (Hin : forall i, i ∈ permutation -> i < length (index X)).
  { intros i Hi. rewrite Hperm in Hi. apply elem_of_seq in Hi. lia. }
  split.
  - rewrite length_take_positions.
    + rewrite length_take. lia.
    + intros i Hi. apply Hin. by apply (subseteq_take n_take).
  - intros n_drop. rewrite length_take_positions.
    + rewrite length_take, length_drop. lia.
    + intros i Hi. apply Hin.
      by apply (subseteq_drop n_drop), (subseteq_take n_take).
Qed.

Lemma cells_column_take pos c :
  cells (column_take pos c) = take_positions pos (cells c).
Proof.
  unfold take_positions.
  destruct c as [vals|vals]; simpl; induction pos as [|i pos IH]; csimpl;
    try done; rewrite list_lookup_fmap; destruct (vals !! i); csimpl;
    by rewrite ?IH.
Qed.

(** Selecting valid positions of a well-formed frame gives a well-formed
    frame with one row per position. *)
Lemma iloc_well_formed pos df :
  well_formed df -> (forall i, i ∈ pos -> i < nrows df) ->
  well_formed (iloc pos df) /\ nrows (iloc pos df) = length pos.
Proof.
  intros Hwf Hpos.
  assert (Hn : nrows (iloc pos df) = length pos).
  { unfold nrows, iloc. simpl. by apply length_take_positions. }
  split; [|done]. unfold well_formed. rewrite Hn. unfold iloc. simpl.
  apply list.Forall_fmap. eapply list.Forall_impl; [exact Hwf|].
  intros [name c] Hc. simpl in *.
  rewrite cells_column_take. apply length_take_positions.
  intros i Hi. rewrite Hc. by apply Hpos.
Qed.

Lemma iloc_series_length pos y :
  (forall i, i ∈ pos -> i < length (cells (s_values y))) ->
  length (cells (s_values (iloc_series pos y))) = length pos.
Proof.
  intros Hpos. unfold iloc_series. simpl.
  rewrite cells_column_take. by apply length_take_positions.
Qed.

(** C4.  Provided the generator's permutation is a permutation of the row
    positions: when [perform_feature_engineering] returns, the rows of the
    training and the test part together are the rows of the input table,
    each once; the test part has the ceiling of 3/10 of the rows and the
    training part the rest, the floor of 7/10; and the labels keep the rows
    of their features.  These counts are the counts of the data: when every
    column of the input has one entry per row, so has every column of either
    part, and so have the two label vectors. *)
Theorem perform_feature_engineering_split r response w df
    x_train x_test y_train y_test w' :
  (forall g n, (rng_permutation g n).1 ≡ₚ seq 0 n) ->
  heap w !! r = Some df ->
  perform_feature_engineering RandomState rng_permutation r response w
    = (Ok (x_train, x_test, y_train, y_test), w') ->
  nrows x_train + nrows x_test = nrows df /\
  index x_train ++ index x_test ≡ₚ index df /\
  3 * nrows df <= 10 * nrows x_test < 3 * nrows df + 10 /\
  10 * nrows x_train <= 7 * nrows df < 10 * nrows x_train + 10 /\
  s_index y_train = index x_train /\ s_index y_test = index x_test /\
  (well_formed df ->
   well_formed x_train /\ well_formed x_test /\
   length (cells (s_values y_train)) = nrows x_train /\
   length (cells (s_values y_test)) = nrows x_test).
Proof.
  intros Hperm Hr Hrun.
  destruct (perform_feature_engineering_Ok _ _ _ _ _ Hrun) as (df' & Hr' & Heng).
  rewrite Hr in Hr'. injection Hr' as <-.
  destruct (engineered_Ok _ _ _ _ _ _ Heng)
    as (encoded & label & selected & X & Henc & Hlabel & Hsel & Hset & Hsplit).
  destruct (getitem_list_Ok _ _ _ Hsel) as [Hisel Hnames].
  destruct (setitem_list_empty _ _ _ NoDup_keep_cols Hnames Hset) as [_ HiX].
  assert (Hidx : index X = index df).
  { rewrite HiX, Hisel.
    pose proof (encode_frames_index response cat_columns df) as Hi.
    by rewrite Henc in Hi. }
  assert (Hlab : s_index label = index df).
  { unfold getitem_series in Hlabel. destruct (getitem encoded "Churn"); [|done].
    injection Hlabel as <-. simpl. by rewrite <- Hidx, HiX, Hisel. }
  destruct (split_seeded_Ok _ _ _ _ _ _ _ Hsplit)
    as (_ & Hne & -> & -> & -> & ->).
  assert (Hn : nrows X = nrows df) by (unfold nrows; by rewrite Hidx).
  pose proof (n_test_of_bounds (nrows X)) as Hb.
  destruct (iloc_nrows _ (n_test_of (3 # 10) (nrows X)) X
              (Hperm (RandomState 42) (nrows X))) as [Htest _].
  destruct (iloc_nrows _ (nrows X - n_test_of (3 # 10) (nrows X)) X
              (Hperm (RandomState 42) (nrows X))) as [_ Htrain].
  specialize (Htrain (n_test_of (3 # 10) (nrows X))).
  rewrite Htest, Htrain, <- Hn.
  split; [lia|]. split.
  { simpl. rewrite <- Hidx. apply take_positions_split. apply Hperm. }
  split; [lia|]. split; [lia|].
  split; [simpl; by rewrite Hlab, Hidx|].
  split; [simpl; by rewrite Hlab, Hidx|].
  intros Hwf.
  assert (HwfE : well_formed encoded).
  { pose proof (encode_frames_well_formed response cat_columns df Hwf) as H.
    by rewrite Henc in H. }
  assert (HwfX : well_formed X).
  { eapply setitem_list_well_formed; [|exact Hset].
    by eapply getitem_list_well_formed. }
  assert (Hin : forall i, i ∈ (rng_permutation (RandomState 42) (nrows X)).1 ->
                  i < nrows X).
  { intros i Hi. rewrite (Hperm _ _) in Hi. apply elem_of_seq in Hi. lia. }
  assert (Hvalues : length (cells (s_values label)) = nrows X).
  { unfold getitem_series in Hlabel.
    destruct (getitem encoded "Churn") as [c|] eqn:Hc; [|done].
    injection Hlabel as <-. simpl.
    rewrite (getitem_well_formed _ _ _ HwfE Hc). unfold nrows.
    by rewrite HiX, Hisel. }
  assert (Htr : forall i,
            i ∈ take (nrows X - n_test_of (3 # 10) (nrows X))
                  (drop (n_test_of (3 # 10) (nrows X))
                     (rng_permutation (RandomState 42) (nrows X)).1) ->
            i < nrows X).
  { intros i Hi. apply Hin.
    by eapply (subseteq_drop (n_test_of (3 # 10) (nrows X))), subseteq_take. }
  assert (Hte : forall i,
            i ∈ take (n_test_of (3 # 10) (nrows X))
                  (rng_permutation (RandomState 42) (nrows X)).1 ->
            i < nrows X).
  { intros i Hi. apply Hin. by eapply subseteq_take. }
  destruct (iloc_well_formed _ X HwfX Htr) as [Hwtr Hntr].
  destruct (iloc_well_formed _ X HwfX Hte) as [Hwte Hnte].
  split; [done|]. split; [done|]. split.
  - rewrite iloc_series_length by (by rewrite Hvalues).
    rewrite <- Hntr. exact Htrain.
  - rewrite iloc_series_length by (by rewrite Hvalues).
    rewrite <- Hnte. exact Htest.
Qed.

(** ** Failures of the encoder *)

Lemma lookup_each_Raise column_groups vals e :
  lookup_each column_groups vals = Raise e -> is_KeyError e.
Proof.
  induction vals as [|val vals IH]; simpl; [done|].
  destruct (loc column_groups val) as [m|e'] eqn:Hloc.
  - destruct (lookup_each column_groups vals); [done|].
    intros [= <-]. by apply IH.
  - intros [= <-]. clear IH.
    induction column_groups as [|[k m] groups IHg]; simpl in Hloc.
    + by injection Hloc as <-.
    + destruct (decide (k = val)); [done | by apply IHg].
Qed.

(** With a numeric column besides the category, an iteration fails only
    with a key error. *)
Lemma encode_frame_Raise response category df name vals e :
  name ≠ category ->
  getitem df name = Ok (FloatColumn vals) ->
  encode_frame response category df = Raise e -> is_KeyError e.
Proof.
  intros Hne Hname. unfold encode_frame, groupby_mean, getitem_means, getitem in *.
  destruct (alist_lookup category (columns df)) as [keys|]; [|by intros [= <-]].
  destruct (alist_lookup name (columns df)) as [c|] eqn:Hc; [|done].
  injection Hname as ->.
  pose proof (alist_lookup_aggregate category (cells keys) _ _ _ Hne Hc) as Hagg.
  destruct (omap _ (columns df)) as [|a agg]; [done|].
  destruct (alist_lookup "Churn" (a :: agg)); [|by intros [= <-]].
  destruct (lookup_each _ _) eqn:Heach; [done|].
  intros [= <-]. eauto using lookup_each_Raise.
Qed.

Lemma encode_frame_keeps_numeric response category df df' name vals :
  getitem df name = Ok (FloatColumn vals) ->
  encode_frame response category df = Ok df' ->
  exists vals', getitem df' name = Ok (FloatColumn vals').
Proof.
  intros Hname. unfold encode_frame.
  destruct (groupby_mean df category); [|done].
  destruct (getitem_means _ _); [|done].
  destruct (getitem df category); [|done].
  destruct (lookup_each _ _) as [column_lst|]; [|done].
  intros [= <-].
  destruct (decide (target_name response category = name)) as [<-|Hne].
  - exists column_lst. apply getitem_setitem_eq.
  - exists vals. by rewrite getitem_setitem_ne.
Qed.

Lemma encode_frames_Raise response category_lst df name vals e :
  name ∉ category_lst ->
  getitem df name = Ok (FloatColumn vals) ->
  (encode_frames response category_lst df).1 = Raise e -> is_KeyError e.
Proof.
  revert df vals. induction category_lst as [|c rest IH]; intros df vals Hnot Hname;
    simpl; [done|].
  apply not_elem_of_cons in Hnot as [Hne Hnot].
  destruct (encode_frame response c df) as [df'|e'] eqn:Hstep.
  - destruct (encode_frame_keeps_numeric _ _ _ _ _ _ Hname Hstep) as [vals' Hname'].
    by apply (IH df' vals').
  - simpl. intros [= <-]. eauto using encode_frame_Raise.
Qed.

Lemma encode_frame_names response category df df' name :
  encode_frame response category df = Ok df' ->
  name ∈ column_names df' ->
  name ∈ column_names df \/ name = target_name response category.
Proof.
  unfold encode_frame.
  destruct (groupby_mean df category); [|done].
  destruct (getitem_means _ _); [|done].
  destruct (getitem df category); [|done].
  destruct (lookup_each _ _) as [column_lst|]; [|done].
  intros [= <-]. unfold column_names, setitem; simpl.
  destruct (decide (target_name response category ∈ (columns df).*1)).
  - rewrite alist_set_names_in by done. by left.
  - rewrite alist_set_names_notin by done.
    rewrite elem_of_app, list_elem_of_singleton. tauto.
Qed.

Lemma encode_frames_names response category_lst df name :
  name ∈ column_names (encode_frames response category_lst df).2 ->
  name ∈ column_names df \/ name ∈ target_name response <$> category_lst.
Proof.
  revert df. induction category_lst as [|c rest IH]; intros df; simpl; [by left|].
  destruct (encode_frame response c df) as [df'|e'] eqn:Hstep; [|by left].
  intros Hin. destruct (IH _ Hin) as [Hdf'|Hrest].
  - destruct (encode_frame_names _ _ _ _ _ Hstep Hdf') as [?| ->]; [by left|].
    right. left.
  - right. by right.
Qed.

(** With a response other than "Churn" no column written by the loop has
    one of the five names the feature list asks for. *)
Lemma target_not_encoded response category name :
  response ≠ "" -> response ≠ "Churn" ->
  category ∈ cat_columns -> name ∈ encoded_columns ->
  target_name response category ≠ name.
Proof.
  intros Hne Hnc Hcat Hname. unfold target_name, truthy.
  rewrite bool_decide_eq_true_2 by done.
  unfold encoded_columns in Hname.
  apply list_elem_of_fmap in Hname as (c' & -> & Hc').
  destruct (decide (category = c')) as [<-|Hdiff].
  - intros Heq. apply (inj (String.append category)) in Heq.
    injection Heq as Heq. by change (response = "Churn") in Heq.
  - unfold cat_columns in *.
    repeat (apply elem_of_cons in Hcat as [->|Hcat]);
      [..|by apply elem_of_nil in Hcat];
      (repeat (apply elem_of_cons in Hc' as [->|Hc']);
       [..|by apply elem_of_nil in Hc']; try done; simpl; discriminate).
Qed.

(** C10, amended.  Let the table hold the fourteen raw columns with a
    numeric type and lack at least one of the five columns
    ["Gender_Churn"], ..., ["Card_Category_Churn"].  Then
    [perform_feature_engineering] with a non-empty response other than
    "Churn" raises a key error. *)
Theorem perform_feature_engineering_other_response r response w df :
  heap w !! r = Some df ->
  Forall (fun name => exists vals, getitem df name = Ok (FloatColumn vals))
         raw_columns ->
  response ≠ "" -> response ≠ "Churn" ->
  (exists name, name ∈ encoded_columns /\ name ∉ column_names df) ->
  exists missing,
    (perform_feature_engineering RandomState rng_permutation r response w).1
    = Raise (KeyError missing).
Proof.
  intros Hr Hraw Hne Hnc (name & Hname & Hnot).
  rewrite (perform_feature_engineering_run _ _ _ _ Hr). unfold engineered.
  assert (is_error : forall e, is_KeyError e ->
            exists missing,
              Raise (A := DataFrame * DataFrame * Series * Series) e
              = Raise (KeyError missing)).
  { intros [] He; try done. eauto. }
  rewrite list.Forall_forall in Hraw.
  destruct (Hraw "Customer_Age" (list_elem_of_here _ _)) as [vals Hage].
  destruct (encode_frames response cat_columns df) as [[[]|e] encoded] eqn:Henc.
  - unfold getitem_series, getitem.
    destruct (alist_lookup "Churn" (columns encoded)); [|eauto].
    destruct (getitem_list_missing encoded keep_cols name) as [missing ->]; [| |eauto].
    + rewrite keep_cols_parts. apply elem_of_app. by right.
    + intros Hin.
      pose proof (encode_frames_names response cat_columns df name) as Hnames.
      rewrite Henc in Hnames. destruct (Hnames Hin) as [?|Htarget]; [done|].
      apply list_elem_of_fmap in Htarget as (cat & Heq & Hcat).
      by apply (target_not_encoded response cat name).
  - apply is_error.
    apply (encode_frames_Raise response cat_columns df "Customer_Age" vals);
      [|done|by rewrite Henc].
    apply (bool_decide_unpack _). by vm_compute.
Qed.

End FeatureEngineering.

Lemma toy_permutation_valid g n : (toy_permutation g n).1 ≡ₚ seq 0 n.
Proof. symmetry. apply Permutation_rev. Qed.

Lemma perform_feature_engineering_deterministic_witness :
  heap churn_world !! 0 = Some churn_table /\
  heap other_world !! 1 = Some churn_table /\
  (perform_feature_engineering toy_RandomState toy_permutation 0 "Churn" churn_world).1
  = (perform_feature_engineering toy_RandomState toy_permutation 1 "Churn" other_world).1.
Proof.
  split; [reflexivity|]. split; [reflexivity|].
  apply (perform_feature_engineering_deterministic toy_RandomState toy_permutation
           churn_world other_world 0 1 churn_table "Churn"); reflexivity.
Defined.

Lemma perform_feature_engineering_columns_witness :
  exists x_train x_test y_train y_test w',
    perform_feature_engineering toy_RandomState toy_permutation 0 "Churn" churn_world
      = (Ok (x_train, x_test, y_train, y_test), w') /\
    column_names x_train = keep_cols /\ column_names x_test = keep_cols.
Proof.
  pose (out := perform_feature_engineering toy_RandomState toy_permutation 0
                 "Churn" churn_world).
  pose (t := result_default no_split out.1).
  assert (Hrun : out = (Ok (t.1.1.1, t.1.1.2, t.1.2, t.2), out.2))
    by (vm_compute; reflexivity).
  destruct (perform_feature_engineering_columns _ _ _ _ _ _ _ _ _ _ Hrun)
    as (Htrain & Htest & _).
  exists t.1.1.1, t.1.1.2, t.1.2, t.2, out.2.
  split; [exact Hrun|]. split; [exact Htrain | exact Htest].
Defined.

Lemma perform_feature_engineering_split_witness :
  exists x_train x_test y_train y_test w',
    perform_feature_engineering toy_RandomState toy_permutation 0 "Churn" churn_world
      = (Ok (x_train, x_test, y_train, y_test), w') /\
    nrows x_train + nrows x_test = 4 /\
    index x_train = [1; 0] /\ index x_test = [3; 2] /\
    well_formed x_train /\ well_formed x_test /\
    length (cells (s_values y_train)) = nrows x_train.
Proof.
  pose (out := perform_feature_engineering toy_RandomState toy_permutation 0
                 "Churn" churn_world).
  pose (t := result_default no_split out.1).
  assert (Hrun : out = (Ok (t.1.1.1, t.1.1.2, t.1.2, t.2), out.2))
    by (vm_compute; reflexivity).
  destruct (perform_feature_engineering_split toy_RandomState toy_permutation
              0 "Churn" churn_world churn_table _ _ _ _ _
              toy_permutation_valid eq_refl Hrun)
    as (Hrows & _ & _ & _ & _ & _ & Hcols).
  destruct Hcols as (Htrain & Htest & Hlabels & _).
  { apply (bool_decide_unpack _). by vm_compute. }
  exists t.1.1.1, t.1.1.2, t.1.2, t.2, out.2.
  split; [exact Hrun|]. split; [exact Hrows|].
  split; [vm_compute; reflexivity|]. split; [vm_compute; reflexivity|].
  split; [exact Htrain|]. split; [exact Htest | exact Hlabels].
Defined.

Lemma perform_feature_engineering_other_response_witness :
  exists missing,
    (perform_feature_engineering toy_RandomState toy_permutation 0 "Target"
       churn_world).1 = Raise (KeyError missing).
Proof.
  apply (perform_feature_engineering_other_response toy_RandomState
           toy_permutation 0 "Target" churn_world churn_table).
  - reflexivity.
  - repeat constructor; eexists; reflexivity.
  - discriminate.
  - discriminate.
  - exists "Gender_Churn". split; apply (bool_decide_unpack _); by vm_compute.
Defined.

(** Without the proviso the property fails: on a table that already has the
    five encoded columns the selection succeeds whatever the response. *)
Lemma perform_feature_engineering_preencoded_counterexample :
  Forall (fun name => exists vals,
            getitem preencoded_table name = Ok (FloatColumn vals)) raw_columns /\
  Forall (fun name => name ∈ column_names preencoded_table) cat_columns /\
  exists out,
    (perform_feature_engineering toy_RandomState toy_permutation 0 "Target"
       preencoded_world).1 = Ok out.
Proof.
  split; [repeat constructor; eexists; reflexivity|].
  split; [apply (bool_decide_unpack _); by vm_compute|].
  eexists. vm_compute. reflexivity.
Qed.

(** ** The classification-report images *)

Lemma rf_results_ne_logistic :
  "./images/results/rf_results.png" ≠ "./images/results/logistic_results.png".
Proof. discriminate. Qed.

(** C5.  What [classification_report_image] saves.  In the random-forest
    image the report of the training split is the text directly below the
    heading "Random Forest Train" and the report of the test split the text
    directly below "Random Forest Test".  In the logistic-regression image the
    two are exchanged: the test report stands below "Logistic Regression
    Train" and the training report below "Logistic Regression Test". *)
Theorem classification_report_image_blocks
    (classification_report : Series -> list Z -> string)
    y_train y_test y_train_preds_lr y_train_preds_rf
    y_test_preds_lr y_test_preds_rf s :
  exists rf lr,
    disk (classification_report_image classification_report y_train y_test
            y_train_preds_lr y_train_preds_rf y_test_preds_lr y_test_preds_rf s).2
      !! "./images/results/rf_results.png" = Some (Image rf) /\
    disk (classification_report_image classification_report y_train y_test
            y_train_preds_lr y_train_preds_rf y_test_preds_lr y_test_preds_rf s).2
      !! "./images/results/logistic_results.png" = Some (Image lr) /\
    text_at rf (5 # 4) = Some "Random Forest Train" /\
    text_below rf (5 # 4) = Some (classification_report y_train y_train_preds_rf) /\
    text_at rf (3 # 5) = Some "Random Forest Test" /\
    text_below rf (3 # 5) = Some (classification_report y_test y_test_preds_rf) /\
    text_at lr (5 # 4) = Some "Logistic Regression Train" /\
    text_below lr (5 # 4) = Some (classification_report y_test y_test_preds_lr) /\
    text_at lr (3 # 5) = Some "Logistic Regression Test" /\
    text_below lr (3 # 5) = Some (classification_report y_train y_train_preds_lr).
Proof.
  eexists _, _. cbn -[insert lookup].
  rewrite lookup_insert_ne by apply not_eq_sym, rf_results_ne_logistic.
  rewrite !lookup_insert_eq.
  repeat split.
Qed.

(** ** The feature-importance chart *)

Lemma take_positions_reverse {A} (pos : list nat) (l : list A) :
  take_positions (reverse pos) l = reverse (take_positions pos l).
Proof.
  unfold take_positions. induction pos as [|i pos IH]; [done|].
  rewrite reverse_cons, omap_app, IH. csimpl.
  destruct (l !! i); simpl.
  - by rewrite reverse_cons.
  - by rewrite app_nil_r.
Qed.

Lemma take_positions_lookup {A} (pos : list nat) (l : list A) i :
  Forall (fun idx => idx < length l) pos ->
  take_positions pos l !! i = pos !! i ≫= fun idx => l !! idx.
Proof.
  unfold take_positions. intros Hpos. revert i.
  induction Hpos as [|idx pos Hidx Hpos IH]; intros i; [done|].
  csimpl. destruct (lookup_lt_is_Some_2 l idx Hidx) as [x Hx]. rewrite Hx.
  destruct i as [|i]; simpl; [done | apply IH].
Qed.

Lemma columns_at_Ok names indices labels :
  columns_at names indices = Ok labels ->
  labels = take_positions indices names /\
  Forall (fun idx => idx < length names) indices /\
  length labels = length indices.
Proof.
  unfold take_positions. revert labels.
  induction indices as [|i rest IH]; intros labels; simpl.
  - by intros [= <-].
  - destruct (names !! i) as [name|] eqn:Hi; [|done].
    destruct (columns_at names rest) as [l|]; [|done].
    intros [= <-]. destruct (IH l eq_refl) as (-> & Hall & Hlen).
    csimpl. split; [done|]. split.
    + constructor; [|done]. by apply lookup_lt_Some in Hi.
    + by rewrite Hlen.
Qed.

Lemma descending_reverse l : ascending l -> descending (reverse l).
Proof.
  intros Hasc i j a b Hij Ha Hb.
  assert (j < length l) as Hj.
  { apply lookup_lt_Some in Hb. by rewrite length_reverse in Hb. }
  rewrite reverse_lookup in Ha by lia. rewrite reverse_lookup in Hb by lia.
  apply (Hasc (length l - S j) (length l - S i)); [lia|done|done].
Qed.

(** C8.  Let [argsort], on the importances of the fitted forest, return a
    permutation of their positions that puts them in ascending order.  When
    [feature_importance_plot] returns, the saved chart has one bar per
    feature column; the heights of the bars, from left to right, are the
    importances in descending order; and the label under the i-th bar is the
    name of the column whose importance is the height of that bar: heights
    and labels are the importances and the column names taken in the same
    order of positions. *)
Theorem feature_importance_plot_sorted (argsort : list Qc -> list nat)
    model features output_pth s s' best :
  best_estimator_ model = Some best ->
  argsort (feature_importances_ best)
    ≡ₚ seq 0 (length (feature_importances_ best)) ->
  ascending (take_positions (argsort (feature_importances_ best))
               (feature_importances_ best)) ->
  feature_importance_plot argsort model features output_pth s = (Ok tt, s') ->
  exists fig indices,
    disk s' !! (output_pth +:+ "feature_importances.png") = Some (Image fig) /\
    indices ≡ₚ seq 0 (length (columns features)) /\
    length (feature_importances_ best) = length (columns features) /\
    (fig_bars fig).*1 = seq 0 (length (columns features)) /\
    (fig_bars fig).*2 = take_positions indices (feature_importances_ best) /\
    descending (fig_bars fig).*2 /\
    (fig_xticks fig).*1 = seq 0 (length (columns features)) /\
    (fig_xticks fig).*2 = take_positions indices (column_names features) /\
    (forall i idx, indices !! i = Some idx ->
       exists height name,
         fig_bars fig !! i = Some (i, height) /\
         feature_importances_ best !! idx = Some height /\
         fig_xticks fig !! i = Some (i, name) /\
         column_names features !! idx = Some name).
Proof.
  intros Hbest Hperm Hasc.
  set (importances := feature_importances_ best) in *.
  set (indices := reverse (argsort importances)).
  assert (Hind : indices ≡ₚ seq 0 (length importances)).
  { unfold indices. by rewrite reverse_Permutation. }
  assert (Hvalid : Forall (fun idx => idx < length importances) indices).
  { apply list.Forall_forall. intros idx Hidx. rewrite Hind in Hidx.
    apply elem_of_seq in Hidx. lia. }
  assert (Hlen_ind : length indices = length importances).
  { apply Permutation_length in Hind. by rewrite length_seq in Hind. }
  assert (Hheights : length (take_positions indices importances)
                     = length importances).
  { rewrite length_take_positions; [done|].
    intros idx Hidx. by apply (proj1 (list.Forall_forall _ _) Hvalid). }
  unfold feature_importance_plot, bind, lift. rewrite Hbest. simpl.
  fold importances. fold indices.
  destruct (columns_at (column_names features) indices) as [names|] eqn:Hnames;
    [|done].
  destruct (columns_at_Ok _ _ _ Hnames) as (-> & Hcols & Hlen_names).
  unfold plt_bar, plt_xticks, plt_savefig, on_gcf, raise.
  rewrite length_seq.
  destruct (decide (length (columns features)
                    = length (take_positions indices importances))) as [Hn|];
    [|done].
  simpl.
  destruct (decide _) as [Hn'|]; [|done].
  intros [= <-]. simpl.
  rewrite Hheights in Hn.
  eexists _, indices. split; [apply lookup_insert_eq|]. simpl.
  split; [by rewrite Hn|]. split; [done|].
  split; [apply fst_zip; rewrite length_seq; lia|].
  assert (Hsnd : (zip (seq 0 (length (columns features)))
                    (take_positions indices importances)).*2
                 = take_positions indices importances).
  { apply snd_zip. rewrite length_seq. lia. }
  split; [done|]. split.
  { rewrite Hsnd. unfold indices. rewrite take_positions_reverse.
    by apply descending_reverse. }
  split; [apply fst_zip; rewrite length_seq; lia|].
  split; [apply snd_zip; rewrite length_seq; lia|].
  intros i idx Hi.
  assert (i < length (columns features)) as Hlt.
  { apply lookup_lt_Some in Hi. lia. }
  destruct (lookup_lt_is_Some_2 importances idx) as [height Hheight].
  { by apply (proj1 (list.Forall_lookup _ _) Hvalid i). }
  destruct (lookup_lt_is_Some_2 (column_names features) idx) as [name Hname].
  { by apply (proj1 (list.Forall_lookup _ _) Hcols i). }
  exists height, name.
  rewrite !lookup_zip_with, !lookup_seq_lt by done.
  rewrite !take_positions_lookup by done. rewrite Hi. simpl.
  by rewrite Hheight, Hname.
Qed.

(** The logistic-regression image on concrete predictions: below the
    heading "Logistic Regression Train" stands the report of the one-row
    test split, not that of the three-row training split. *)
Lemma logistic_report_swapped_example :
  exists lr,
    disk (classification_report_image toy_report train_labels test_labels
            [0; 0; 0]%Z [1; 0; 0]%Z [0]%Z [1]%Z empty_session).2
      !! "./images/results/logistic_results.png" = Some (Image lr) /\
    text_at lr (5 # 4) = Some "Logistic Regression Train" /\
    text_below lr (5 # 4) = Some "support 1" /\
    toy_report train_labels [0; 0; 0]%Z = "support 3" /\
    toy_report test_labels [0]%Z = "support 1".
Proof.
  eexists. split; [vm_compute; reflexivity|].
  repeat split.
Qed.

Lemma feature_importance_plot_sorted_witness :
  exists s' fig,
    feature_importance_plot toy_argsort fitted_search three_features
      "./images/results/" empty_session = (Ok tt, s') /\
    disk s' !! "./images/results/feature_importances.png" = Some (Image fig) /\
    descending (fig_bars fig).*2 /\
    (fig_xticks fig).*2 = ["Credit_Limit"; "Total_Trans_Ct"; "Customer_Age"].
Proof.
  pose (out := feature_importance_plot toy_argsort fitted_search three_features
                 "./images/results/" empty_session).
  assert (Hrun : out = (Ok tt, out.2)) by (vm_compute; reflexivity).
  assert (Hperm : toy_argsort (feature_importances_ fitted_forest)
                  ≡ₚ seq 0 (length (feature_importances_ fitted_forest))).
  { apply (bool_decide_unpack _). by vm_compute. }
  assert (Hasc : ascending (take_positions
                              (toy_argsort (feature_importances_ fitted_forest))
                              (feature_importances_ fitted_forest))).
  { intros i j a b Hij Ha Hb.
    destruct i as [|[|[|i]]]; destruct j as [|[|[|j]]]; try lia;
      try discriminate Ha; try discriminate Hb;
      vm_compute in Ha, Hb; injection Ha as <-; injection Hb as <-;
      by apply (bool_decide_unpack _). }
  destruct (feature_importance_plot_sorted toy_argsort fitted_search
              three_features "./images/results/" empty_session out.2
              fitted_forest eq_refl Hperm Hasc Hrun)
    as (fig & indices & Hfig & _ & _ & _ & _ & Hdesc & _).
  exists out.2, fig. split; [exact Hrun|]. split; [exact Hfig|].
  split; [exact Hdesc|].
  vm_compute in Hfig. injection Hfig as <-. vm_compute. reflexivity.
Defined.

(** ** The estimators of [train_models] *)

(** The specification asks for the seed 42 on both estimators; the
    linear model is built without one. *)
Lemma train_models_seed_counterexample :
  ~ (rf_random_state rfc = Some 42%Z /\ lr_random_state lrc = Some 42%Z).
Proof. intros [_ H]. discriminate H. Qed.

(** C9, amended.  [train_models] hands the search a forest built with seed
    42 and fits a linear model built without a seed, whose solver is the
    default one and draws no random numbers; these two estimators are the
    only ones it fits. *)
Theorem train_models_seeding :
  rf_random_state rfc = Some 42%Z /\
  lr_random_state lrc = None /\
  lr_solver lrc = "lbfgs" /\
  lr_solver_uses_seed (lr_solver lrc) = false /\
  forall classification_report argsort rf_predict lr_predict
         grid_search_fit grid_search_fit' lr_fit lr_fit'
         x_train x_test y_train y_test s,
    grid_search_fit (mkGridSearchCV rfc param_grid 5 None) x_train y_train
      = grid_search_fit' (mkGridSearchCV rfc param_grid 5 None) x_train y_train ->
    lr_fit lrc x_train y_train = lr_fit' lrc x_train y_train ->
    train_models classification_report argsort grid_search_fit lr_fit
      rf_predict lr_predict x_train x_test y_train y_test s
    = train_models classification_report argsort grid_search_fit' lr_fit'
        rf_predict lr_predict x_train x_test y_train y_test s.
Proof.
  repeat (split; [reflexivity|]).
  intros * Hgs Hlr. unfold train_models, bind, lift. by rewrite Hgs, Hlr.
Qed.

Lemma train_models_seeding_witness :
  train_models toy_report toy_argsort toy_grid_search_fit toy_lr_fit
    toy_rf_predict toy_lr_predict three_features three_features
    test_labels test_labels empty_session
  = train_models toy_report toy_argsort
      (fun _ => toy_grid_search_fit (mkGridSearchCV rfc param_grid 5 None))
      (fun _ => toy_lr_fit lrc)
      toy_rf_predict toy_lr_predict three_features three_features
      test_labels test_labels empty_session.
Proof. apply train_models_seeding; reflexivity. Defined.

(** * Further properties *)

(** ** When the encoder returns *)

Lemma lookup_each_total column_groups vals :
  (forall val, val ∈ vals -> exists m, loc column_groups val = Ok m) ->
  exists column_lst, lookup_each column_groups vals = Ok column_lst.
Proof.
  induction vals as [|val vals IH]; intros Hall; simpl; [eauto|].
  destruct (Hall val (list_elem_of_here _ _)) as [m ->].
  destruct IH as [lst ->]; [|eauto].
  intros v Hv. apply Hall. by right.
Qed.

Lemma encode_frame_total response category df keys churn :
  getitem df category = Ok keys ->
  getitem df "Churn" = Ok (FloatColumn churn) ->
  category ≠ "Churn" ->
  NaN ∉ cells keys ->
  length (cells keys) <= length churn ->
  exists df', encode_frame response category df = Ok df'.
Proof.
  intros Hkeys Hchurn Hne Hnan Hlen.
  unfold encode_frame, groupby_mean, getitem_means, getitem in *.
  destruct (alist_lookup category (columns df)) as [keys'|] eqn:Hk; [|done].
  injection Hkeys as ->.
  destruct (alist_lookup "Churn" (columns df)) as [c|] eqn:Hc; [|done].
  injection Hchurn as ->.
  pose proof (alist_lookup_aggregate category (cells keys) _ _ _
                (not_eq_sym Hne) Hc) as Hagg.
  destruct (omap _ (columns df)) as [|a agg]; [done|]. rewrite Hagg.
  destruct (lookup_each_total (group_means (cells keys) churn) (cells keys))
    as [lst ->]; [|eauto].
  intros val Hval. rewrite loc_group_means. rewrite decide_True; [eauto|].
  split; [congruence|]. by rewrite fst_zip.
Qed.

Lemma encode_frames_total response category_lst :
  forall cur df0 churn,
  getitem cur "Churn" = Ok (FloatColumn churn) ->
  (forall c, c ∈ category_lst -> getitem cur c = getitem df0 c) ->
  "Churn" ∉ category_lst ->
  no_alias response category_lst ->
  (forall c, c ∈ category_lst ->
     exists keys, getitem df0 c = Ok keys /\ (NaN ∉ cells keys) /\
                  length (cells keys) <= length churn) ->
  (encode_frames response category_lst cur).1 = Ok tt.
Proof.
  induction category_lst as [|c0 rest IH];
    intros cur df0 churn Hchurn Hsame Hnc Hna Hcols; [done|].
  cbn [encode_frames no_alias] in *. destruct Hna as [Hfresh Hna].
  apply not_elem_of_cons in Hnc as [Hc0 Hnc].
  destruct (Hcols c0 (list_elem_of_here _ _)) as (keys & Hkeys & Hnan & Hlen).
  rewrite <- Hsame in Hkeys by apply list_elem_of_here.
  destruct (encode_frame_total response c0 cur keys churn)
    as [cur' Hstep]; [done..|by apply not_eq_sym|done|done|].
  rewrite Hstep.
  destruct (encode_frame_Ok _ _ _ _ _ Hchurn Hstep)
    as (_ & keys0 & lst0 & _ & -> & _ & _).
  apply (IH _ df0 churn); [| |done|done|].
  - rewrite getitem_setitem_ne; [done|].
    apply target_name_not_Churn. by apply not_eq_sym.
  - intros c Hc. rewrite getitem_setitem_ne.
    + by apply Hsame, list_elem_of_further.
    + rewrite list.Forall_forall in Hfresh. by apply Hfresh.
  - intros c Hc. apply Hcols. by right.
Qed.

(** X1.  [encoder_helper] returns whenever the table has a numeric [Churn]
    column, [Churn] is not itself a category, every category is a column
    without missing values that is no longer than [Churn], and no iteration
    writes the category of a later one. *)
Theorem encoder_helper_returns w dataframe category_lst response df churn :
  heap w !! dataframe = Some df ->
  getitem df "Churn" = Ok (FloatColumn churn) ->
  "Churn" ∉ category_lst ->
  no_alias response category_lst ->
  (forall c, c ∈ category_lst ->
     exists keys, getitem df c = Ok keys /\ (NaN ∉ cells keys) /\
                  length (cells keys) <= length churn) ->
  exists r' w', encoder_helper dataframe category_lst response w = (Ok r', w').
Proof.
  intros Hdf Hchurn Hnc Hna Hcols.
  rewrite (encoder_helper_run _ _ _ _ _ Hdf).
  rewrite (encode_frames_total response category_lst df df churn Hchurn
             (fun _ _ => eq_refl) Hnc Hna Hcols).
  eauto.
Qed.

(** ** How the encoder fails *)

Lemma encode_frame_missing response category df :
  category ∉ column_names df ->
  encode_frame response category df = Raise (KeyError [Str category]).
Proof.
  intros Hnot. apply alist_lookup_None in Hnot.
  unfold encode_frame, groupby_mean. by rewrite Hnot.
Qed.

Lemma encode_frames_missing response category_lst :
  forall cur category,
  category ∈ category_lst ->
  category ∉ column_names cur ->
  category ∉ target_name response <$> category_lst ->
  exists e, (encode_frames response category_lst cur).1 = Raise e.
Proof.
  induction category_lst as [|c0 rest IH]; intros cur category Hin Hnot Htarget.
  - by apply elem_of_nil in Hin.
  - cbn [encode_frames]. rewrite fmap_cons in Htarget.
    apply not_elem_of_cons in Htarget as [Hne Htarget].
    destruct (encode_frame response c0 cur) as [cur'|e] eqn:Hstep; [|eauto].
    apply elem_of_cons in Hin as [->|Hin].
    + by rewrite (encode_frame_missing _ _ _ Hnot) in Hstep.
    + apply (IH cur' category Hin); [|done].
      intros Hin'. by destruct (encode_frame_names _ _ _ _ _ Hstep Hin').
Qed.

(** X2.  A category that is neither a column of the table nor a column
    written by the loop makes [encoder_helper] raise; when it is the first
    category of the list, the error is the key error for its name. *)
Theorem encoder_helper_missing_category w dataframe category_lst response
    df category :
  heap w !! dataframe = Some df ->
  category ∈ category_lst ->
  category ∉ column_names df ->
  (category ∉ target_name response <$> category_lst ->
   exists e, (encoder_helper dataframe category_lst response w).1 = Raise e) /\
  (forall rest, category_lst = category :: rest ->
     (encoder_helper dataframe category_lst response w).1
     = Raise (KeyError [Str category])).
Proof.
  intros Hdf Hin Hnot. rewrite (encoder_helper_run _ _ _ _ _ Hdf). simpl. split.
  - intros Htarget.
    destruct (encode_frames_missing response category_lst df category Hin Hnot
                Htarget) as [e ->].
    eauto.
  - intros rest ->. cbn [encode_frames].
    by rewrite (encode_frame_missing _ _ _ Hnot).
Qed.

Lemma loc_group_means_nan keys vals :
  loc (group_means keys vals) NaN = Raise (KeyError [NaN]).
Proof.
  rewrite loc_group_means. destruct (decide _) as [[Hne _]|]; [done|done].
Qed.

Lemma lookup_each_nan column_groups vals :
  NaN ∈ vals ->
  loc column_groups NaN = Raise (KeyError [NaN]) ->
  (forall val, val ∈ vals -> val ≠ NaN -> exists m, loc column_groups val = Ok m) ->
  lookup_each column_groups vals = Raise (KeyError [NaN]).
Proof.
  intros Hin Hnan. induction vals as [|val vals IH]; intros Hothers.
  - by apply elem_of_nil in Hin.
  - simpl. destruct (decide (val = NaN)) as [->|Hne].
    + by rewrite Hnan.
    + destruct (Hothers val (list_elem_of_here _ _) Hne) as [m ->].
      apply elem_of_cons in Hin as [Heq|Hin]; [congruence|].
      rewrite IH; [done|done|]. intros v Hv. apply Hothers. by right.
Qed.

(** X3.  A missing value in the first categorical column makes
    [encoder_helper] raise the key error of [NaN]: the group table has no
    entry for it. *)
Theorem encoder_helper_missing_value w dataframe category rest response
    df keys churn :
  heap w !! dataframe = Some df ->
  getitem df category = Ok keys ->
  getitem df "Churn" = Ok (FloatColumn churn) ->
  category ≠ "Churn" ->
  length (cells keys) <= length churn ->
  NaN ∈ cells keys ->
  (encoder_helper dataframe (category :: rest) response w).1
  = Raise (KeyError [NaN]).
Proof.
  intros Hdf Hkeys Hchurn Hne Hlen Hnan.
  rewrite (encoder_helper_run _ _ _ _ _ Hdf). simpl.
  assert (encode_frame response category df = Raise (KeyError [NaN])) as ->; [|done].
  unfold encode_frame, groupby_mean, getitem_means, getitem in *.
  destruct (alist_lookup category (columns df)) as [keys'|] eqn:Hk; [|done].
  injection Hkeys as ->.
  destruct (alist_lookup "Churn" (columns df)) as [c|] eqn:Hc; [|done].
  injection Hchurn as ->.
  pose proof (alist_lookup_aggregate category (cells keys) _ _ _
                (not_eq_sym Hne) Hc) as Hagg.
  destruct (omap _ (columns df)) as [|a agg]; [done|]. rewrite Hagg.
  rewrite (lookup_each_nan _ _ Hnan (loc_group_means_nan _ _)); [done|].
  intros val Hval Hval_ne. rewrite loc_group_means.
  rewrite decide_True; [eauto|]. split; [done|]. by rewrite fst_zip.
Qed.

Lemma alist_lookup_aggregate_Some by_ keys cols name g :
  alist_lookup name (omap (aggregate_column by_ keys) cols) = Some g ->
  exists vals, (name, FloatColumn vals) ∈ cols.
Proof.
  induction cols as [|[name' c] cols IH]; csimpl; [done|].
  unfold aggregate_column at 1; simpl.
  destruct c as [vals|vals].
  - destruct (decide (name' = by_)).
    + intros H. destruct (IH H) as [v Hv]. exists v. by right.
    + simpl. destruct (decide (name' = name)) as [->|].
      * intros _. exists vals. left.
      * intros H. destruct (IH H) as [v Hv]. exists v. by right.
  - intros H. destruct (IH H) as [v Hv]. exists v. by right.
Qed.

(** X4.  When the table has no numeric column named [Churn] (none at all, or
    one of dtype object) but has the first category and some other numeric
    column, [encoder_helper] raises the key error for "Churn". *)
Theorem encoder_helper_needs_numeric_churn w dataframe category rest response
    df other vals :
  heap w !! dataframe = Some df ->
  category ∈ column_names df ->
  (forall churn, ("Churn", FloatColumn churn) ∉ columns df) ->
  other ≠ category ->
  getitem df other = Ok (FloatColumn vals) ->
  (encoder_helper dataframe (category :: rest) response w).1
  = Raise (KeyError [Str "Churn"]).
Proof.
  intros Hdf Hcat Hchurn Hother Hvals.
  rewrite (encoder_helper_run _ _ _ _ _ Hdf). simpl.
  assert (encode_frame response category df = Raise (KeyError [Str "Churn"]))
    as ->; [|done].
  unfold encode_frame, groupby_mean, getitem_means, getitem in *.
  destruct (alist_lookup category (columns df)) as [keys|] eqn:Hk.
  2:{ apply alist_lookup_None in Hk. done. }
  destruct (alist_lookup other (columns df)) as [c|] eqn:Hc; [|done].
  injection Hvals as ->.
  pose proof (alist_lookup_aggregate category (cells keys) _ _ _ Hother Hc) as Hagg.
  destruct (omap (aggregate_column category (cells keys)) (columns df))
    as [|a agg] eqn:Hom; [done|].
  destruct (alist_lookup "Churn" (a :: agg)) as [g|] eqn:Hg; [|done].
  rewrite <- Hom in Hg.
  destruct (alist_lookup_aggregate_Some _ _ _ _ _ Hg) as [churn Hin].
  by destruct (Hchurn churn).
Qed.

(** ** What the encoder writes *)

Lemma encode_frame_shape response category df df' :
  encode_frame response category df = Ok df' ->
  exists column_lst,
    df' = setitem (target_name response category) (FloatColumn column_lst) df.
Proof.
  unfold encode_frame.
  destruct (groupby_mean df category); [|done].
  destruct (getitem_means _ _); [|done].
  destruct (getitem df category); [|done].
  destruct (lookup_each _ _) as [column_lst|]; [|done].
  intros [= <-]. eauto.
Qed.

Lemma encode_frames_other response category_lst cur name :
  name ∉ target_name response <$> category_lst ->
  getitem (encode_frames response category_lst cur).2 name = getitem cur name.
Proof.
  revert cur. induction category_lst as [|c0 rest IH]; intros cur Hname; [done|].
  cbn [encode_frames]. rewrite fmap_cons in Hname.
  apply not_elem_of_cons in Hname as [Hne Hname].
  destruct (encode_frame response c0 cur) as [cur'|e] eqn:Hstep; [|done].
  destruct (encode_frame_shape _ _ _ _ Hstep) as [lst ->].
  rewrite IH by done. by rewrite getitem_setitem_ne.
Qed.

Lemma encode_frames_appends response category_lst cur :
  NoDup (column_names cur ++ (target_name response <$> category_lst)) ->
  (encode_frames response category_lst cur).1 = Ok tt ->
  column_names (encode_frames response category_lst cur).2
  = column_names cur ++ (target_name response <$> category_lst).
Proof.
  revert cur. induction category_lst as [|c0 rest IH]; intros cur Hnd Hok.
  - simpl. by rewrite app_nil_r.
  - cbn [encode_frames] in *. rewrite fmap_cons in *.
    destruct (encode_frame response c0 cur) as [cur'|e] eqn:Hstep;
      [|by simpl in Hok].
    destruct (encode_frame_shape _ _ _ _ Hstep) as [lst ->].
    assert (target_name response c0 ∉ column_names cur) as Hfresh.
    { apply list.NoDup_app in Hnd as (_ & Hdisj & _). intros Hin.
      apply (Hdisj _ Hin). left. }
    rewrite IH; [|rewrite setitem_names_fresh by done; by rewrite <- app_assoc|done].
    rewrite setitem_names_fresh by done. by rewrite <- app_assoc.
Qed.

(** X5.  [encoder_helper] writes the columns it names and nothing else:
    every other column of the result is the column of the input; and when
    the names it writes are new and distinct, they are appended to the
    columns of the input in the order of the list. *)
Theorem encoder_helper_writes_targets_only w dataframe category_lst response
    df r' w' :
  heap w !! dataframe = Some df ->
  encoder_helper dataframe category_lst response w = (Ok r', w') ->
  exists df', heap w' !! r' = Some df' /\
    (forall name, name ∉ target_name response <$> category_lst ->
       getitem df' name = getitem df name) /\
    (NoDup (column_names df ++ (target_name response <$> category_lst)) ->
       column_names df'
       = column_names df ++ (target_name response <$> category_lst)).
Proof.
  intros Hdf Hrun. rewrite (encoder_helper_run _ _ _ _ _ Hdf) in Hrun.
  destruct (encode_frames response category_lst df).1 as [[]|e] eqn:Hok; [|done].
  injection Hrun as <- <-. eexists. split; [simpl; apply lookup_insert_eq|].
  split.
  - intros name Hname. by apply encode_frames_other.
  - intros Hnd. by apply encode_frames_appends.
Qed.

(** ** Encoded values are proportions *)

Lemma Qc_of_nat_nonneg n : (0 <= Qc_of_nat n)%Qc.
Proof.
  induction n as [|n IH]; [done|].
  rewrite Qc_of_nat_S. by apply Qcplus_nonneg_nonneg.
Qed.

Lemma Qc_sum_bounds xs :
  Forall (fun x => (0 <= x)%Qc /\ (x <= 1)%Qc) xs ->
  (0 <= Qc_sum xs)%Qc /\ (Qc_sum xs <= Qc_of_nat (length xs))%Qc.
Proof.
  induction 1 as [|x xs [H0 H1] _ [IH0 IH1]]; [done|].
  unfold Qc_sum in *. cbn [foldr length]. rewrite Qc_of_nat_S. split.
  - by apply Qcplus_nonneg_nonneg.
  - rewrite (Qcplus_comm x). by apply Qcplus_le_compat.
Qed.

Lemma mean_proportion xs :
  xs ≠ [] ->
  Forall (fun x => (0 <= x)%Qc /\ (x <= 1)%Qc) xs ->
  is_proportion (mean xs).
Proof.
  intros Hne Hall. destruct (Qc_sum_bounds xs Hall) as [H0 H1].
  destruct xs as [|x xs]; [done|]. unfold mean, is_proportion.
  set (s := Qc_sum (x :: xs)) in *. set (n := Qc_of_nat (length (x :: xs))) in *.
  assert (0 < n)%Qc as Hn.
  { unfold n. cbn [length]. rewrite Qc_of_nat_S.
    apply Qcplus_nonneg_pos; [apply Qc_of_nat_nonneg | done]. }
  assert (0 < / n)%Qc as Hinv by by apply Qcinv_pos.
  unfold Qcdiv. split.
  - apply Qcmult_nonneg_nonneg; [done | by apply Qclt_le_weak].
  - rewrite <- (Qcmult_inv_r n).
    + apply Qcmult_le_mono_nonneg_r; [by apply Qclt_le_weak | done].
    + intros Heq. rewrite Heq in Hn. by apply Qclt_not_eq in Hn.
Qed.

Lemma observations_flags k rows :
  Forall (fun row : cell * option Qc => is_flag row.2) rows ->
  Forall (fun x => (0 <= x)%Qc /\ (x <= 1)%Qc) (observations k rows).
Proof.
  unfold observations. induction 1 as [|[k' v] rows Hv _ IH]; [constructor|].
  csimpl. destruct (decide (k' = k)); [|done]. simpl in Hv.
  destruct Hv as [->| ->]; simpl; by constructor.
Qed.

Lemma observations_nonempty k rows i v :
  rows !! i = Some (k, Some v) -> observations k rows ≠ [].
Proof.
  unfold observations. revert i. induction rows as [|[k' v'] rows IH]; intros i Hi.
  - by rewrite lookup_nil in Hi.
  - csimpl. destruct i as [|i]; simpl in Hi.
    + injection Hi as -> ->. by rewrite decide_True.
    + specialize (IH i Hi).
      destruct (decide (k' = k)); [|done]. by destruct v'.
Qed.

(** One iteration on a table whose [Churn] entries are flags: whatever
    the category column holds, every group that a row belongs to has an
    observation, so every mean written is a proportion. *)
Lemma encode_frame_proportions response category df df' churn :
  well_formed df ->
  getitem df "Churn" = Ok (FloatColumn churn) ->
  Forall is_flag churn ->
  encode_frame response category df = Ok df' ->
  category ≠ "Churn" /\
  exists column_lst,
    df' = setitem (target_name response category) (FloatColumn column_lst) df /\
    length column_lst = nrows df /\
    Forall is_proportion column_lst.
Proof.
  intros Hwf Hchurn Hflags Hstep.
  destruct (encode_frame_Ok _ _ _ _ _ Hchurn Hstep)
    as (Hne & keys & column_lst & Hkeys & -> & Hlen & Hrows).
  split; [done|]. exists column_lst. split; [done|].
  pose proof (getitem_well_formed _ _ _ Hwf Hkeys) as Hklen.
  pose proof (getitem_well_formed _ _ _ Hwf Hchurn) as Hclen. simpl in Hclen.
  rewrite length_fmap in Hclen.
  split; [lia|].
  apply list.Forall_lookup. intros i x Hx.
  destruct (lookup_lt_is_Some_2 (cells keys) i) as [k Hk];
    [apply lookup_lt_Some in Hx; lia|].
  destruct (lookup_lt_is_Some_2 churn i) as [v Hv];
    [apply lookup_lt_Some in Hx; lia|].
  destruct (Hrows i k Hk) as [_ Hmean].
  rewrite Hmean in Hx. injection Hx as <-.
  assert (is_flag v) as Hvflag
    by by apply (proj1 (list.Forall_lookup _ _) Hflags i).
  assert (exists q, v = Some q) as [q ->] by (destruct Hvflag; eauto).
  apply mean_proportion.
  - apply (observations_nonempty _ _ i q).
    by rewrite lookup_zip_with, Hk, Hv.
  - apply observations_flags. apply list.Forall_forall. intros [k' v'] Hrow.
    apply elem_of_zip_r in Hrow. simpl.
    by apply (proj1 (list.Forall_forall _ _) Hflags).
Qed.

(** The loop keeps the columns of proportions it finds and leaves one for
    every category, also when an iteration reads or overwrites a column that
    an earlier one wrote. *)
Lemma encode_frames_proportions response category_lst :
  forall cur churn,
  well_formed cur ->
  getitem cur "Churn" = Ok (FloatColumn churn) ->
  Forall is_flag churn ->
  (encode_frames response category_lst cur).1 = Ok tt ->
  (forall name, proportion_column cur name ->
     proportion_column (encode_frames response category_lst cur).2 name) /\
  (forall c, c ∈ category_lst ->
     proportion_column (encode_frames response category_lst cur).2
       (target_name response c)).
Proof.
  induction category_lst as [|c0 rest IH]; intros cur churn Hwf Hchurn Hflags Hok.
  - simpl. split; [done|]. intros c Hc. by apply elem_of_nil in Hc.
  - cbn [encode_frames] in *.
    destruct (encode_frame response c0 cur) as [cur'|e] eqn:Hstep;
      [|by simpl in Hok].
    pose proof (encode_frame_well_formed _ _ _ _ Hwf Hstep) as Hwf'.
    destruct (encode_frame_proportions _ _ _ _ _ Hwf Hchurn Hflags Hstep)
      as (Hne & lst0 & -> & Hlen0 & Hprop0).
    assert (Hchurn' : getitem (setitem (target_name response c0)
                                 (FloatColumn lst0) cur) "Churn"
                      = Ok (FloatColumn churn)).
    { rewrite getitem_setitem_ne; [done|]. by apply target_name_not_Churn. }
    destruct (IH _ churn Hwf' Hchurn' Hflags Hok) as [IHkeep IHnew].
    assert (Hhere : proportion_column
                      (setitem (target_name response c0) (FloatColumn lst0) cur)
                      (target_name response c0)).
    { exists lst0. by rewrite getitem_setitem_eq. }
    split.
    + intros name Hname. apply IHkeep.
      destruct (decide (target_name response c0 = name)) as [<-|Hother];
        [done|].
      destruct Hname as (encoded & Henc & Hlen & Hprop).
      exists encoded. by rewrite getitem_setitem_ne.
    + intros c Hc. apply elem_of_cons in Hc as [->|Hc]; [|by apply IHnew].
      by apply IHkeep.
Qed.

(** X6.  On a well-formed table whose [Churn] entries are all 0 or 1 (as
    [import_data] makes them), every value [encoder_helper] writes is a
    number between 0 and 1: no entry of an encoded column is missing or out
    of range.  This holds for every category list and every response, also
    when an iteration reads a column that an earlier one wrote. *)
Theorem encoder_helper_proportions w dataframe category_lst response
    df churn r' w' :
  heap w !! dataframe = Some df ->
  well_formed df ->
  getitem df "Churn" = Ok (FloatColumn churn) ->
  Forall is_flag churn ->
  encoder_helper dataframe category_lst response w = (Ok r', w') ->
  exists df', heap w' !! r' = Some df' /\
    forall category, category ∈ category_lst ->
      exists encoded,
        getitem df' (target_name response category) = Ok (FloatColumn encoded) /\
        length encoded = nrows df /\
        Forall is_proportion encoded.
Proof.
  intros Hdf Hwf Hchurn Hflags Hrun.
  rewrite (encoder_helper_run _ _ _ _ _ Hdf) in Hrun.
  destruct (encode_frames response category_lst df).1 as [[]|e] eqn:Hok; [|done].
  injection Hrun as <- <-. eexists. split; [simpl; apply lookup_insert_eq|].
  destruct (encode_frames_proportions response category_lst df churn
              Hwf Hchurn Hflags Hok) as [_ Hnew].
  intros category Hin.
  destruct (Hnew category Hin) as (encoded & Henc & Hlen & Hprop).
  exists encoded. split; [done|]. split; [|done].
  rewrite Hlen. unfold nrows. by rewrite encode_frames_index.
Qed.

Lemma encoder_helper_returns_witness :
  exists r' w', encoder_helper 0 ["Segment"] "Churn" pair_world = (Ok r', w').
Proof.
  apply (encoder_helper_returns pair_world 0 ["Segment"] "Churn" pair_table
           [num 0; num 1]).
  - reflexivity.
  - reflexivity.
  - apply (bool_decide_unpack _). by vm_compute.
  - split; [constructor | exact I].
  - intros c Hc. apply list_elem_of_singleton in Hc as ->.
    exists (ObjectColumn [Some "A"; Some "A"]).
    split; [reflexivity|]. split; [|simpl; lia].
    apply (bool_decide_unpack _). by vm_compute.
Defined.

Lemma encoder_helper_missing_category_witness :
  (encoder_helper 0 ["Gender"; "Segment"] "Churn" pair_world).1
  = Raise (KeyError [Str "Gender"]).
Proof.
  assert (Hnot : "Gender" ∉ column_names pair_table).
  { apply (bool_decide_unpack _). by vm_compute. }
  apply (proj2 (encoder_helper_missing_category pair_world 0
                  ["Gender"; "Segment"] "Churn" pair_table "Gender" eq_refl
                  (list_elem_of_here _ _) Hnot) ["Segment"] eq_refl).
Defined.

Lemma encoder_helper_missing_value_witness :
  (encoder_helper 0 ["Segment"] "Churn" gap_world).1 = Raise (KeyError [NaN]).
Proof.
  apply (encoder_helper_missing_value gap_world 0 "Segment" [] "Churn" gap_table
           (ObjectColumn [Some "A"; None]) [num 0; num 1]).
  - reflexivity.
  - reflexivity.
  - reflexivity.
  - discriminate.
  - simpl; lia.
  - apply (bool_decide_unpack _). by vm_compute.
Defined.

Lemma encoder_helper_needs_numeric_churn_witness :
  (encoder_helper 0 cat_columns "Churn" raw_world).1
  = Raise (KeyError [Str "Churn"]).
Proof.
  apply (encoder_helper_needs_numeric_churn raw_world 0 "Gender"
           ["Education_Level"; "Marital_Status"; "Income_Category"; "Card_Category"]
           "Churn" bank_table "Customer_Age" [num 45; num 49; num 51; num 40]).
  - reflexivity.
  - apply (bool_decide_unpack _). by vm_compute.
  - intros churn Hin. apply (list_elem_of_fmap_2 fst) in Hin. simpl in Hin.
    revert Hin. apply (bool_decide_unpack _). by vm_compute.
  - discriminate.
  - reflexivity.
Defined.

Lemma encoder_helper_writes_targets_only_witness :
  exists r' w' df',
    encoder_helper 0 ["Segment"] "Churn" pair_world = (Ok r', w') /\
    heap w' !! r' = Some df' /\
    getitem df' "Segment" = getitem pair_table "Segment" /\
    column_names df' = ["Segment"; "Churn"; "Segment_Churn"].
Proof.
  assert (Hrun : encoder_helper 0 ["Segment"] "Churn" pair_world
                 = (Ok (fresh (dom (heap pair_world))),
                    (encoder_helper 0 ["Segment"] "Churn" pair_world).2))
    by (vm_compute; reflexivity).
  destruct (encoder_helper_writes_targets_only pair_world 0 ["Segment"] "Churn"
              pair_table _ _ eq_refl Hrun) as (df' & Hdf' & Hother & Hnames).
  eexists _, _, df'. split; [exact Hrun|]. split; [exact Hdf'|]. split.
  - apply Hother. apply (bool_decide_unpack _). by vm_compute.
  - apply Hnames. apply (bool_decide_unpack _). by vm_compute.
Defined.

Lemma encoder_helper_proportions_witness :
  exists r' w' df' encoded,
    encoder_helper 0 ["Card"; "Card_Category"] "Category" alias_world
      = (Ok r', w') /\
    heap w' !! r' = Some df' /\
    getitem df' "Card_Category_Category" = Ok (FloatColumn encoded) /\
    Forall is_proportion encoded.
Proof.
  assert (Hrun : encoder_helper 0 ["Card"; "Card_Category"] "Category" alias_world
                 = (Ok (fresh (dom (heap alias_world))),
                    (encoder_helper 0 ["Card"; "Card_Category"] "Category"
                       alias_world).2))
    by (vm_compute; reflexivity).
  assert (Hwf : well_formed alias_table) by (repeat constructor).
  assert (Hflags : Forall is_flag [num 0; num 1]).
  { constructor; [by left|]. constructor; [by right|]. constructor. }
  destruct (encoder_helper_proportions alias_world 0 ["Card"; "Card_Category"]
              "Category" alias_table [num 0; num 1] _ _ eq_refl Hwf eq_refl
              Hflags Hrun)
    as (df' & Hdf' & Hcols).
  destruct (Hcols "Card_Category") as (encoded & Henc & _ & Hprop).
  { apply list_elem_of_further, list_elem_of_here. }
  by eexists _, _, df', encoded.
Defined.

(** ** More on [perform_feature_engineering] *)

Lemma getitem_in_names df name c :
  getitem df name = Ok c -> name ∈ column_names df.
Proof.
  unfold getitem. destruct (alist_lookup name (columns df)) eqn:Hl; [|done].
  intros _. destruct (decide (name ∈ column_names df)) as [|Hn]; [done|].
  apply alist_lookup_None in Hn. congruence.
Qed.

Lemma getitem_list_total df keys :
  (forall k, k ∈ keys -> k ∈ column_names df) ->
  exists selected, getitem_list df keys = Ok selected.
Proof.
  intros Hall. unfold getitem_list.
  destruct (filter _ keys) as [|k0 missing] eqn:Hmissing; [eauto|].
  assert (k0 ∈ filter (fun k => alist_lookup k (columns df) = None) keys) as Hk0
    by (rewrite Hmissing; left).
  apply list_elem_of_filter in Hk0 as [Hnone Hin].
  apply alist_lookup_None in Hnone. by destruct (Hnone (Hall _ Hin)).
Qed.

Lemma getitem_list_columns df keys selected :
  getitem_list df keys = Ok selected ->
  Forall2 (fun k (kc : string * Column) =>
             kc.1 = k /\ alist_lookup k (columns df) = Some kc.2)
          keys (columns selected).
Proof.
  unfold getitem_list.
  destruct (filter _ keys) as [|k0 missing] eqn:Hmissing; [|done].
  intros [= <-]. simpl.
  induction keys as [|k keys IH]; [constructor|].
  rewrite filter_cons in Hmissing. csimpl.
  destruct (alist_lookup k (columns df)) as [c|] eqn:Hk.
  - rewrite decide_False in Hmissing by done. csimpl. constructor; [done|].
    by apply IH.
  - by rewrite decide_True in Hmissing.
Qed.

Lemma foldl_setitem_other (kcs : list (string * (string * Column))) acc name :
  name ∉ kcs.*1 ->
  getitem (foldl (fun acc kc => setitem kc.1 kc.2.2 acc) acc kcs) name
  = getitem acc name.
Proof.
  revert acc. induction kcs as [|[k [k' c]] kcs IH]; intros acc Hname; [done|].
  csimpl in *. apply not_elem_of_cons in Hname as [Hne Hname].
  rewrite IH by done. by rewrite getitem_setitem_ne.
Qed.

Lemma foldl_setitem_getitem cols keys (sc : list (string * Column)) acc k :
  Forall2 (fun k (kc : string * Column) =>
             kc.1 = k /\ alist_lookup k cols = Some kc.2) keys sc ->
  NoDup keys -> k ∈ keys ->
  getitem (foldl (fun acc kc => setitem kc.1 kc.2.2 acc) acc (zip keys sc)) k
  = getitem (mkDataFrame [] cols) k.
Proof.
  intros Hall. revert acc.
  induction Hall as [|k0 [k0' c0] keys sc [Hk0 Hc0] Hall IH]; intros acc Hnd Hin.
  - by apply elem_of_nil in Hin.
  - simpl in *. apply list.NoDup_cons in Hnd as [Hfresh Hnd].
    destruct (decide (k = k0)) as [->|Hne].
    + rewrite foldl_setitem_other.
      * rewrite getitem_setitem_eq. unfold getitem; simpl. by rewrite Hc0.
      * rewrite fst_zip; [done|]. apply Forall2_length in Hall. lia.
    + apply elem_of_cons in Hin as [?|Hin]; [done|]. by apply IH.
Qed.

Lemma setitem_list_getitem df keys selected X k :
  NoDup keys ->
  getitem_list df keys = Ok selected ->
  setitem_list keys selected (mkDataFrame [] []) = Ok X ->
  k ∈ keys ->
  getitem X k = getitem df k.
Proof.
  intros Hnd Hsel Hset Hk. unfold setitem_list in Hset.
  destruct (decide _); [|done]. injection Hset as <-.
  rewrite (foldl_setitem_getitem (columns df)); [done| |done|done].
  by apply getitem_list_columns.
Qed.

Lemma getitem_iloc pos df name c :
  getitem df name = Ok c ->
  getitem (iloc pos df) name = Ok (column_take pos c).
Proof.
  unfold getitem, iloc; simpl.
  induction (columns df) as [|[name' c'] cols IH]; csimpl; [done|].
  destruct (decide (name' = name)); [by intros [= ->] | done].
Qed.

Lemma no_alias_Churn : no_alias "Churn" cat_columns.
Proof.
  unfold cat_columns; repeat split; repeat constructor; discriminate.
Qed.

Lemma Churn_not_category : "Churn" ∉ cat_columns.
Proof. apply (bool_decide_unpack _). by vm_compute. Qed.

Section FeatureEngineeringMore.

Variable RandomState : Z -> list Z.
Variable rng_permutation : list Z -> nat -> list nat * list Z.

(** With the response "Churn", a well-formed table with the needed columns
    gets as far as the split, which then sees one label per row. *)
Lemma engineered_reaches_split df churn :
  well_formed df ->
  getitem df "Churn" = Ok (FloatColumn churn) ->
  (forall c, c ∈ cat_columns ->
     exists keys, getitem df c = Ok keys /\ (NaN ∉ cells keys)) ->
  (forall name, name ∈ raw_columns -> name ∈ column_names df) ->
  exists X label,
    engineered RandomState rng_permutation df "Churn"
      = split_seeded RandomState rng_permutation X label (3 # 10) 42 /\
    nrows X = nrows df /\ length (s_index label) = nrows df.
Proof.
  intros Hwf Hchurn Hcats Hraw. unfold engineered.
  assert (Hcols : forall c, c ∈ cat_columns ->
            exists keys, getitem df c = Ok keys /\ (NaN ∉ cells keys) /\
                         length (cells keys) <= length churn).
  { intros c Hc. destruct (Hcats c Hc) as (keys & Hkeys & Hnan).
    exists keys. split; [done|]. split; [done|].
    pose proof (getitem_well_formed _ _ _ Hwf Hkeys) as H1.
    pose proof (getitem_well_formed _ _ _ Hwf Hchurn) as H2.
    simpl in H2. rewrite length_fmap in H2. lia. }
  pose proof (encode_frames_total "Churn" cat_columns df df churn Hchurn
                (fun _ _ => eq_refl) Churn_not_category no_alias_Churn Hcols) as Hok.
  destruct (encode_frames_means "Churn" cat_columns df df churn Hchurn
              (fun _ _ => eq_refl) no_alias_Churn Hok) as (Hchurn' & _ & Hmeans).
  pose proof (encode_frames_index "Churn" cat_columns df) as Hindex.
  pose proof (fun name => encode_frames_names_incl "Churn" cat_columns df name)
    as Hincl.
  destruct (encode_frames "Churn" cat_columns df) as [res encoded].
  simpl in *. subst res.
  unfold getitem_series. rewrite Hchurn'.
  destruct (getitem_list_total encoded keep_cols) as [selected Hsel].
  { intros k Hk. rewrite keep_cols_parts in Hk. apply elem_of_app in Hk as [Hk|Hk].
    - by apply Hincl, Hraw.
    - unfold encoded_columns in Hk.
      apply list_elem_of_fmap in Hk as (c & -> & Hc).
      destruct (Hmeans c Hc) as (keys & enc & _ & Henc & _).
      by apply getitem_in_names in Henc. }
  rewrite Hsel.
  destruct (getitem_list_Ok _ _ _ Hsel) as [Hisel Hnames].
  unfold setitem_list at 1.
  destruct (decide (length (columns selected) = length keep_cols)) as [Hlen|Hlen].
  2:{ exfalso. apply Hlen. unfold column_names in Hnames.
      by rewrite <- Hnames, length_fmap. }
  eexists _, _. split; [reflexivity|].
  destruct (foldl_setitem_names (zip keep_cols (columns selected))
              (mkDataFrame (index selected) [])) as [_ Hi].
  { change (NoDup (zip keep_cols (columns selected)).*1).
    rewrite fst_zip by lia. apply NoDup_keep_cols. }
  unfold nrows. simpl in *. rewrite Hi. simpl. by rewrite Hisel, Hindex.
Qed.

(** X7.  With the response "Churn", [perform_feature_engineering] returns
    on every well-formed table of at least two rows that has a numeric
    [Churn] column, the fourteen raw columns and the five categorical
    columns without missing values. *)
Theorem perform_feature_engineering_returns r w df churn :
  heap w !! r = Some df ->
  well_formed df ->
  2 <= nrows df ->
  getitem df "Churn" = Ok (FloatColumn churn) ->
  (forall c, c ∈ cat_columns ->
     exists keys, getitem df c = Ok keys /\ (NaN ∉ cells keys)) ->
  (forall name, name ∈ raw_columns -> name ∈ column_names df) ->
  exists out w',
    perform_feature_engineering RandomState rng_permutation r "Churn" w
    = (Ok out, w').
Proof.
  intros Hr Hwf Hrows Hchurn Hcats Hraw.
  destruct (engineered_reaches_split df churn Hwf Hchurn Hcats Hraw)
    as (X & label & Heng & HX & Hlabel).
  pose proof (perform_feature_engineering_run RandomState rng_permutation
                r "Churn" w df Hr) as Hrun.
  rewrite Heng in Hrun. unfold split_seeded in Hrun.
  rewrite decide_True in Hrun by lia. simpl in Hrun.
  pose proof (n_test_of_bounds RandomState rng_permutation (nrows X)) as Hb.
  rewrite decide_False in Hrun by lia.
  destruct (perform_feature_engineering RandomState rng_permutation r "Churn" w)
    as [res w'].
  simpl in Hrun. subst res. eauto.
Qed.

(** X8.  On such a table with fewer than two rows the call raises a value
    error: the split would leave the training part empty. *)
Theorem perform_feature_engineering_too_few_rows r w df churn :
  heap w !! r = Some df ->
  well_formed df ->
  nrows df < 2 ->
  getitem df "Churn" = Ok (FloatColumn churn) ->
  (forall c, c ∈ cat_columns ->
     exists keys, getitem df c = Ok keys /\ (NaN ∉ cells keys)) ->
  (forall name, name ∈ raw_columns -> name ∈ column_names df) ->
  (perform_feature_engineering RandomState rng_permutation r "Churn" w).1
  = Raise ValueError.
Proof.
  intros Hr Hwf Hrows Hchurn Hcats Hraw.
  destruct (engineered_reaches_split df churn Hwf Hchurn Hcats Hraw)
    as (X & label & Heng & HX & Hlabel).
  rewrite (perform_feature_engineering_run RandomState rng_permutation
             r "Churn" w df Hr), Heng.
  unfold split_seeded. rewrite decide_True by lia. simpl.
  pose proof (n_test_of_bounds RandomState rng_permutation (nrows X)) as Hb.
  by rewrite decide_True by lia.
Qed.

Lemma fresh_ne (h : gmap nat DataFrame) r df : h !! r = Some df -> r ≠ fresh (dom h).
Proof. intros Hr ->. by rewrite fresh_unused in Hr. Qed.

(** X9.  [perform_feature_engineering] changes no object that existed
    before the call, the caller's table among them, on success and on
    failure alike, and it leaves the process-wide generator in the state it
    found it in. *)
Theorem perform_feature_engineering_frame r response w r0 df0 :
  heap w !! r0 = Some df0 ->
  heap (perform_feature_engineering RandomState rng_permutation r response w).2
    !! r0 = Some df0 /\
  np_random (perform_feature_engineering RandomState rng_permutation r response w).2
  = np_random w.
Proof.
  intros Hr0.
  destruct (heap w !! r) as [df|] eqn:Hr.
  2:{ by rewrite (perform_feature_engineering_unbound _ _ _ _ _ Hr). }
  pose proof (fresh_ne _ _ _ Hr0) as Hne1.
  unfold perform_feature_engineering, bind, deref, lift, new_frame, modify.
  rewrite (encoder_helper_run _ _ _ _ _ Hr).
  destruct (encode_frames response cat_columns df) as [[[]|e] encoded];
    cbn [heap np_random fst snd].
  2:{ by rewrite lookup_insert_ne. }
  assert (Hh1 : <[fresh (dom (heap w)) := encoded]> (heap w) !! r0 = Some df0)
    by (by rewrite lookup_insert_ne).
  pose proof (fresh_ne _ _ _ Hh1) as Hne2.
  rewrite lookup_insert_eq.
  destruct (getitem_series encoded "Churn") as [label|e];
    cbn [heap np_random fst snd]; [|done].
  destruct (getitem_list encoded keep_cols) as [selected|e];
    cbn [heap np_random fst snd].
  2:{ by rewrite lookup_insert_ne. }
  rewrite lookup_insert_eq.
  destruct (setitem_list keep_cols selected (mkDataFrame [] [])) as [X|e];
    cbn [heap np_random fst snd].
  2:{ by rewrite lookup_insert_ne. }
  rewrite lookup_insert_eq. cbn [heap np_random fst snd].
  rewrite lookup_insert_eq. rewrite train_test_split_seeded.
  cbn [heap np_random fst snd].
  by rewrite !lookup_insert_ne.
Qed.

Lemma engineered_missing_encoded df response name vals :
  getitem df "Customer_Age" = Ok (FloatColumn vals) ->
  name ∈ encoded_columns ->
  name ∉ column_names df ->
  (forall c, c ∈ cat_columns -> target_name response c ≠ name) ->
  exists missing,
    engineered RandomState rng_permutation df response = Raise (KeyError missing).
Proof.
  intros Hage Hname Hnot Htarget. unfold engineered.
  assert (is_error : forall e, is_KeyError e ->
            exists missing,
              Raise (A := DataFrame * DataFrame * Series * Series) e
              = Raise (KeyError missing)).
  { intros [] He; try done. eauto. }
  destruct (encode_frames response cat_columns df) as [[[]|e] encoded] eqn:Henc.
  - unfold getitem_series, getitem.
    destruct (alist_lookup "Churn" (columns encoded)); [|eauto].
    destruct (getitem_list_missing encoded keep_cols name) as [missing ->];
      [| |eauto].
    + rewrite keep_cols_parts. apply elem_of_app. by right.
    + intros Hin.
      pose proof (encode_frames_names response cat_columns df name) as Hnames.
      rewrite Henc in Hnames. destruct (Hnames Hin) as [?|Ht]; [done|].
      apply list_elem_of_fmap in Ht as (cat & Heq & Hcat).
      by apply (Htarget cat).
  - apply is_error.
    apply (encode_frames_Raise response cat_columns df "Customer_Age" vals);
      [|done|by rewrite Henc].
    apply (bool_decide_unpack _). by vm_compute.
Qed.

(** X10.  With the empty response the encoder overwrites the categorical
    columns in place, so the five encoded names are not created:
    [perform_feature_engineering] raises a key error on every table with a
    numeric [Customer_Age] that lacks one of them. *)
Theorem perform_feature_engineering_empty_response r w df vals name :
  heap w !! r = Some df ->
  getitem df "Customer_Age" = Ok (FloatColumn vals) ->
  name ∈ encoded_columns ->
  name ∉ column_names df ->
  exists missing,
    (perform_feature_engineering RandomState rng_permutation r "" w).1
    = Raise (KeyError missing).
Proof.
  intros Hr Hage Hname Hnot.
  rewrite (perform_feature_engineering_run _ _ _ _ _ _ Hr).
  apply (engineered_missing_encoded df "" name vals Hage Hname Hnot).
  intros c Hc. change (target_name "" c) with c. intros ->.
  revert Hc Hname. unfold cat_columns, encoded_columns. csimpl.
  intros Hc Hname.
  repeat (apply elem_of_cons in Hname as [->|Hname]);
    [..|by apply elem_of_nil in Hname];
    revert Hc; apply (bool_decide_unpack _); by vm_compute.
Qed.

(** What a successful call is made of. *)
Lemma engineered_parts df response x_train x_test y_train y_test :
  engineered RandomState rng_permutation df response
    = Ok (x_train, x_test, y_train, y_test) ->
  let n_test := n_test_of (3 # 10) (nrows df) in
  let permutation := (rng_permutation (RandomState 42) (nrows df)).1 in
  let train_pos := take (nrows df - n_test) (drop n_test permutation) in
  let test_pos := take n_test permutation in
  exists encoded label X,
    encode_frames response cat_columns df = (Ok tt, encoded) /\
    getitem_series encoded "Churn" = Ok label /\
    index X = index df /\
    (forall k, k ∈ keep_cols -> getitem X k = getitem encoded k) /\
    x_train = iloc train_pos X /\ x_test = iloc test_pos X /\
    y_train = iloc_series train_pos label /\
    y_test = iloc_series test_pos label.
Proof.
  intros Heng.
  destruct (engineered_Ok _ _ _ _ _ _ _ _ Heng)
    as (encoded & label & selected & X & Henc & Hlabel & Hsel & Hset & Hsplit).
  destruct (getitem_list_Ok _ _ _ Hsel) as [Hisel Hnames].
  destruct (setitem_list_empty _ _ _ NoDup_keep_cols Hnames Hset) as [_ HiX].
  assert (Hidx : index X = index df).
  { rewrite HiX, Hisel.
    pose proof (encode_frames_index response cat_columns df) as Hi.
    by rewrite Henc in Hi. }
  destruct (split_seeded_Ok _ _ _ _ _ _ _ _ _ Hsplit)
    as (_ & _ & -> & -> & -> & ->).
  exists encoded, label, X. unfold nrows. rewrite Hidx.
  repeat (split; [done|]). split; [|done].
  intros k Hk.
  exact (setitem_list_getitem encoded keep_cols selected X k NoDup_keep_cols
           Hsel Hset Hk).
Qed.

(** X11.  When the row labels of the table are distinct and the generator
    returns a permutation of the positions, no row of the table is in both
    parts of a successful split. *)
Theorem perform_feature_engineering_disjoint r response w df
    x_train x_test y_train y_test w' :
  (forall g n, (rng_permutation g n).1 ≡ₚ seq 0 n) ->
  NoDup (index df) ->
  heap w !! r = Some df ->
  perform_feature_engineering RandomState rng_permutation r response w
    = (Ok (x_train, x_test, y_train, y_test), w') ->
  forall label, label ∈ index x_train -> label ∉ index x_test.
Proof.
  intros Hperm Hnd Hr Hrun.
  pose proof (perform_feature_engineering_run RandomState rng_permutation
                _ response _ _ Hr) as Heng.
  rewrite Hrun in Heng. symmetry in Heng.
  destruct (engineered_parts _ _ _ _ _ _ Heng)
    as (encoded & lab & X & _ & _ & Hidx & _ & -> & -> & _ & _).
  simpl. rewrite Hidx.
  pose proof (take_positions_split
                (rng_permutation (RandomState 42) (nrows df)).1 (index df)
                (n_test_of (3 # 10) (nrows df)) (Hperm _ _)) as Hsplit.
  rewrite <- Hsplit in Hnd.
  apply list.NoDup_app in Hnd as (_ & Hdisj & _). exact Hdisj.
Qed.

Lemma category_not_Churn c : c ∈ cat_columns -> c ≠ "Churn".
Proof. intros Hc ->. by apply Churn_not_category. Qed.

Lemma target_not_raw response c raw :
  c ∈ cat_columns -> raw ∈ raw_columns -> target_name response c ≠ raw.
Proof.
  unfold target_name, cat_columns, raw_columns. intros Hc Hraw.
  repeat (apply elem_of_cons in Hc as [->|Hc]); [..|by apply elem_of_nil in Hc];
    (repeat (apply elem_of_cons in Hraw as [->|Hraw]);
     [..|by apply elem_of_nil in Hraw];
     destruct (truthy response); simpl; discriminate).
Qed.

(** X12.  In a successful call the two parts are the rows of the table at
    the positions the split drew: their row labels, their fourteen raw
    columns and their [Churn] labels are those of the input at these
    positions, so features and labels stay aligned and the raw values pass
    through unchanged. *)
Theorem perform_feature_engineering_rows r response w df
    x_train x_test y_train y_test w' :
  heap w !! r = Some df ->
  perform_feature_engineering RandomState rng_permutation r response w
    = (Ok (x_train, x_test, y_train, y_test), w') ->
  exists train_pos test_pos,
    index x_train = take_positions train_pos (index df) /\
    index x_test = take_positions test_pos (index df) /\
    s_index y_train = index x_train /\ s_index y_test = index x_test /\
    (forall name c, name ∈ raw_columns -> getitem df name = Ok c ->
       getitem x_train name = Ok (column_take train_pos c) /\
       getitem x_test name = Ok (column_take test_pos c)) /\
    (forall churn, getitem df "Churn" = Ok churn ->
       s_values y_train = column_take train_pos churn /\
       s_values y_test = column_take test_pos churn).
Proof.
  intros Hr Hrun.
  pose proof (perform_feature_engineering_run RandomState rng_permutation
                _ response _ _ Hr) as Heng.
  rewrite Hrun in Heng. symmetry in Heng.
  destruct (engineered_parts _ _ _ _ _ _ Heng)
    as (encoded & lab & X & Henc & Hlab & Hidx & HX & -> & -> & -> & ->).
  eexists _, _. simpl. rewrite Hidx.
  assert (Hsame : forall name, (forall c, c ∈ cat_columns ->
                                   target_name response c ≠ name) ->
            getitem encoded name = getitem df name).
  { intros name Hname.
    pose proof (encode_frames_other response cat_columns df name) as Ho.
    rewrite Henc in Ho. apply Ho. intros Hin.
    apply list_elem_of_fmap in Hin as (c & -> & Hc). by apply (Hname c). }
  assert (Hlabel : s_index lab = index df /\
                   forall churn, getitem df "Churn" = Ok churn ->
                                 s_values lab = churn).
  { unfold getitem_series in Hlab.
    rewrite Hsame in Hlab
      by (intros c Hc; by apply target_name_not_Churn, category_not_Churn).
    pose proof (encode_frames_index response cat_columns df) as Hi.
    rewrite Henc in Hi. simpl in Hi.
    destruct (getitem df "Churn") as [churn|]; [|done].
    injection Hlab as <-. simpl. split; [done|]. by intros ? [= <-]. }
  destruct Hlabel as [Hli Hlv]. rewrite Hli.
  repeat (split; [done|]). split.
  - intros name c Hname Hc.
    assert (getitem X name = Ok c) as HXc.
    { rewrite HX by (rewrite keep_cols_parts; apply elem_of_app; by left).
      rewrite Hsame; [done|]. intros cat Hcat. by apply target_not_raw. }
    split; by apply getitem_iloc.
  - intros churn Hchurn. by rewrite (Hlv churn Hchurn).
Qed.

End FeatureEngineeringMore.

Ltac decide_by_computation := apply (bool_decide_unpack _); by vm_compute.

Ltac sample_categories Hc :=
  unfold cat_columns in Hc;
  repeat (apply elem_of_cons in Hc as [->|Hc]);
  [..|by apply elem_of_nil in Hc];
  (eexists; split; [reflexivity|]; decide_by_computation).

Lemma perform_feature_engineering_returns_witness :
  exists out w',
    perform_feature_engineering toy_RandomState toy_permutation 0 "Churn" churn_world
    = (Ok out, w').
Proof.
  apply (perform_feature_engineering_returns toy_RandomState toy_permutation
           0 churn_world churn_table [num 0; num 1; num 0; num 1]).
  - reflexivity.
  - decide_by_computation.
  - decide_by_computation.
  - reflexivity.
  - intros c Hc. sample_categories Hc.
  - apply list.Forall_forall. decide_by_computation.
Defined.

Lemma perform_feature_engineering_too_few_rows_witness :
  (perform_feature_engineering toy_RandomState toy_permutation 0 "Churn"
     single_row_world).1 = Raise ValueError.
Proof.
  apply (perform_feature_engineering_too_few_rows toy_RandomState toy_permutation
           0 single_row_world single_row_table [num 0]).
  - reflexivity.
  - decide_by_computation.
  - decide_by_computation.
  - reflexivity.
  - intros c Hc. sample_categories Hc.
  - apply list.Forall_forall. decide_by_computation.
Defined.

Lemma perform_feature_engineering_frame_witness :
  heap (perform_feature_engineering toy_RandomState toy_permutation 1 "Churn"
          other_world).2 !! 0 = Some pair_table /\
  np_random (perform_feature_engineering toy_RandomState toy_permutation 1 "Churn"
               other_world).2 = [7%Z; 11%Z].
Proof.
  apply (perform_feature_engineering_frame toy_RandomState toy_permutation
           1 "Churn" other_world 0 pair_table).
  reflexivity.
Defined.

Lemma perform_feature_engineering_empty_response_witness :
  exists missing,
    (perform_feature_engineering toy_RandomState toy_permutation 0 "" churn_world).1
    = Raise (KeyError missing).
Proof.
  apply (perform_feature_engineering_empty_response toy_RandomState
           toy_permutation 0 churn_world churn_table
           [num 45; num 49; num 51; num 40] "Gender_Churn").
  - reflexivity.
  - reflexivity.
  - decide_by_computation.
  - decide_by_computation.
Defined.

Lemma perform_feature_engineering_disjoint_witness :
  exists x_train x_test y_train y_test w',
    perform_feature_engineering toy_RandomState toy_permutation 0 "Churn" churn_world
      = (Ok (x_train, x_test, y_train, y_test), w') /\
    forall label, label ∈ index x_train -> label ∉ index x_test.
Proof.
  pose (out := perform_feature_engineering toy_RandomState toy_permutation 0
                 "Churn" churn_world).
  pose (t := result_default no_split out.1).
  assert (Hrun : out = (Ok (t.1.1.1, t.1.1.2, t.1.2, t.2), out.2))
    by (vm_compute; reflexivity).
  assert (Hnd : NoDup (index churn_table)) by decide_by_computation.
  exists t.1.1.1, t.1.1.2, t.1.2, t.2, out.2. split; [exact Hrun|].
  exact (perform_feature_engineering_disjoint toy_RandomState toy_permutation
           0 "Churn" churn_world churn_table _ _ _ _ _
           toy_permutation_valid Hnd eq_refl Hrun).
Defined.

Lemma perform_feature_engineering_rows_witness :
  exists x_train x_test y_train y_test w' train_pos,
    perform_feature_engineering toy_RandomState toy_permutation 0 "Churn" churn_world
      = (Ok (x_train, x_test, y_train, y_test), w') /\
    getitem x_train "Customer_Age"
      = Ok (column_take train_pos (FloatColumn [num 45; num 49; num 51; num 40])) /\
    s_values y_train
      = column_take train_pos (FloatColumn [num 0; num 1; num 0; num 1]).
Proof.
  pose (out := perform_feature_engineering toy_RandomState toy_permutation 0
                 "Churn" churn_world).
  pose (t := result_default no_split out.1).
  assert (Hrun : out = (Ok (t.1.1.1, t.1.1.2, t.1.2, t.2), out.2))
    by (vm_compute; reflexivity).
  destruct (perform_feature_engineering_rows toy_RandomState toy_permutation
              0 "Churn" churn_world churn_table _ _ _ _ _ eq_refl Hrun)
    as (train_pos & test_pos & _ & _ & _ & _ & Hraw & Hchurn).
  exists t.1.1.1, t.1.1.2, t.1.2, t.2, out.2, train_pos.
  split; [exact Hrun|]. split.
  - apply (Hraw "Customer_Age"); [apply list_elem_of_here | reflexivity].
  - by apply Hchurn.
Defined.

(** ** More on [import_data] *)

(** X13.  [import_data] returns exactly when the file can be read and has
    an [Attrition_Flag] column.  A read error is passed on and leaves the
    store as it was; a table without the column gives the key error for
    "Attrition_Flag". *)
Theorem import_data_outcome read_csv pth w :
  (forall e, read_csv pth = Raise e ->
     import_data read_csv pth w = (Raise e, w)) /\
  (forall parsed, read_csv pth = Ok parsed ->
     "Attrition_Flag" ∉ column_names parsed ->
     (import_data read_csv pth w).1 = Raise (KeyError [Str "Attrition_Flag"])) /\
  (forall parsed, read_csv pth = Ok parsed ->
     "Attrition_Flag" ∈ column_names parsed ->
     exists r w', import_data read_csv pth w = (Ok r, w')).
Proof.
  unfold import_data, bind, lift, new_frame, deref, modify, ret.
  split; [|split].
  - by intros e ->.
  - intros parsed -> Hnot. simpl. rewrite lookup_insert_eq.
    apply alist_lookup_None in Hnot. unfold getitem. by rewrite Hnot.
  - intros parsed -> Hin. simpl. rewrite lookup_insert_eq.
    unfold getitem.
    destruct (alist_lookup "Attrition_Flag" (columns parsed)) eqn:Hl.
    + simpl. rewrite lookup_insert_eq. eauto.
    + apply alist_lookup_None in Hl. done.
Qed.

Lemma import_data_outcome_witness :
  (import_data bank_read_csv "./data/missing.csv" empty_world).1
  = Raise FileNotFoundError.
Proof.
  destruct (import_data_outcome bank_read_csv "./data/missing.csv" empty_world)
    as (Hread & _ & _).
  by rewrite (Hread FileNotFoundError eq_refl).
Defined.

(** X14.  A successful [import_data] keeps what was read: the row labels and
    every column other than [Churn] are those of the parsed table; [Churn]
    goes last when the file has no such column and replaces it in place
    otherwise; a well-formed table stays well-formed; and nothing that was in
    the store before is changed. *)
Theorem import_data_keeps_table read_csv pth w r w' :
  import_data read_csv pth w = (Ok r, w') ->
  exists parsed df,
    read_csv pth = Ok parsed /\
    heap w !! r = None /\
    heap w' !! r = Some df /\
    (forall r0 df0, heap w !! r0 = Some df0 -> heap w' !! r0 = Some df0) /\
    index df = index parsed /\
    (forall name, name ≠ "Churn" -> getitem df name = getitem parsed name) /\
    ("Churn" ∉ column_names parsed ->
       column_names df = column_names parsed ++ ["Churn"]) /\
    ("Churn" ∈ column_names parsed -> column_names df = column_names parsed) /\
    (well_formed parsed -> well_formed df).
Proof.
  intros Hrun.
  destruct (import_data_inv _ _ _ _ _ Hrun) as (parsed & flags & Hread & Hflags & Hdf).
  exists parsed. eexists. split; [done|].
  unfold import_data, bind, lift, new_frame, deref, modify, ret in Hrun.
  rewrite Hread in Hrun. simpl in Hrun. rewrite lookup_insert_eq in Hrun.
  rewrite Hflags in Hrun. simpl in Hrun. rewrite lookup_insert_eq in Hrun.
  injection Hrun as <- <-.
  split; [apply fresh_unused|]. split; [simpl; apply lookup_insert_eq|].
  split.
  { intros r0 df0 Hr0. simpl.
    rewrite !lookup_insert_ne by (apply not_eq_sym; eapply fresh_ne, Hr0). done. }
  split; [done|]. split.
  { intros name Hne. by rewrite getitem_setitem_ne. }
  split; [apply alist_set_names_notin|]. split; [apply alist_set_names_in|].
  intros Hwf. apply setitem_well_formed; [done|].
  simpl. rewrite !length_fmap.
  pose proof (getitem_well_formed _ _ _ Hwf Hflags) as Hlen. done.
Qed.

Lemma import_data_keeps_table_witness :
  exists r w' df,
    import_data bank_read_csv bank_csv empty_world = (Ok r, w') /\
    heap w' !! r = Some df /\
    getitem df "Gender" = getitem bank_table "Gender" /\
    column_names df = column_names bank_table ++ ["Churn"].
Proof.
  assert (Hrun : import_data bank_read_csv bank_csv empty_world
                 = (Ok (fresh (dom (heap empty_world))),
                    (import_data bank_read_csv bank_csv empty_world).2))
    by (vm_compute; reflexivity).
  destruct (import_data_keeps_table _ _ _ _ _ Hrun)
    as (parsed & df & Hread & _ & Hdf & _ & _ & Hcols & Hlast & _).
  injection Hread as <-.
  eexists _, _, df. split; [exact Hrun|]. split; [exact Hdf|]. split.
  - by apply Hcols.
  - apply Hlast. decide_by_computation.
Defined.

(** ** More on the report images *)

(** X15.  On inputs that [classification_report] accepts in each of its
    four calls (labels that are flags, at least one of them, and one
    prediction per label), [classification_report_image] returns and writes
    exactly two files, leaving every other path as it was.  The two figures
    have the axes switched off and four texts each.  The size set by the
    function applies to figures made afterwards only: the random-forest
    figure has the default size in force before the call, the
    logistic-regression figure is six by six, and six by six stays the
    default. *)
Theorem classification_report_image_files
    (classification_report : Series -> list Z -> string)
    y_train y_test y_train_preds_lr y_train_preds_rf
    y_test_preds_lr y_test_preds_rf s :
  report_defined y_train y_train_preds_rf ->
  report_defined y_test y_test_preds_rf ->
  report_defined y_train y_train_preds_lr ->
  report_defined y_test y_test_preds_lr ->
  (classification_report_image classification_report y_train y_test
     y_train_preds_lr y_train_preds_rf y_test_preds_lr y_test_preds_rf s).1
  = Ok tt /\
  (forall path,
     path ≠ "./images/results/rf_results.png" ->
     path ≠ "./images/results/logistic_results.png" ->
     disk (classification_report_image classification_report y_train y_test
             y_train_preds_lr y_train_preds_rf y_test_preds_lr y_test_preds_rf s).2
       !! path = disk s !! path) /\
  rc_figsize (classification_report_image classification_report y_train y_test
                y_train_preds_lr y_train_preds_rf y_test_preds_lr
                y_test_preds_rf s).2 = (6 # 1, 6 # 1) /\
  exists rf lr,
    disk (classification_report_image classification_report y_train y_test
            y_train_preds_lr y_train_preds_rf y_test_preds_lr y_test_preds_rf s).2
      !! "./images/results/rf_results.png" = Some (Image rf) /\
    disk (classification_report_image classification_report y_train y_test
            y_train_preds_lr y_train_preds_rf y_test_preds_lr y_test_preds_rf s).2
      !! "./images/results/logistic_results.png" = Some (Image lr) /\
    fig_size rf = rc_figsize s /\ fig_size lr = (6 # 1, 6 # 1) /\
    fig_axis_on rf = false /\ fig_axis_on lr = false /\
    length (fig_texts rf) = 4 /\ length (fig_texts lr) = 4.
Proof.
  intros _ _ _ _. cbn -[insert lookup].
  split; [done|]. split.
  { intros path Hrf Hlr. by rewrite !lookup_insert_ne. }
  split; [done|]. eexists _, _.
  rewrite lookup_insert_ne by apply not_eq_sym, rf_results_ne_logistic.
  rewrite !lookup_insert_eq. repeat split.
Qed.

Lemma train_labels_report_defined (y_pred : list Z) :
  length y_pred = 3 -> report_defined train_labels y_pred.
Proof.
  intros Hlen. unfold report_defined. rewrite Hlen. simpl.
  split; [lia|]. split; [done|]. split; [done|].
  constructor; [by right|]. constructor; [by left|].
  constructor; [by left|]. constructor.
Qed.

Lemma test_labels_report_defined (y_pred : list Z) :
  length y_pred = 1 -> report_defined test_labels y_pred.
Proof.
  intros Hlen. unfold report_defined. rewrite Hlen. simpl.
  split; [lia|]. split; [done|]. split; [done|].
  constructor; [by right|]. constructor.
Qed.

Lemma classification_report_image_files_witness :
  (classification_report_image toy_report train_labels test_labels
     [0; 0; 0]%Z [1; 0; 0]%Z [0]%Z [1]%Z empty_session).1 = Ok tt.
Proof.
  apply (classification_report_image_files toy_report train_labels test_labels
           [0; 0; 0]%Z [1; 0; 0]%Z [0]%Z [1]%Z empty_session
           (train_labels_report_defined [1; 0; 0]%Z eq_refl)
           (test_labels_report_defined [1]%Z eq_refl)
           (train_labels_report_defined [0; 0; 0]%Z eq_refl)
           (test_labels_report_defined [0]%Z eq_refl)).
Defined.

(** ** More on the feature-importance chart *)

Lemma columns_at_total names indices :
  Forall (fun idx => idx < length names) indices ->
  columns_at names indices = Ok (take_positions indices names).
Proof.
  unfold take_positions. induction 1 as [|i rest Hi _ IH]; [done|].
  simpl. destruct (lookup_lt_is_Some_2 names i Hi) as [name Hname].
  by rewrite Hname, IH.
Qed.

Lemma columns_at_out_of_range names indices :
  ~ Forall (fun idx => idx < length names) indices ->
  columns_at names indices = Raise IndexError.
Proof.
  induction indices as [|i rest IH]; intros Hnot.
  - destruct Hnot. constructor.
  - simpl. destruct (names !! i) as [name|] eqn:Hi; [|done].
    rewrite IH; [done|]. intros Hrest. apply Hnot. constructor; [|done].
    by apply lookup_lt_Some in Hi.
Qed.

(** X16.  Whatever its outcome, [feature_importance_plot] touches no file
    but the chart it is asked for, and when it raises it has written
    nothing; the default figure size is left alone. *)
Theorem feature_importance_plot_files (argsort : list Qc -> list nat)
    model features output_pth s :
  (forall path, path ≠ output_pth +:+ "feature_importances.png" ->
     disk (feature_importance_plot argsort model features output_pth s).2 !! path
     = disk s !! path) /\
  (forall e,
     (feature_importance_plot argsort model features output_pth s).1 = Raise e ->
     disk (feature_importance_plot argsort model features output_pth s).2
     = disk s) /\
  rc_figsize (feature_importance_plot argsort model features output_pth s).2
  = rc_figsize s.
Proof.
  unfold feature_importance_plot, bind, lift.
  destruct (best_estimator_ model) as [best|]; simpl; [|done].
  destruct (columns_at _ _) as [names|]; simpl; [|done].
  unfold plt_bar, plt_xticks, plt_savefig, on_gcf, raise.
  destruct (decide _); simpl; [|done].
  destruct (decide _); simpl; [|done].
  split; [|done]. intros path Hne. by rewrite lookup_insert_ne.
Qed.

(** X17.  A search that has not been fitted makes [feature_importance_plot]
    raise an attribute error, and a feature table with fewer columns than the
    forest has importances makes it raise an index error; in both cases
    nothing has been drawn or written. *)
Theorem feature_importance_plot_errors (argsort : list Qc -> list nat)
    model features output_pth s :
  (best_estimator_ model = None ->
     feature_importance_plot argsort model features output_pth s
     = (Raise AttributeError, s)) /\
  (forall best,
     best_estimator_ model = Some best ->
     argsort (feature_importances_ best)
       ≡ₚ seq 0 (length (feature_importances_ best)) ->
     length (columns features) < length (feature_importances_ best) ->
     feature_importance_plot argsort model features output_pth s
     = (Raise IndexError, s)).
Proof.
  unfold feature_importance_plot, bind, lift. split.
  - by intros ->.
  - intros best -> Hperm Hlt. simpl.
    rewrite columns_at_out_of_range; [done|].
    intros Hall. rewrite list.Forall_forall in Hall.
    specialize (Hall (length (columns features))).
    unfold column_names in Hall. rewrite length_fmap in Hall.
    assert (length (columns features) < length (columns features)); [|lia].
    apply Hall. rewrite elem_of_reverse, Hperm. apply elem_of_seq. lia.
Qed.

Lemma feature_importance_plot_run (argsort : list Qc -> list nat)
    model features output_pth s best :
  best_estimator_ model = Some best ->
  argsort (feature_importances_ best)
    ≡ₚ seq 0 (length (feature_importances_ best)) ->
  length (feature_importances_ best) = length (columns features) ->
  exists fig,
    feature_importance_plot argsort model features output_pth s
    = (Ok tt,
       mkSession (rc_figsize s) fig
         (<[output_pth +:+ "feature_importances.png" := Image fig]> (disk s))).
Proof.
  intros Hbest Hperm Hlen.
  set (importances := feature_importances_ best) in *.
  set (indices := reverse (argsort importances)).
  assert (Hind : indices ≡ₚ seq 0 (length importances)).
  { unfold indices. by rewrite reverse_Permutation. }
  assert (Hvalid : Forall (fun idx => idx < length importances) indices).
  { apply list.Forall_forall. intros idx Hidx. rewrite Hind in Hidx.
    apply elem_of_seq in Hidx. lia. }
  assert (Hlen_ind : length indices = length importances).
  { apply Permutation_length in Hind. by rewrite length_seq in Hind. }
  unfold feature_importance_plot, bind, lift. rewrite Hbest. simpl.
  fold importances. fold indices.
  rewrite columns_at_total
    by (unfold column_names; rewrite length_fmap; by rewrite <- Hlen).
  unfold plt_bar, plt_xticks, plt_savefig, on_gcf, raise.
  rewrite length_seq.
  rewrite !length_take_positions.
  - rewrite decide_True by lia. simpl. rewrite decide_True by lia. simpl. eauto.
  - intros i Hi. unfold column_names. rewrite length_fmap, <- Hlen.
    by apply (proj1 (list.Forall_forall _ _) Hvalid).
  - intros i Hi. by apply (proj1 (list.Forall_forall _ _) Hvalid).
Qed.

(** X18.  [feature_importance_plot] returns whenever the search is fitted,
    the forest has one importance per feature column and [argsort] returns a
    permutation of the positions. *)
Theorem feature_importance_plot_returns (argsort : list Qc -> list nat)
    model features output_pth s best :
  best_estimator_ model = Some best ->
  argsort (feature_importances_ best)
    ≡ₚ seq 0 (length (feature_importances_ best)) ->
  length (feature_importances_ best) = length (columns features) ->
  exists s', feature_importance_plot argsort model features output_pth s
             = (Ok tt, s').
Proof.
  intros Hbest Hperm Hlen.
  destruct (feature_importance_plot_run argsort model features output_pth s
              best Hbest Hperm Hlen) as [fig ->].
  eauto.
Qed.

(** ** More on [train_models] *)

Lemma classification_report_image_run
    (classification_report : Series -> list Z -> string)
    y_train y_test y_train_preds_lr y_train_preds_rf
    y_test_preds_lr y_test_preds_rf s :
  exists rf lr,
    classification_report_image classification_report y_train y_test
      y_train_preds_lr y_train_preds_rf y_test_preds_lr y_test_preds_rf s
    = (Ok tt,
       mkSession (6 # 1, 6 # 1) lr
         (<["./images/results/logistic_results.png" := Image lr]>
            (<["./images/results/rf_results.png" := Image rf]> (disk s)))).
Proof. eexists _, _. cbn -[insert]. reflexivity. Qed.

Section Training.

Variable classification_report : Series -> list Z -> string.
Variable argsort : list Qc -> list nat.
Variable grid_search_fit :
  GridSearchCV -> DataFrame -> Series -> result RandomForestClassifier.
Variable lr_fit :
  LogisticRegression -> DataFrame -> Series -> result LogisticRegression.
Variable rf_predict : RandomForestClassifier -> DataFrame -> list Z.
Variable lr_predict : LogisticRegression -> DataFrame -> list Z.

Lemma flags_report_defined y X (y_pred : list Z) :
  flags_for y X -> 1 <= nrows X -> length y_pred = nrows X ->
  report_defined y y_pred.
Proof.
  intros [Hidx Hvals] Hrows Hlen. unfold report_defined. rewrite Hlen, Hidx.
  split; [done|]. split; [done|]. by destruct (s_values y).
Qed.

(** X19.  [train_models] returns on a split the estimators accept
    (complete numeric features with at least one row, the same columns in
    both parts, one flag per row as label) whenever both fits succeed, the
    four prediction calls return one prediction per row, the refitted forest
    has one importance per column of the test features and [argsort] returns
    a permutation.  Every report it asks for is then on inputs the report
    accepts, and it has written six files: the two pickled estimators (the
    forest the search returned and the fitted linear model), the ROC image
    with the linear model's curve first, the two report images and the
    importance chart; every other path is as before. *)
Theorem train_models_returns x_train x_test y_train y_test s best fitted :
  valid_split x_train x_test y_train y_test ->
  grid_search_fit (mkGridSearchCV rfc param_grid 5 None) x_train y_train
    = Ok best ->
  lr_fit lrc x_train y_train = Ok fitted ->
  length (rf_predict best x_train) = nrows x_train ->
  length (rf_predict best x_test) = nrows x_test ->
  length (lr_predict fitted x_train) = nrows x_train ->
  length (lr_predict fitted x_test) = nrows x_test ->
  argsort (feature_importances_ best)
    ≡ₚ seq 0 (length (feature_importances_ best)) ->
  length (feature_importances_ best) = length (columns x_test) ->
  report_defined y_train (rf_predict best x_train) /\
  report_defined y_test (rf_predict best x_test) /\
  report_defined y_train (lr_predict fitted x_train) /\
  report_defined y_test (lr_predict fitted x_test) /\
  exists s' roc rf lr chart,
    train_models classification_report argsort grid_search_fit lr_fit
      rf_predict lr_predict x_train x_test y_train y_test s = (Ok tt, s') /\
    disk s' !! "./models/rfc_model.pkl" = Some (PickledForest best) /\
    disk s' !! "./models/logistic_model.pkl" = Some (PickledLogistic fitted) /\
    disk s' !! "./images/results/roc_curve_result.png" = Some (Image roc) /\
    fig_curves roc = ["LogisticRegression"; "RandomForestClassifier"] /\
    fig_size roc = (15 # 1, 8 # 1) /\
    disk s' !! "./images/results/rf_results.png" = Some (Image rf) /\
    disk s' !! "./images/results/logistic_results.png" = Some (Image lr) /\
    disk s' !! "./images/results/feature_importances.png" = Some (Image chart) /\
    (forall path,
       path ∉ ["./models/rfc_model.pkl"; "./models/logistic_model.pkl";
               "./images/results/roc_curve_result.png";
               "./images/results/rf_results.png";
               "./images/results/logistic_results.png";
               "./images/results/feature_importances.png"] ->
       disk s' !! path = disk s !! path).
Proof.
  intros (Htrain & Htest & _ & Hytrain & Hytest) Hgs Hlr
    Hrf_train Hrf_test Hlr_train Hlr_test Hperm Hlen.
  destruct Htrain as [Hntrain _]. destruct Htest as [Hntest _].
  split; [by eapply flags_report_defined|].
  split; [by eapply flags_report_defined|].
  split; [by eapply flags_report_defined|].
  split; [by eapply flags_report_defined|].
  unfold train_models, bind, lift. rewrite Hgs, Hlr.
  cbn -[insert lookup classification_report_image feature_importance_plot].
  match goal with
  | |- context [classification_report_image ?c ?a1 ?a2 ?a3 ?a4 ?a5 ?a6 ?s0] =>
      destruct (classification_report_image_run c a1 a2 a3 a4 a5 a6 s0)
        as (rf & lr & ->)
  end.
  cbn -[insert lookup feature_importance_plot].
  match goal with
  | |- context [feature_importance_plot ?a ?m ?f ?o ?s0] =>
      destruct (feature_importance_plot_run a m f o s0 best eq_refl Hperm Hlen)
        as (chart & ->)
  end.
  eexists _, _, rf, lr, chart. split; [reflexivity|].
  cbn -[insert lookup String.append].
  change ("./images/results/" +:+ "feature_importances.png")
    with "./images/results/feature_importances.png".
  repeat split.
  - rewrite !lookup_insert_ne by done. apply lookup_insert_eq.
  - rewrite !lookup_insert_ne by done. apply lookup_insert_eq.
  - rewrite !lookup_insert_ne by done. apply lookup_insert_eq.
  - reflexivity.
  - reflexivity.
  - rewrite !lookup_insert_ne by done. apply lookup_insert_eq.
  - rewrite !lookup_insert_ne by done. apply lookup_insert_eq.
  - apply lookup_insert_eq.
  - intros path Hpath. repeat (apply not_elem_of_cons in Hpath as [? Hpath]).
    by rewrite !lookup_insert_ne.
Qed.

(** X20.  When the search or the linear fit fails, [train_models] raises
    that error and nothing has been written or drawn: no model file and no
    report exist from a failed training. *)
Theorem train_models_fit_failure x_train x_test y_train y_test s :
  (forall e,
     grid_search_fit (mkGridSearchCV rfc param_grid 5 None) x_train y_train
       = Raise e ->
     train_models classification_report argsort grid_search_fit lr_fit
       rf_predict lr_predict x_train x_test y_train y_test s = (Raise e, s)) /\
  (forall best e,
     grid_search_fit (mkGridSearchCV rfc param_grid 5 None) x_train y_train
       = Ok best ->
     lr_fit lrc x_train y_train = Raise e ->
     train_models classification_report argsort grid_search_fit lr_fit
       rf_predict lr_predict x_train x_test y_train y_test s = (Raise e, s)).
Proof.
  unfold train_models, bind, lift. split.
  - by intros e ->.
  - by intros best e -> ->.
Qed.

End Training.

Lemma toy_argsort_fitted_forest :
  toy_argsort (feature_importances_ fitted_forest)
  ≡ₚ seq 0 (length (feature_importances_ fitted_forest)).
Proof. decide_by_computation. Qed.

Lemma feature_importance_plot_files_witness :
  disk (feature_importance_plot toy_argsort unfitted_search three_features
          "./images/results/" empty_session).2 = disk empty_session.
Proof.
  destruct (feature_importance_plot_files toy_argsort unfitted_search
              three_features "./images/results/" empty_session) as (_ & Hfail & _).
  by apply (Hfail AttributeError).
Defined.

Lemma feature_importance_plot_errors_witness :
  feature_importance_plot toy_argsort fitted_search pair_table
    "./images/results/" empty_session = (Raise IndexError, empty_session).
Proof.
  destruct (feature_importance_plot_errors toy_argsort fitted_search pair_table
              "./images/results/" empty_session) as [_ Hfew].
  apply (Hfew fitted_forest eq_refl toy_argsort_fitted_forest).
  simpl; lia.
Defined.

Lemma feature_importance_plot_returns_witness :
  exists s', feature_importance_plot toy_argsort fitted_search three_features
               "./images/results/" empty_session = (Ok tt, s').
Proof.
  apply (feature_importance_plot_returns toy_argsort fitted_search
           three_features "./images/results/" empty_session fitted_forest
           eq_refl toy_argsort_fitted_forest eq_refl).
Defined.

Lemma three_features_valid_split :
  valid_split three_features three_features pair_labels pair_labels.
Proof.
  assert (HX : numeric_complete three_features).
  { split; [unfold nrows; simpl; lia|].
    repeat (constructor; [split; [reflexivity | decide_by_computation]|]).
    constructor. }
  assert (Hy : flags_for pair_labels three_features).
  { split; [reflexivity|]. split; [reflexivity|].
    constructor; [by right|]. constructor; [by left|]. constructor. }
  exact (conj HX (conj HX (conj eq_refl (conj Hy Hy)))).
Qed.

Lemma train_models_returns_witness :
  exists s',
    train_models toy_report toy_argsort toy_grid_search_fit toy_lr_fit
      toy_rf_predict toy_lr_predict three_features three_features
      pair_labels pair_labels empty_session = (Ok tt, s') /\
    disk s' !! "./models/logistic_model.pkl" = Some (PickledLogistic lrc).
Proof.
  assert (Hperm : toy_argsort [Q2Qc (1 # 19); Q2Qc (1 # 19); Q2Qc (1 # 19)]
                  ≡ₚ seq 0 3) by decide_by_computation.
  destruct (train_models_returns toy_report toy_argsort toy_grid_search_fit
              toy_lr_fit toy_rf_predict toy_lr_predict three_features
              three_features pair_labels pair_labels empty_session
              _ lrc three_features_valid_split eq_refl eq_refl
              eq_refl eq_refl eq_refl eq_refl Hperm eq_refl)
    as (_ & _ & _ & _ & s' & roc & rf & lr & chart & Hrun & _ & Hlr & _).
  exists s'. split; [exact Hrun | exact Hlr].
Defined.

Lemma train_models_fit_failure_witness :
  train_models toy_report toy_argsort failing_grid_search_fit toy_lr_fit
    toy_rf_predict toy_lr_predict three_features three_features
    test_labels test_labels empty_session = (Raise ValueError, empty_session).
Proof.
  destruct (train_models_fit_failure toy_report toy_argsort
              failing_grid_search_fit toy_lr_fit toy_rf_predict toy_lr_predict
              three_features three_features test_labels test_labels
              empty_session) as [Hgs _].
  by apply Hgs.
Defined.

(** ** The exploratory plots *)

Lemma getattr_getitem (df : DataFrame) (name : string) (c : Column) :
  getitem df name = Ok c -> getattr df name = Ok c.
Proof.
  unfold getitem, getattr. by destruct (alist_lookup name (columns df)).
Qed.

Lemma getitem_missing (df : DataFrame) (name : string) :
  name ∉ column_names df -> getitem df name = Raise (KeyError [Str name]).
Proof.
  intros Hname. destruct (getitem df name) as [c|e] eqn:Hc.
  - exfalso. apply Hname. by eapply getitem_in_names.
  - unfold getitem in *. by destruct (alist_lookup name (columns df)).
Qed.

Lemma getattr_missing (df : DataFrame) (name : string) :
  name ∉ column_names df -> getattr df name = Raise AttributeError.
Proof.
  intros Hname. unfold getattr.
  destruct (alist_lookup name (columns df)) as [c|] eqn:Hc; [|done].
  exfalso. apply Hname. eapply getitem_in_names. unfold getitem. by rewrite Hc.
Qed.

Lemma getitem_present df name :
  name ∈ column_names df -> exists c, getitem df name = Ok c.
Proof.
  intros Hin. unfold getitem.
  destruct (alist_lookup name (columns df)) as [c|] eqn:Hc; [eauto|].
  by apply alist_lookup_None in Hc.
Qed.

Ltac eda_cases :=
  unfold perform_eda, bind, lift, draw, plt_figure_clear, plt_figure,
    plt_savefig, on_gcf; cbn -[insert lookup eda_images]; fold canvas;
  repeat (match goal with
          | |- context [match ?x with Ok _ => _ | Raise _ => _ end] => destruct x
          end; cbn -[insert lookup eda_images]; fold canvas).

Section Exploration.

Variable series_hist : Column -> figure -> result figure.
Variable value_counts_bar : Column -> figure -> result figure.
Variable sns_histplot : Column -> figure -> result figure.
Variable sns_heatmap : DataFrame -> figure -> result figure.

Lemma perform_eda_keeps (eda_df : DataFrame) (s : session) (path : string) :
  path ∉ eda_images ->
  disk (perform_eda series_hist value_counts_bar sns_histplot sns_heatmap
          eda_df s).2 !! path = disk s !! path.
Proof.
  intros Hpath. unfold eda_images in Hpath. rewrite !not_elem_of_cons in Hpath.
  destruct Hpath as (? & ? & ? & ? & ? & _).
  eda_cases; by rewrite ?lookup_insert_ne by done.
Qed.

(** X21.  When the table has the four columns it plots and no plotting
    call fails, [perform_eda] returns and has written its five images, each
    holding what the library drew on an empty figure of 20 by 10: the [Churn]
    histogram, the [Customer_Age] histogram, the [Marital_Status] bar chart,
    the [Total_Trans_Ct] density plot and the heat map of the whole table.
    Every other path, and the default figure size, are as before. *)
Theorem perform_eda_files (eda_df : DataFrame) (s : session)
    (churn age marital trans : Column) (f1 f2 f3 f4 f5 : figure) :
  getitem eda_df "Churn" = Ok churn ->
  getitem eda_df "Customer_Age" = Ok age ->
  getitem eda_df "Marital_Status" = Ok marital ->
  getitem eda_df "Total_Trans_Ct" = Ok trans ->
  series_hist churn canvas = Ok f1 ->
  series_hist age canvas = Ok f2 ->
  value_counts_bar marital canvas = Ok f3 ->
  sns_histplot trans canvas = Ok f4 ->
  sns_heatmap eda_df canvas = Ok f5 ->
  exists s' : session,
    perform_eda series_hist value_counts_bar sns_histplot sns_heatmap eda_df s
      = (Ok tt, s') /\
    disk s' !! "./images/eda/churn_distribution.png" = Some (Image f1) /\
    disk s' !! "./images/eda/customer_age_distribution.png" = Some (Image f2) /\
    disk s' !! "./images/eda/marital_status_distribution.png" = Some (Image f3) /\
    disk s' !! "./images/eda/total_transaction_distribution.png"
      = Some (Image f4) /\
    disk s' !! "./images/eda/heatmap.png" = Some (Image f5) /\
    (forall path : string, path ∉ eda_images -> disk s' !! path = disk s !! path) /\
    rc_figsize s' = rc_figsize s.
Proof.
  intros Hchurn Hage Hmarital Htrans H1 H2 H3 H4 H5.
  apply getattr_getitem in Hmarital.
  eexists. split.
  - unfold perform_eda, bind, lift, draw, plt_figure_clear, plt_figure,
      plt_savefig, on_gcf. cbn -[insert].
    fold canvas. rewrite Hchurn, H1. cbn -[insert]. fold canvas.
    rewrite Hage, H2. cbn -[insert]. fold canvas.
    rewrite Hmarital, H3. cbn -[insert]. fold canvas.
    rewrite Htrans, H4. cbn -[insert]. fold canvas. rewrite H5.
    reflexivity.
  - cbn -[insert lookup eda_images].
    repeat split.
    + rewrite !lookup_insert_ne by done. apply lookup_insert_eq.
    + rewrite !lookup_insert_ne by done. apply lookup_insert_eq.
    + rewrite !lookup_insert_ne by done. apply lookup_insert_eq.
    + rewrite !lookup_insert_ne by done. apply lookup_insert_eq.
    + apply lookup_insert_eq.
    + intros path Hpath. unfold eda_images in Hpath.
      rewrite !not_elem_of_cons in Hpath.
      destruct Hpath as (? & ? & ? & ? & ? & _).
      by rewrite !lookup_insert_ne.
Qed.

(** X22.  A table without a [Churn] column makes [perform_eda] raise the
    key error for "Churn" before anything is written; an empty figure of 20
    by 10 is left as the current one. *)
Theorem perform_eda_missing_churn (eda_df : DataFrame) (s : session) :
  "Churn" ∉ column_names eda_df ->
  exists s' : session,
    perform_eda series_hist value_counts_bar sns_histplot sns_heatmap eda_df s
      = (Raise (KeyError [Str "Churn"]), s') /\
    disk s' = disk s /\ gcf s' = canvas.
Proof.
  intros Hchurn. apply getitem_missing in Hchurn.
  eexists. split.
  - unfold perform_eda, bind, lift, draw, plt_figure_clear, plt_figure,
      plt_savefig, on_gcf. cbn -[insert]. rewrite Hchurn. reflexivity.
  - done.
Qed.

(** X23.  [Marital_Status] is read as an attribute, so a table that lacks
    it (and has the two columns plotted before it, whose histograms succeed)
    makes [perform_eda] raise an attribute error, not a key error; by then
    the first two images have been written, and they stay on disk. *)
Theorem perform_eda_missing_marital_status (eda_df : DataFrame) (s : session)
    (churn age : Column) (f1 f2 : figure) :
  getitem eda_df "Churn" = Ok churn ->
  getitem eda_df "Customer_Age" = Ok age ->
  series_hist churn canvas = Ok f1 ->
  series_hist age canvas = Ok f2 ->
  "Marital_Status" ∉ column_names eda_df ->
  exists s' : session,
    perform_eda series_hist value_counts_bar sns_histplot sns_heatmap eda_df s
      = (Raise AttributeError, s') /\
    disk s' = <["./images/eda/customer_age_distribution.png" := Image f2]>
                (<["./images/eda/churn_distribution.png" := Image f1]> (disk s)).
Proof.
  intros Hchurn Hage H1 H2 Hmarital. apply getattr_missing in Hmarital.
  eexists. split.
  - unfold perform_eda, bind, lift, draw, plt_figure_clear, plt_figure,
      plt_savefig, on_gcf. cbn -[insert].
    fold canvas. rewrite Hchurn, H1. cbn -[insert]. fold canvas.
    rewrite Hage, H2. cbn -[insert]. rewrite Hmarital. reflexivity.
  - done.
Qed.

(** X24.  Whatever its outcome, [perform_eda] writes to no path other than
    its five images and leaves the default figure size alone; and when it
    raises, the heat map, which is drawn last, has not been written. *)
Theorem perform_eda_frame (eda_df : DataFrame) (s : session) :
  let out :=
    perform_eda series_hist value_counts_bar sns_histplot sns_heatmap eda_df s in
  (forall path : string,
     path ∉ eda_images -> disk out.2 !! path = disk s !! path) /\
  rc_figsize out.2 = rc_figsize s /\
  (out.1 <> Ok tt ->
   disk out.2 !! "./images/eda/heatmap.png" = disk s !! "./images/eda/heatmap.png").
Proof.
  split; [intros path Hpath; by apply perform_eda_keeps|].
  eda_cases.
  all: split; [done|]; intros Hne; try done; by rewrite ?lookup_insert_ne by done.
Qed.

End Exploration.

(** ** The script *)

Lemma bind_Ok {S A B} (m : Py S A) (k : A -> Py S B) s a s' :
  m s = (Ok a, s') -> bind m k s = k a s'.
Proof. unfold bind. by intros ->. Qed.

Lemma bind_Raise {S A B} (m : Py S A) (k : A -> Py S B) s e s' :
  m s = (Raise e, s') -> bind m k s = (Raise e, s').
Proof. unfold bind. by intros ->. Qed.

Lemma in_world_run {A} (m : Py world A) p res w' :
  m (objects p) = (res, w') -> in_world m p = (res, mkProcess w' (pyplot p)).
Proof. unfold in_world. by intros ->. Qed.

Lemma in_session_run {A} (m : Py session A) p res s' :
  m (pyplot p) = (res, s') -> in_session m p = (res, mkProcess (objects p) s').
Proof. unfold in_session. by intros ->. Qed.

Lemma setitem_names_incl name c df name' :
  name' ∈ column_names df -> name' ∈ column_names (setitem name c df).
Proof.
  intros Hin. destruct (getitem_present df name' Hin) as [c' Hc'].
  destruct (decide (name = name')) as [->|Hne].
  - eapply getitem_in_names, getitem_setitem_eq.
  - eapply getitem_in_names. rewrite getitem_setitem_ne by done. exact Hc'.
Qed.

Lemma import_data_run read_csv pth w parsed flags :
  read_csv pth = Ok parsed ->
  getitem parsed "Attrition_Flag" = Ok flags ->
  exists w',
    import_data read_csv pth w = (Ok (fresh (dom (heap w))), w') /\
    heap w' !! fresh (dom (heap w))
      = Some (setitem "Churn" (FloatColumn (Some ∘ churn_of <$> cells flags))
                parsed).
Proof.
  intros Hread Hflags.
  unfold import_data, bind, lift, new_frame, deref, modify, ret.
  rewrite Hread. simpl. rewrite lookup_insert_eq, Hflags. simpl.
  rewrite lookup_insert_eq. eexists. split; [reflexivity|].
  simpl. by rewrite lookup_insert_eq.
Qed.

Lemma deref_run r w df : heap w !! r = Some df -> deref r w = (Ok df, w).
Proof. unfold deref. by intros ->. Qed.

Lemma alist_lookup_NoDup {A} (l : list (string * A)) k v :
  NoDup l.*1 -> (k, v) ∈ l -> alist_lookup k l = Some v.
Proof.
  induction l as [|[k' v'] l IH]; csimpl; intros Hnd Hin.
  - by apply elem_of_nil in Hin.
  - apply list.NoDup_cons in Hnd as [Hk' Hnd].
    apply elem_of_cons in Hin as [[= -> ->]|Hin].
    + by rewrite decide_True.
    + rewrite decide_False; [by apply IH|].
      intros ->. apply Hk'. apply list_elem_of_fmap. by exists (k, v).
Qed.

Lemma take_positions_Forall {A} (P : A -> Prop) pos (l : list A) :
  Forall P l -> Forall P (take_positions pos l).
Proof.
  intros Hall. unfold take_positions.
  induction pos as [|i pos IH]; csimpl; [constructor|].
  destruct (l !! i) as [x|] eqn:Hx; csimpl; [|done].
  constructor; [|done]. by eapply (proj1 (list.Forall_lookup _ _) Hall).
Qed.

Lemma complete_column_take pos n c :
  complete n c -> (forall i, i ∈ pos -> i < n) ->
  complete (length pos) (column_take pos c).
Proof.
  destruct c as [vals|vals]; [|done]. intros [Hlen Hall] Hpos. simpl. split.
  - apply length_take_positions. intros i Hi. rewrite Hlen. by apply Hpos.
  - by apply take_positions_Forall.
Qed.

Lemma iloc_numeric_complete pos X :
  numeric_complete X -> (forall i, i ∈ pos -> i < nrows X) -> 1 <= length pos ->
  numeric_complete (iloc pos X).
Proof.
  intros [_ Hcols] Hpos Hlen.
  assert (Hn : nrows (iloc pos X) = length pos).
  { unfold nrows, iloc. simpl. by apply length_take_positions. }
  split; [lia|]. rewrite Hn. unfold iloc. simpl.
  apply list.Forall_fmap. eapply list.Forall_impl; [exact Hcols|].
  intros [name c] Hc. simpl in *.
  by apply (complete_column_take pos (nrows X)).
Qed.

Lemma iloc_flags_for pos y X :
  flags_for y X -> (forall i, i ∈ pos -> i < nrows X) ->
  flags_for (iloc_series pos y) (iloc pos X).
Proof.
  intros [Hidx Hvals] Hpos. unfold flags_for, iloc_series, iloc. simpl.
  split; [by rewrite Hidx|].
  destruct (s_values y) as [vals|vals]; [|done]. destruct Hvals as [Hlen Hall].
  simpl. unfold nrows. simpl. split.
  - rewrite !length_take_positions; [done|done|].
    intros i Hi. rewrite Hlen. by apply Hpos.
  - by apply take_positions_Forall.
Qed.

Lemma proportion_is_Some v : is_proportion v -> is_Some v.
Proof. destruct v; [eauto | done]. Qed.

Section Stages.

Variable RandomState : Z -> list Z.
Variable rng_permutation : list Z -> nat -> list nat * list Z.

(** What the script hands to the estimators.  On a well-formed table with
    flags in [Churn], categories without missing values and complete numeric
    raw columns, the feature matrix has complete numeric columns only, and a
    split by a permutation of the positions is one the estimators accept. *)
Lemma engineered_valid_split df churn x_train x_test y_train y_test :
  (forall g n, (rng_permutation g n).1 ≡ₚ seq 0 n) ->
  well_formed df ->
  getitem df "Churn" = Ok (FloatColumn churn) ->
  Forall is_flag churn ->
  (forall name, name ∈ raw_columns ->
     exists vals, getitem df name = Ok (FloatColumn vals) /\
                  Forall is_Some vals) ->
  engineered RandomState rng_permutation df "Churn"
    = Ok (x_train, x_test, y_train, y_test) ->
  valid_split x_train x_test y_train y_test.
Proof.
  intros Hperm Hwf Hchurn Hflags Hraw Heng.
  destruct (engineered_Ok _ _ _ _ _ _ _ _ Heng)
    as (encoded & label & selected & X & Henc & Hlabel & Hsel & Hset & Hsplit).
  destruct (getitem_list_Ok _ _ _ Hsel) as [Hisel Hnames].
  destruct (setitem_list_empty _ _ _ NoDup_keep_cols Hnames Hset) as [HnX HiX].
  pose proof (encode_frames_index "Churn" cat_columns df) as Hidx.
  rewrite Henc in Hidx. simpl in Hidx.
  assert (HnrX : nrows X = nrows df).
  { unfold nrows. by rewrite HiX, Hisel, Hidx. }
  assert (Hok : (encode_frames "Churn" cat_columns df).1 = Ok tt)
    by by rewrite Henc.
  destruct (encode_frames_proportions "Churn" cat_columns df churn
              Hwf Hchurn Hflags Hok) as [_ Hnew].
  rewrite Henc in Hnew. simpl in Hnew.
  assert (Hother : forall name,
            name ∉ target_name "Churn" <$> cat_columns ->
            getitem encoded name = getitem df name).
  { intros name Hname.
    pose proof (encode_frames_other "Churn" cat_columns df name Hname) as H.
    by rewrite Henc in H. }
  (* the columns of the feature matrix *)
  assert (Hcol : forall name c, name ∈ keep_cols ->
            getitem encoded name = Ok c -> complete (nrows X) c).
  { intros name c Hname Hc. rewrite keep_cols_parts in Hname.
    apply elem_of_app in Hname as [Hname|Hname].
    - rewrite Hother in Hc.
      + destruct (Hraw name Hname) as (vals & Hvals & Hsome).
        rewrite Hvals in Hc. injection Hc as <-. simpl. split; [|done].
        pose proof (getitem_well_formed _ _ _ Hwf Hvals) as Hlen.
        simpl in Hlen. rewrite length_fmap in Hlen. lia.
      + intros Hin. apply list_elem_of_fmap in Hin as (c' & -> & Hc').
        by eapply target_not_raw.
    - unfold encoded_columns in Hname.
      apply list_elem_of_fmap in Hname as (c' & -> & Hc').
      destruct (Hnew c' Hc') as (enc & Henc' & Hlen & Hprop).
      change (target_name "Churn" c') with (c' +:+ "_Churn") in Henc'.
      rewrite Henc' in Hc. injection Hc as <-. simpl. split.
      + rewrite Hlen. unfold nrows. by rewrite HiX, Hisel.
      + eapply list.Forall_impl; [exact Hprop|]. apply proportion_is_Some. }
  assert (HcolsX : Forall (fun nc : string * Column => complete (nrows X) nc.2)
                     (columns X)).
  { apply list.Forall_forall. intros [name c] Hin. simpl.
    assert (Hname : name ∈ keep_cols).
    { rewrite <- HnX. unfold column_names. apply list_elem_of_fmap.
      by exists (name, c). }
    apply (Hcol name c Hname).
    rewrite <- (setitem_list_getitem encoded keep_cols selected X name
                  NoDup_keep_cols Hsel Hset Hname).
    unfold getitem. rewrite (alist_lookup_NoDup (columns X) name c); [done| |done].
    change (NoDup (column_names X)). rewrite HnX. apply NoDup_keep_cols. }
  (* the labels *)
  assert (Hlab : flags_for label X).
  { unfold getitem_series in Hlabel.
    rewrite Hother in Hlabel.
    - rewrite Hchurn in Hlabel. injection Hlabel as <-.
      unfold flags_for. simpl. split; [by rewrite HiX, Hisel|].
      split; [|done].
      pose proof (getitem_well_formed _ _ _ Hwf Hchurn) as Hlen.
      simpl in Hlen. rewrite length_fmap in Hlen. lia.
    - intros Hin. apply list_elem_of_fmap in Hin as (c' & Heq & Hc').
      symmetry in Heq. revert Heq. apply target_name_not_Churn.
      by apply category_not_Churn. }
  (* the split *)
  destruct (split_seeded_Ok _ _ _ _ _ _ _ _ _ Hsplit)
    as (_ & Hne & -> & -> & -> & ->).
  pose proof (n_test_of_bounds RandomState rng_permutation (nrows X)) as Hb.
  set (n := nrows X) in *. set (n_test := n_test_of (3 # 10) n) in *.
  set (permutation := (rng_permutation (RandomState 42) n).1).
  assert (Hplen : length permutation = n).
  { unfold permutation. pose proof (Permutation_length (Hperm (RandomState 42) n)) as H.
    by rewrite length_seq in H. }
  assert (Hin : forall i, i ∈ permutation -> i < n).
  { intros i Hi. unfold permutation in Hi. rewrite (Hperm _ _) in Hi.
    apply elem_of_seq in Hi. lia. }
  assert (Htr : forall i, i ∈ take (n - n_test) (drop n_test permutation) -> i < n).
  { intros i Hi. apply Hin.
    by eapply (subseteq_drop n_test), subseteq_take. }
  assert (Hte : forall i, i ∈ take n_test permutation -> i < n).
  { intros i Hi. apply Hin. by eapply subseteq_take. }
  assert (HX : numeric_complete X) by (split; [fold n; lia | done]).
  split.
  { apply iloc_numeric_complete; [done|done|].
    rewrite length_take, length_drop. lia. }
  split.
  { apply iloc_numeric_complete; [done|done|]. rewrite length_take. lia. }
  split; [by rewrite !iloc_names|].
  split; by apply iloc_flags_for.
Qed.

(** With the response "Churn", a table as the estimators need it and with
    at least two rows is split; with fewer rows the split raises. *)
Lemma perform_feature_engineering_splits r w df churn :
  heap w !! r = Some df ->
  well_formed df ->
  getitem df "Churn" = Ok (FloatColumn churn) ->
  (forall c, c ∈ cat_columns ->
     exists keys, getitem df c = Ok keys /\ (NaN ∉ cells keys)) ->
  (forall name, name ∈ raw_columns -> name ∈ column_names df) ->
  (2 <= nrows df ->
   exists x_train x_test y_train y_test,
     (perform_feature_engineering RandomState rng_permutation r "Churn" w).1
       = Ok (x_train, x_test, y_train, y_test) /\
     engineered RandomState rng_permutation df "Churn"
       = Ok (x_train, x_test, y_train, y_test) /\
     length (columns x_test) = length (columns x_train)) /\
  (nrows df < 2 ->
   (perform_feature_engineering RandomState rng_permutation r "Churn" w).1
     = Raise ValueError).
Proof.
  intros Hr Hwf Hchurn Hcats Hraw.
  destruct (engineered_reaches_split RandomState rng_permutation df churn
              Hwf Hchurn Hcats Hraw) as (X & label & Heng & HX & Hlabel).
  rewrite (perform_feature_engineering_run RandomState rng_permutation
             r "Churn" w df Hr), Heng.
  unfold split_seeded. rewrite decide_True by lia. simpl.
  pose proof (n_test_of_bounds RandomState rng_permutation (nrows X)) as Hb.
  split; intros Hrows.
  - rewrite decide_False by lia.
    eexists _, _, _, _. split; [reflexivity|]. split; [reflexivity|].
    rewrite <- !(length_fmap fst).
    change (length (column_names (iloc (take (n_test_of (3 # 10) (nrows X))
              (rng_permutation (RandomState 42) (nrows X)).1) X))
            = length (column_names (iloc
                (take (nrows X - n_test_of (3 # 10) (nrows X))
                   (drop (n_test_of (3 # 10) (nrows X))
                      (rng_permutation (RandomState 42) (nrows X)).1)) X))).
    by rewrite !iloc_names.
  - by rewrite decide_True by lia.
Qed.

(** X29.  What the script hands to the estimators.  On a well-formed table
    whose [Churn] entries are flags and whose fourteen raw columns are
    complete numeric columns, and with a generator that draws a permutation,
    a successful [perform_feature_engineering] with the response "Churn"
    returns a split the estimators accept: both feature matrices have at
    least one row and only numeric columns without a missing entry, the same
    columns in both, and each label vector holds one flag per row under the
    row's label. *)
Theorem perform_feature_engineering_valid r w df churn
    x_train x_test y_train y_test w' :
  (forall g n, (rng_permutation g n).1 ≡ₚ seq 0 n) ->
  heap w !! r = Some df ->
  well_formed df ->
  getitem df "Churn" = Ok (FloatColumn churn) ->
  Forall is_flag churn ->
  (forall name, name ∈ raw_columns ->
     exists vals, getitem df name = Ok (FloatColumn vals) /\
                  Forall is_Some vals) ->
  perform_feature_engineering RandomState rng_permutation r "Churn" w
    = (Ok (x_train, x_test, y_train, y_test), w') ->
  valid_split x_train x_test y_train y_test.
Proof.
  intros Hperm Hr Hwf Hchurn Hflags Hraw Hrun.
  pose proof (perform_feature_engineering_run RandomState rng_permutation
                r "Churn" w df Hr) as Heng.
  rewrite Hrun in Heng. symmetry in Heng.
  by eapply engineered_valid_split.
Qed.

End Stages.

Lemma feature_importance_plot_keeps (argsort : list Qc -> list nat)
    model features output_pth s path :
  path ≠ output_pth +:+ "feature_importances.png" ->
  disk (feature_importance_plot argsort model features output_pth s).2 !! path
  = disk s !! path.
Proof.
  intros Hne. unfold feature_importance_plot, bind, lift.
  destruct (best_estimator_ model) as [best|]; simpl; [|done].
  destruct (columns_at _ _) as [names|]; simpl; [|done].
  unfold plt_bar, plt_xticks, plt_savefig, on_gcf, raise.
  destruct (decide _); simpl; [|done].
  destruct (decide _); simpl; [|done].
  by rewrite lookup_insert_ne.
Qed.

Section Pipeline.

Variable read_csv : string -> result DataFrame.
Variable RandomState : Z -> list Z.
Variable rng_permutation : list Z -> nat -> list nat * list Z.
Variable series_hist : Column -> figure -> result figure.
Variable value_counts_bar : Column -> figure -> result figure.
Variable sns_histplot : Column -> figure -> result figure.
Variable sns_heatmap : DataFrame -> figure -> result figure.
Variable classification_report : Series -> list Z -> string.
Variable argsort : list Qc -> list nat.
Variable grid_search_fit :
  GridSearchCV -> DataFrame -> Series -> result RandomForestClassifier.
Variable lr_fit :
  LogisticRegression -> DataFrame -> Series -> result LogisticRegression.
Variable rf_predict : RandomForestClassifier -> DataFrame -> list Z.
Variable lr_predict : LogisticRegression -> DataFrame -> list Z.

Lemma perform_eda_run (eda_df : DataFrame) (s : session) :
  (forall name, name ∈ ["Churn"; "Customer_Age"; "Marital_Status";
                        "Total_Trans_Ct"] -> name ∈ column_names eda_df) ->
  (forall name c, name ∈ ["Churn"; "Customer_Age"] ->
     getitem eda_df name = Ok c -> exists fig, series_hist c canvas = Ok fig) ->
  (forall c, getitem eda_df "Marital_Status" = Ok c ->
     exists fig, value_counts_bar c canvas = Ok fig) ->
  (forall c, getitem eda_df "Total_Trans_Ct" = Ok c ->
     exists fig, sns_histplot c canvas = Ok fig) ->
  (exists fig, sns_heatmap eda_df canvas = Ok fig) ->
  exists s' : session,
    perform_eda series_hist value_counts_bar sns_histplot sns_heatmap eda_df s
      = (Ok tt, s') /\
    (forall path, path ∈ eda_images -> is_Some (disk s' !! path)) /\
    (forall path, path ∉ eda_images -> disk s' !! path = disk s !! path).
Proof.
  intros Hcols Hhist Hbar Hkde Hheat.
  destruct (getitem_present eda_df "Churn") as [churn Hchurn];
    [apply Hcols; decide_by_computation|].
  destruct (getitem_present eda_df "Customer_Age") as [age Hage];
    [apply Hcols; decide_by_computation|].
  destruct (getitem_present eda_df "Marital_Status") as [marital Hmarital];
    [apply Hcols; decide_by_computation|].
  destruct (getitem_present eda_df "Total_Trans_Ct") as [trans Htrans];
    [apply Hcols; decide_by_computation|].
  pose proof (getattr_getitem _ _ _ Hmarital) as Hattr.
  destruct (Hhist "Churn" churn) as [f1 H1]; [decide_by_computation|done|].
  destruct (Hhist "Customer_Age" age) as [f2 H2]; [decide_by_computation|done|].
  destruct (Hbar marital Hmarital) as [f3 H3].
  destruct (Hkde trans Htrans) as [f4 H4].
  destruct Hheat as [f5 H5].
  eexists. split.
  - unfold perform_eda, bind, lift, draw, plt_figure_clear, plt_figure,
      plt_savefig, on_gcf. cbn -[insert].
    fold canvas. rewrite Hchurn, H1. cbn -[insert]. fold canvas.
    rewrite Hage, H2. cbn -[insert]. fold canvas.
    rewrite Hattr, H3. cbn -[insert]. fold canvas.
    rewrite Htrans, H4. cbn -[insert]. fold canvas. rewrite H5.
    reflexivity.
  - cbn -[insert lookup eda_images]. split.
    + intros path Hpath. unfold eda_images in Hpath.
      rewrite !elem_of_cons, elem_of_nil in Hpath.
      destruct Hpath as [->|[->|[->|[->|[->|[]]]]]];
        rewrite ?lookup_insert_ne by done; rewrite lookup_insert_eq; eauto.
    + intros path Hpath. unfold eda_images in Hpath.
      rewrite !not_elem_of_cons in Hpath.
      destruct Hpath as (? & ? & ? & ? & ? & _).
      by rewrite !lookup_insert_ne.
Qed.

Lemma train_models_writes x_train x_test y_train y_test s best fitted :
  grid_search_fit (mkGridSearchCV rfc param_grid 5 None) x_train y_train
    = Ok best ->
  lr_fit lrc x_train y_train = Ok fitted ->
  argsort (feature_importances_ best)
    ≡ₚ seq 0 (length (feature_importances_ best)) ->
  length (feature_importances_ best) = length (columns x_test) ->
  exists s',
    train_models classification_report argsort grid_search_fit lr_fit
      rf_predict lr_predict x_train x_test y_train y_test s = (Ok tt, s') /\
    (forall path, path ∈ result_files -> is_Some (disk s' !! path)) /\
    (forall path, path ∉ result_files -> disk s' !! path = disk s !! path).
Proof.
  intros Hbest Hfitted Hperm Hlen.
  unfold train_models, bind, lift. rewrite Hbest, Hfitted.
  cbn -[insert lookup classification_report_image feature_importance_plot].
  match goal with
  | |- context [classification_report_image ?c ?a1 ?a2 ?a3 ?a4 ?a5 ?a6 ?s0] =>
      destruct (classification_report_image_run c a1 a2 a3 a4 a5 a6 s0)
        as (rf & lr & ->)
  end.
  cbn -[insert lookup feature_importance_plot].
  match goal with
  | |- context [feature_importance_plot ?a ?m ?f ?o ?s0] =>
      destruct (feature_importance_plot_run a m f o s0 best eq_refl Hperm Hlen)
        as (chart & ->)
  end.
  eexists. split; [reflexivity|].
  cbn -[insert lookup String.append result_files].
  change ("./images/results/" +:+ "feature_importances.png")
    with "./images/results/feature_importances.png".
  split.
  - intros path Hpath. unfold result_files in Hpath.
    rewrite !elem_of_cons, elem_of_nil in Hpath.
    destruct Hpath as [->|[->|[->|[->|[->|[->|[]]]]]]];
      rewrite ?lookup_insert_ne by done; rewrite lookup_insert_eq; eauto.
  - intros path Hpath. unfold result_files in Hpath.
    rewrite !not_elem_of_cons in Hpath.
    destruct Hpath as (? & ? & ? & ? & ? & ? & _).
    by rewrite !lookup_insert_ne.
Qed.

Lemma train_models_keeps x_train x_test y_train y_test s path :
  path ∉ result_files ->
  disk (train_models classification_report argsort grid_search_fit lr_fit
          rf_predict lr_predict x_train x_test y_train y_test s).2 !! path
  = disk s !! path.
Proof.
  intros Hpath. unfold result_files in Hpath.
  rewrite !not_elem_of_cons in Hpath.
  destruct Hpath as (? & ? & ? & ? & ? & ? & _).
  unfold train_models, bind, lift.
  destruct (grid_search_fit _ x_train y_train) as [best|e]; [|done].
  destruct (lr_fit lrc x_train y_train) as [fitted|e]; [|done].
  cbn -[insert lookup classification_report_image feature_importance_plot].
  match goal with
  | |- context [classification_report_image ?c ?a1 ?a2 ?a3 ?a4 ?a5 ?a6 ?s0] =>
      destruct (classification_report_image_run c a1 a2 a3 a4 a5 a6 s0)
        as (rf & lr & ->)
  end.
  cbn -[insert lookup feature_importance_plot].
  rewrite feature_importance_plot_keeps by done.
  cbn -[insert lookup]. by rewrite !lookup_insert_ne.
Qed.


(** The table [import_data] leaves for a parsed file. *)
Lemma imported_table parsed flags :
  well_formed parsed ->
  getitem parsed "Attrition_Flag" = Ok flags ->
  (forall c, c ∈ cat_columns ->
     exists keys, getitem parsed c = Ok keys /\ (NaN ∉ cells keys)) ->
  (forall name, name ∈ raw_columns -> name ∈ column_names parsed) ->
  let churn := Some ∘ churn_of <$> cells flags in
  let df := with_churn parsed flags in
  well_formed df /\
  nrows df = nrows parsed /\
  getitem df "Churn" = Ok (FloatColumn churn) /\
  Forall is_flag churn /\
  (forall name, name ≠ "Churn" -> getitem df name = getitem parsed name) /\
  (forall c, c ∈ cat_columns ->
     exists keys, getitem df c = Ok keys /\ (NaN ∉ cells keys)) /\
  (forall name, name ∈ raw_columns -> name ∈ column_names df) /\
  (forall name, name ∈ ["Churn"; "Customer_Age"; "Marital_Status";
                        "Total_Trans_Ct"] -> name ∈ column_names df).
Proof.
  intros Hwf Hflags Hcats Hraw churn df.
  assert (Hchurn : getitem df "Churn" = Ok (FloatColumn churn))
    by apply getitem_setitem_eq.
  assert (Hsame : forall name, name ≠ "Churn" ->
            getitem df name = getitem parsed name).
  { intros name Hne. unfold df, with_churn.
    by rewrite getitem_setitem_ne by done. }
  assert (Hcats' : forall c, c ∈ cat_columns ->
            exists keys, getitem df c = Ok keys /\ (NaN ∉ cells keys)).
  { intros c Hc. destruct (Hcats c Hc) as (keys & Hkeys & Hnan).
    exists keys. split; [|done].
    rewrite Hsame; [done|]. by apply category_not_Churn. }
  assert (Hraw' : forall name, name ∈ raw_columns -> name ∈ column_names df).
  { intros name Hname. by apply setitem_names_incl, Hraw. }
  split.
  { apply setitem_well_formed; [done|]. subst churn. simpl.
    rewrite !length_fmap. exact (getitem_well_formed _ _ _ Hwf Hflags). }
  split; [done|]. split; [done|]. split.
  { subst churn. apply list.Forall_fmap, list.Forall_forall. intros val _.
    simpl. unfold is_flag.
    destruct (churn_of_cases val) as [[_ ->]|[_ ->]]; [by left | by right]. }
  split; [done|]. split; [done|]. split; [done|].
  intros name Hname. rewrite !elem_of_cons, elem_of_nil in Hname.
  destruct Hname as [->|[->|[->|[->|[]]]]].
  - by eapply getitem_in_names.
  - apply Hraw'. decide_by_computation.
  - destruct (Hcats' "Marital_Status") as (keys & Hkeys & _).
    + decide_by_computation.
    + by eapply getitem_in_names.
  - apply Hraw'. decide_by_computation.
Qed.

(** X25.  The script runs to the end and leaves all eleven files when the
    data file parses to a well-formed table of at least two rows that has
    [Attrition_Flag], the five categorical columns without missing values and
    the fourteen raw columns as complete numeric columns, the generator draws
    a permutation, the five plotting calls of this run return, and on the
    split of this run both fits succeed with one importance per feature
    column, [argsort] returns a permutation and the four prediction calls
    return one prediction per row.  The split handed to the estimators is one
    they accept, and no other path is written. *)
Theorem main_writes_all_files p parsed flags :
  (forall g n, (rng_permutation g n).1 ≡ₚ seq 0 n) ->
  read_csv "./data/bank_data.csv" = Ok parsed ->
  well_formed parsed ->
  2 <= nrows parsed ->
  getitem parsed "Attrition_Flag" = Ok flags ->
  (forall c, c ∈ cat_columns ->
     exists keys, getitem parsed c = Ok keys /\ (NaN ∉ cells keys)) ->
  (forall name, name ∈ raw_columns ->
     exists vals, getitem parsed name = Ok (FloatColumn vals) /\
                  Forall is_Some vals) ->
  (forall name c, name ∈ ["Churn"; "Customer_Age"] ->
     getitem (with_churn parsed flags) name = Ok c ->
     exists fig, series_hist c canvas = Ok fig) ->
  (forall c, getitem (with_churn parsed flags) "Marital_Status" = Ok c ->
     exists fig, value_counts_bar c canvas = Ok fig) ->
  (forall c, getitem (with_churn parsed flags) "Total_Trans_Ct" = Ok c ->
     exists fig, sns_histplot c canvas = Ok fig) ->
  (exists fig, sns_heatmap (with_churn parsed flags) canvas = Ok fig) ->
  (forall x_train x_test y_train y_test,
     engineered RandomState rng_permutation (with_churn parsed flags) "Churn"
       = Ok (x_train, x_test, y_train, y_test) ->
     valid_split x_train x_test y_train y_test ->
     exists best fitted,
       grid_search_fit (mkGridSearchCV rfc param_grid 5 None) x_train y_train
         = Ok best /\
       lr_fit lrc x_train y_train = Ok fitted /\
       length (feature_importances_ best) = length (columns x_train) /\
       argsort (feature_importances_ best)
         ≡ₚ seq 0 (length (feature_importances_ best)) /\
       length (rf_predict best x_train) = nrows x_train /\
       length (rf_predict best x_test) = nrows x_test /\
       length (lr_predict fitted x_train) = nrows x_train /\
       length (lr_predict fitted x_test) = nrows x_test) ->
  exists p',
    main read_csv RandomState rng_permutation series_hist value_counts_bar
      sns_histplot sns_heatmap classification_report argsort grid_search_fit
      lr_fit rf_predict lr_predict p = (Ok tt, p') /\
    (forall path, path ∈ eda_images ++ result_files ->
       is_Some (disk (pyplot p') !! path)) /\
    (forall path, path ∉ eda_images ++ result_files ->
       disk (pyplot p') !! path = disk (pyplot p) !! path).
Proof.
  intros Hgen Hread Hwf Hrows Hflags Hcats Hraw Hhist Hbar Hkde Hheat Hfit.
  assert (Hrawin : forall name, name ∈ raw_columns -> name ∈ column_names parsed).
  { intros name Hname. destruct (Hraw name Hname) as (vals & Hvals & _).
    by eapply getitem_in_names. }
  destruct (imported_table parsed flags Hwf Hflags Hcats Hrawin)
    as (Hwf' & Hrows' & Hchurn & Hflg & Hsame & Hcats' & Hraw' & Hcols).
  assert (Hrawnum : forall name, name ∈ raw_columns ->
            exists vals, getitem (with_churn parsed flags) name
                           = Ok (FloatColumn vals) /\ Forall is_Some vals).
  { intros name Hname. rewrite Hsame; [by apply Hraw|].
    intros ->. revert Hname. decide_by_computation. }
  destruct (import_data_run read_csv _ (objects p) parsed flags Hread Hflags)
    as (w1 & Himport & Hdf).
  fold (with_churn parsed flags) in Hdf.
  unfold main.
  rewrite (bind_Ok _ _ _ _ _ (in_world_run _ _ _ _ Himport)).
  rewrite (bind_Ok _ _ _ _ _
             (in_world_run _ (mkProcess w1 (pyplot p)) _ _ (deref_run _ _ _ Hdf))).
  destruct (perform_eda_run _ (pyplot p) Hcols Hhist Hbar Hkde Hheat)
    as (s1 & Heda & Heda_in & Heda_out).
  rewrite (bind_Ok _ _ _ _ _
             (in_session_run _ (mkProcess w1 (pyplot p)) _ _ Heda)).
  destruct (perform_feature_engineering_splits RandomState rng_permutation
              _ w1 _ _ Hdf Hwf' Hchurn Hcats' Hraw') as [Hsplit _].
  destruct Hsplit as (x_train & x_test & y_train & y_test & Hpfe & Heng & Hlen);
    [lia|].
  pose proof (engineered_valid_split RandomState rng_permutation _ _ _ _ _ _
                Hgen Hwf' Hchurn Hflg Hrawnum Heng) as Hvalid.
  destruct (Hfit _ _ _ _ Heng Hvalid)
    as (best & fitted & Hbest & Hfitted & Himp & Hperm & _).
  destruct (perform_feature_engineering RandomState rng_permutation
              (fresh (dom (heap (objects p)))) "Churn" w1) as [res w2] eqn:Hrun.
  simpl in Hpfe. subst res.
  rewrite (bind_Ok _ _ _ _ _
             (in_world_run _ (mkProcess w1 s1) _ _ Hrun)).
  destruct (train_models_writes x_train x_test y_train y_test s1 best fitted
              Hbest Hfitted Hperm (eq_trans Himp (eq_sym Hlen)))
    as (s2 & Htrain & Htrain_in & Htrain_out).
  exists (mkProcess w2 s2). split.
  - exact (in_session_run _ (mkProcess w2 s1) _ _ Htrain).
  - cbn [pyplot objects]. split.
    + intros path Hpath. apply elem_of_app in Hpath as [Hpath|Hpath].
      * destruct (decide (path ∈ result_files)) as [Hres|Hres].
        -- by apply Htrain_in.
        -- rewrite Htrain_out by done. by apply Heda_in.
      * by apply Htrain_in.
    + intros path Hpath. apply not_elem_of_app in Hpath as [Heda' Hres].
      rewrite Htrain_out by done. by apply Heda_out.
Qed.

(** X26.  When the data cannot be loaded, because the file cannot be read or
    has no [Attrition_Flag] column, the script stops with that error before
    anything is drawn: pyplot and the files are as they were. *)
Theorem main_import_failure p e :
  (import_data read_csv "./data/bank_data.csv" (objects p)).1 = Raise e ->
  (main read_csv RandomState rng_permutation series_hist value_counts_bar
     sns_histplot sns_heatmap classification_report argsort grid_search_fit
     lr_fit rf_predict lr_predict p).1 = Raise e /\
  pyplot (main read_csv RandomState rng_permutation series_hist value_counts_bar
            sns_histplot sns_heatmap classification_report argsort
            grid_search_fit lr_fit rf_predict lr_predict p).2 = pyplot p.
Proof.
  intros Himport.
  destruct (import_data read_csv "./data/bank_data.csv" (objects p))
    as [res w1] eqn:Hrun.
  simpl in Himport. subst res.
  unfold main.
  by rewrite (bind_Raise _ _ _ _ _ (in_world_run _ _ _ _ Hrun)).
Qed.

(** X27.  On a data file with exactly one row that has [Attrition_Flag],
    the categorical columns without missing values and the raw columns, and
    on which the five plotting calls of this run return, the script stops
    with the value error of the split, which would leave the training part
    empty.  This is after the exploratory step: the five exploratory images
    are on disk, and no model and no result image has been written. *)
Theorem main_too_few_rows p parsed flags :
  read_csv "./data/bank_data.csv" = Ok parsed ->
  well_formed parsed ->
  nrows parsed = 1 ->
  getitem parsed "Attrition_Flag" = Ok flags ->
  (forall c, c ∈ cat_columns ->
     exists keys, getitem parsed c = Ok keys /\ (NaN ∉ cells keys)) ->
  (forall name, name ∈ raw_columns -> name ∈ column_names parsed) ->
  (forall name c, name ∈ ["Churn"; "Customer_Age"] ->
     getitem (with_churn parsed flags) name = Ok c ->
     exists fig, series_hist c canvas = Ok fig) ->
  (forall c, getitem (with_churn parsed flags) "Marital_Status" = Ok c ->
     exists fig, value_counts_bar c canvas = Ok fig) ->
  (forall c, getitem (with_churn parsed flags) "Total_Trans_Ct" = Ok c ->
     exists fig, sns_histplot c canvas = Ok fig) ->
  (exists fig, sns_heatmap (with_churn parsed flags) canvas = Ok fig) ->
  exists p',
    main read_csv RandomState rng_permutation series_hist value_counts_bar
      sns_histplot sns_heatmap classification_report argsort grid_search_fit
      lr_fit rf_predict lr_predict p = (Raise ValueError, p') /\
    (forall path, path ∈ eda_images -> is_Some (disk (pyplot p') !! path)) /\
    (forall path, path ∉ eda_images ->
       disk (pyplot p') !! path = disk (pyplot p) !! path).
Proof.
  intros Hread Hwf Hrows Hflags Hcats Hraw Hhist Hbar Hkde Hheat.
  destruct (imported_table parsed flags Hwf Hflags Hcats Hraw)
    as (Hwf' & Hrows' & Hchurn & _ & _ & Hcats' & Hraw' & Hcols).
  destruct (import_data_run read_csv _ (objects p) parsed flags Hread Hflags)
    as (w1 & Himport & Hdf).
  fold (with_churn parsed flags) in Hdf.
  unfold main.
  rewrite (bind_Ok _ _ _ _ _ (in_world_run _ _ _ _ Himport)).
  rewrite (bind_Ok _ _ _ _ _
             (in_world_run _ (mkProcess w1 (pyplot p)) _ _ (deref_run _ _ _ Hdf))).
  destruct (perform_eda_run _ (pyplot p) Hcols Hhist Hbar Hkde Hheat)
    as (s1 & Heda & Heda_in & Heda_out).
  rewrite (bind_Ok _ _ _ _ _
             (in_session_run _ (mkProcess w1 (pyplot p)) _ _ Heda)).
  destruct (perform_feature_engineering_splits RandomState rng_permutation
              _ w1 _ _ Hdf Hwf' Hchurn Hcats' Hraw') as [_ Hfew].
  specialize (Hfew ltac:(lia)).
  destruct (perform_feature_engineering RandomState rng_permutation
              (fresh (dom (heap (objects p)))) "Churn" w1) as [res w2] eqn:Hrun.
  simpl in Hfew. subst res.
  rewrite (bind_Raise _ _ _ _ _
             (in_world_run _ (mkProcess w1 s1) _ _ Hrun)).
  eexists. split; [reflexivity|]. cbn [pyplot objects]. by split.
Qed.

(** X28.  Whatever happens, the script writes to no path other than its
    eleven files. *)
Theorem main_frame p path :
  path ∉ eda_images ++ result_files ->
  disk (pyplot (main read_csv RandomState rng_permutation series_hist
                  value_counts_bar sns_histplot sns_heatmap
                  classification_report argsort grid_search_fit lr_fit
                  rf_predict lr_predict p).2) !! path
  = disk (pyplot p) !! path.
Proof.
  intros Hpath. apply not_elem_of_app in Hpath as [Heda Hres].
  unfold main, bind.
  unfold in_world at 1.
  destruct (import_data read_csv "./data/bank_data.csv" (objects p))
    as [[r|e] w1]; [|done].
  cbn [fst snd]. unfold in_world at 1. cbn [objects pyplot].
  destruct (deref r w1) as [[df|e] w1']; [|done].
  cbn [fst snd]. unfold in_session at 1. cbn [objects pyplot].
  pose proof (perform_eda_keeps series_hist value_counts_bar sns_histplot
                sns_heatmap df (pyplot p) path Heda) as Hkeep.
  destruct (perform_eda series_hist value_counts_bar sns_histplot sns_heatmap
              df (pyplot p)) as [[[]|e] s1]; cbn [fst snd] in *; [|done].
  unfold in_world at 1. cbn [objects pyplot].
  destruct (perform_feature_engineering RandomState rng_permutation r "Churn"
              w1') as [[splits|e] w2]; cbn [fst snd]; [|done].
  unfold in_session. cbn [objects pyplot fst snd].
  by rewrite train_models_keeps.
Qed.

End Pipeline.

Lemma insert_position_permutation scores i sorted :
  insert_position scores i sorted ≡ₚ i :: sorted.
Proof.
  induction sorted as [|j rest IH]; simpl; [done|].
  destruct (decide _); [done|]. rewrite IH. apply Permutation_swap.
Qed.

Lemma toy_argsort_permutation scores :
  toy_argsort scores ≡ₚ seq 0 (length scores).
Proof.
  unfold toy_argsort. induction (seq 0 (length scores)) as [|i l IH]; simpl;
    [done|].
  by rewrite insert_position_permutation, IH.
Qed.

Lemma toy_artist_draws {A} label (data : A) fig :
  exists fig', toy_artist label data fig = Ok fig'.
Proof. unfold toy_artist. eauto. Qed.

Lemma perform_eda_files_witness :
  exists s',
    perform_eda toy_hist toy_bar toy_histplot toy_heatmap churn_table
      empty_session = (Ok tt, s') /\
    disk s' !! "./images/eda/heatmap.png"
      = Some (Image (mkFigure (20 # 1, 10 # 1) "" "" [] [] [] ["heatmap"] true)).
Proof.
  destruct (perform_eda_files toy_hist toy_bar toy_histplot toy_heatmap
              churn_table empty_session _ _ _ _ _ _ _ _ _
              eq_refl eq_refl eq_refl eq_refl eq_refl eq_refl eq_refl eq_refl
              eq_refl)
    as (s' & Hrun & _ & _ & _ & _ & Hheat & _).
  exists s'. split; [exact Hrun | exact Hheat].
Defined.

Lemma perform_eda_missing_churn_witness :
  exists s',
    perform_eda toy_hist toy_bar toy_histplot toy_heatmap three_features
      empty_session = (Raise (KeyError [Str "Churn"]), s') /\
    disk s' = disk empty_session.
Proof.
  destruct (perform_eda_missing_churn toy_hist toy_bar toy_histplot toy_heatmap
              three_features empty_session) as (s' & Hrun & Hdisk & _).
  - decide_by_computation.
  - exists s'. split; [exact Hrun | exact Hdisk].
Defined.

Lemma perform_eda_missing_marital_status_witness :
  (perform_eda toy_hist toy_bar toy_histplot toy_heatmap ages_table
     empty_session).1 = Raise AttributeError.
Proof.
  destruct (perform_eda_missing_marital_status toy_hist toy_bar toy_histplot
              toy_heatmap ages_table empty_session _ _ _ _
              eq_refl eq_refl eq_refl eq_refl) as (s' & Hrun & _).
  - decide_by_computation.
  - by rewrite Hrun.
Defined.

Lemma perform_eda_frame_witness :
  disk (perform_eda toy_hist toy_bar toy_histplot toy_heatmap churn_table
          empty_session).2 !! "./models/rfc_model.pkl"
  = disk empty_session !! "./models/rfc_model.pkl".
Proof.
  destruct (perform_eda_frame toy_hist toy_bar toy_histplot toy_heatmap
              churn_table empty_session) as (Hkeep & _).
  apply Hkeep. decide_by_computation.
Defined.

(** A check by evaluation that the listed columns of a sample table are
    complete numeric columns. *)
Lemma complete_columns_check df names :
  forallb (fun name =>
             match getitem df name with
             | Ok (FloatColumn vals) =>
                 forallb (fun v => bool_decide (is_Some v)) vals
             | _ => false
             end) names = true ->
  forall name, name ∈ names ->
    exists vals, getitem df name = Ok (FloatColumn vals) /\ Forall is_Some vals.
Proof.
  intros Hall name Hname.
  rewrite forallb_forall in Hall.
  specialize (Hall name (proj1 (list_elem_of_In _ _) Hname)).
  destruct (getitem df name) as [[vals|vals]|e]; [|done|done].
  exists vals. split; [done|].
  apply list.Forall_forall. intros v Hv.
  rewrite forallb_forall in Hall.
  specialize (Hall v (proj1 (list_elem_of_In _ _) Hv)).
  by apply bool_decide_eq_true in Hall.
Qed.

Lemma toy_learners_return (x_train x_test : DataFrame) (y_train : Series) :
  exists best fitted,
    toy_grid_search_fit (mkGridSearchCV rfc param_grid 5 None) x_train y_train
      = Ok best /\
    toy_lr_fit lrc x_train y_train = Ok fitted /\
    length (feature_importances_ best) = length (columns x_train) /\
    toy_argsort (feature_importances_ best)
      ≡ₚ seq 0 (length (feature_importances_ best)) /\
    length (toy_rf_predict best x_train) = nrows x_train /\
    length (toy_rf_predict best x_test) = nrows x_test /\
    length (toy_lr_predict fitted x_train) = nrows x_train /\
    length (toy_lr_predict fitted x_test) = nrows x_test.
Proof.
  eexists _, lrc. split; [reflexivity|]. split; [reflexivity|].
  split; [simpl; by rewrite length_fmap|].
  split; [apply toy_argsort_permutation|].
  unfold toy_rf_predict, toy_lr_predict, nrows. by rewrite !length_fmap.
Qed.

Lemma perform_feature_engineering_valid_witness :
  exists x_train x_test y_train y_test w',
    perform_feature_engineering toy_RandomState toy_permutation 0 "Churn"
      churn_world = (Ok (x_train, x_test, y_train, y_test), w') /\
    valid_split x_train x_test y_train y_test.
Proof.
  pose (out := perform_feature_engineering toy_RandomState toy_permutation 0
                 "Churn" churn_world).
  pose (t := result_default no_split out.1).
  assert (Hrun : out = (Ok (t.1.1.1, t.1.1.2, t.1.2, t.2), out.2))
    by (vm_compute; reflexivity).
  assert (Hflags : Forall is_flag [num 0; num 1; num 0; num 1]).
  { constructor; [by left|]. constructor; [by right|].
    constructor; [by left|]. constructor; [by right|]. constructor. }
  exists t.1.1.1, t.1.1.2, t.1.2, t.2, out.2.
  split; [exact Hrun|].
  apply (perform_feature_engineering_valid toy_RandomState toy_permutation
           0 churn_world churn_table [num 0; num 1; num 0; num 1]
           _ _ _ _ out.2 toy_permutation_valid eq_refl).
  - decide_by_computation.
  - reflexivity.
  - exact Hflags.
  - apply complete_columns_check. vm_compute. reflexivity.
  - exact Hrun.
Defined.

Lemma main_writes_all_files_witness :
  exists p',
    main bank_read_csv toy_RandomState toy_permutation toy_hist toy_bar
      toy_histplot toy_heatmap toy_report toy_argsort toy_grid_search_fit
      toy_lr_fit toy_rf_predict toy_lr_predict start = (Ok tt, p') /\
    is_Some (disk (pyplot p') !! "./images/results/feature_importances.png").
Proof.
  destruct (main_writes_all_files bank_read_csv toy_RandomState toy_permutation
              toy_hist toy_bar toy_histplot toy_heatmap toy_report toy_argsort
              toy_grid_search_fit toy_lr_fit toy_rf_predict toy_lr_predict
              start bank_table
              (ObjectColumn [Some "Existing Customer"; Some "Attrited Customer";
                             Some "Existing Customer"; Some "Attrited Customer"]))
    as (p' & Hrun & Hfiles & _).
  - apply toy_permutation_valid.
  - reflexivity.
  - decide_by_computation.
  - decide_by_computation.
  - reflexivity.
  - intros c Hc. sample_categories Hc.
  - apply complete_columns_check. vm_compute. reflexivity.
  - intros name c _ _. apply toy_artist_draws.
  - intros c _. apply toy_artist_draws.
  - intros c _. apply toy_artist_draws.
  - apply toy_artist_draws.
  - intros x_train x_test y_train y_test _ _.
    apply (toy_learners_return x_train x_test y_train).
  - exists p'. split; [exact Hrun|]. apply Hfiles. decide_by_computation.
Defined.

Lemma main_import_failure_witness :
  (main no_read_csv toy_RandomState toy_permutation toy_hist toy_bar
     toy_histplot toy_heatmap toy_report toy_argsort toy_grid_search_fit
     toy_lr_fit toy_rf_predict toy_lr_predict start).1
  = Raise FileNotFoundError.
Proof.
  apply (main_import_failure no_read_csv toy_RandomState toy_permutation
           toy_hist toy_bar toy_histplot toy_heatmap toy_report toy_argsort
           toy_grid_search_fit toy_lr_fit toy_rf_predict toy_lr_predict
           start FileNotFoundError).
  reflexivity.
Defined.

Lemma main_too_few_rows_witness :
  exists p',
    main lone_read_csv toy_RandomState toy_permutation toy_hist toy_bar
      toy_histplot toy_heatmap toy_report toy_argsort toy_grid_search_fit
      toy_lr_fit toy_rf_predict toy_lr_predict start = (Raise ValueError, p') /\
    is_Some (disk (pyplot p') !! "./images/eda/heatmap.png") /\
    disk (pyplot p') !! "./models/rfc_model.pkl" = None.
Proof.
  destruct (main_too_few_rows lone_read_csv toy_RandomState toy_permutation
              toy_hist toy_bar toy_histplot toy_heatmap toy_report toy_argsort
              toy_grid_search_fit toy_lr_fit toy_rf_predict toy_lr_predict
              start (iloc [0] bank_table)
              (ObjectColumn [Some "Existing Customer"]))
    as (p' & Hrun & Hin & Hout).
  - reflexivity.
  - decide_by_computation.
  - reflexivity.
  - reflexivity.
  - intros c Hc. sample_categories Hc.
  - apply list.Forall_forall. decide_by_computation.
  - intros name c _ _. apply toy_artist_draws.
  - intros c _. apply toy_artist_draws.
  - intros c _. apply toy_artist_draws.
  - apply toy_artist_draws.
  - exists p'. split; [exact Hrun|]. split.
    + apply Hin. decide_by_computation.
    + rewrite Hout by decide_by_computation. reflexivity.
Defined.

Lemma main_frame_witness :
  disk (pyplot (main bank_read_csv toy_RandomState toy_permutation toy_hist
                  toy_bar toy_histplot toy_heatmap toy_report toy_argsort
                  toy_grid_search_fit toy_lr_fit toy_rf_predict toy_lr_predict
                  start).2) !! "./data/bank_data.csv"
  = disk (pyplot start) !! "./data/bank_data.csv".
Proof.
  apply (main_frame bank_read_csv toy_RandomState toy_permutation toy_hist
           toy_bar toy_histplot toy_heatmap toy_report toy_argsort
           toy_grid_search_fit toy_lr_fit toy_rf_predict toy_lr_predict
           start "./data/bank_data.csv").
  decide_by_computation.
Defined.
